(** * API-key dashboard: the record store, the /api/keys routes and the
      dashboard view-model, embedded from the TypeScript and SQL sources.

    - [Json]      : parsed request bodies and JavaScript truthiness.
    - [Schema]    : the [api_keys] table of supabase-schema.sql (columns,
                    defaults, CHECK / UNIQUE constraints, the
                    [update_updated_at_column] trigger) and the statements
                    the routes run against it.
    - [Route]     : [GET] and [POST] of app/api/keys/route.ts.
    - [RouteById] : [PATCH] and [DELETE] of /api/keys/{id}, which are not
                    among the sources and are modelled from the
                    specification.
    - [Dashboard] : the state and the handlers of app/dashboards/page.tsx
                    (the component [GrootApiKeyDashboard]), over the two
                    routes of [RouteById] taken as parameters.
    - [Samples]   : the seed rows of the schema and the scenarios of the
                    specification.
    - [Spec]      : the properties in the words of the specification.

    Then the facts: the store, [GET], [POST], the rendered table, the toast
    notifications, the handlers for any routes of /api/keys/{id}, and the
    handlers over the modelled routes. *)

From Stdlib Require Import ZArith List String Ascii Bool Lia Sorted Permutation.
From Stdlib Require Import DecimalString.
Import ListNotations.
Set Warnings "-register-all".
Open Scope string_scope.
Open Scope list_scope.
Open Scope Z_scope.

(* ------------------------------------------------------------------ *)
(** ** Parsed JSON values and JavaScript truthiness *)

Module Json.

(** A value produced by [request.json()].  Numbers are kept as integers: the
    routes only ever test a number for being zero. *)
Inductive json : Type :=
| JNull
| JBool (b : bool)
| JNum (n : Z)
| JStr (s : string)
| JArr (items : list json)
| JObj (fields : list (string * json)).

(** Property lookup in a parsed object (keys are unique after parsing). *)
Fixpoint assoc (k : string) (fields : list (string * json)) : option json :=
  match fields with
  | [] => None
  | (k', v) :: rest => if String.eqb k k' then Some v else assoc k rest
  end.

(** [body.k] for the destructuring [const { k } = body]: [None] is
    [undefined].  Primitives, arrays and objects without the key give
    [undefined]; destructuring [null] throws and is handled by the caller. *)
Definition prop (body : json) (k : string) : option json :=
  match body with
  | JObj fields => assoc k fields
  | _ => None
  end.

(** JavaScript [ToBoolean] on a value or [undefined]: the falsy values are
    [undefined], [null], [false], [0] and the empty string.  Every array and
    every object is truthy, the empty array included. *)
Definition truthy (v : option json) : bool :=
  match v with
  | None => false
  | Some JNull => false
  | Some (JBool b) => b
  | Some (JNum n) => negb (n =? 0)
  | Some (JStr s) => negb (String.eqb s "")
  | Some (JArr _) => true
  | Some (JObj _) => true
  end.

(** Truthiness of a [string | null], as returned by [searchParams.get]. *)
Definition truthy_str (v : option string) : bool :=
  match v with
  | None => false
  | Some s => negb (String.eqb s "")
  end.

End Json.
Import Json.

(* ------------------------------------------------------------------ *)
(** ** The [api_keys] table (supabase-schema.sql) *)

Module Schema.

(** [status TEXT NOT NULL CHECK (status IN ('active', 'revoked'))] *)
Inductive Status : Type := active | revoked.

(** [environment TEXT NOT NULL CHECK (environment IN (...))] *)
Inductive Environment : Type := production | staging | development.

Definition status_text (s : Status) : string :=
  match s with active => "active" | revoked => "revoked" end.

Definition environment_text (e : Environment) : string :=
  match e with
  | production => "production"
  | staging => "staging"
  | development => "development"
  end.

Definition status_of_text (s : string) : option Status :=
  if String.eqb s "active" then Some active
  else if String.eqb s "revoked" then Some revoked
  else None.

Definition environment_of_text (s : string) : option Environment :=
  if String.eqb s "production" then Some production
  else if String.eqb s "staging" then Some staging
  else if String.eqb s "development" then Some development
  else None.

(** One row.  Timestamps (TIMESTAMPTZ) are integers on the store's clock. *)
Record ApiKey : Type := mkApiKey {
  id : string;
  name : string;
  secret : string;
  status : Status;
  scopes : list string;
  created_at : Z;
  last_used : option Z;
  environment : Environment;
  updated_at : Z
}.

(** [ApiKeyUpdate]:
    [Partial<Omit<ApiKey, "id" | "created_at" | "updated_at">>]. *)
Record ApiKeyUpdate : Type := mkUpdate {
  u_name : option string;
  u_secret : option string;
  u_status : option Status;
  u_scopes : option (list string);
  u_last_used : option (option Z);
  u_environment : option Environment
}.

Definition no_update : ApiKeyUpdate :=
  mkUpdate None None None None None None.

(** The object handed to [.insert([...])]: the four request values as the
    route received them, and the two literals the route adds. *)
Record InsertRow : Type := mkInsertRow {
  i_name : option json;
  i_secret : option json;
  i_status : string;
  i_scopes : option json;
  i_environment : option json;
  i_last_used : option Z
}.

(** Columns a query can compare with [.eq]. *)
Inductive Column : Type := c_id | c_name | c_secret | c_status | c_environment.

Definition cell (c : Column) (k : ApiKey) : string :=
  match c with
  | c_id => id k
  | c_name => name k
  | c_secret => secret k
  | c_status => status_text (status k)
  | c_environment => environment_text (environment k)
  end.

(** A [select('*')] query under construction: the optional ordering on
    [created_at] (with its [ascending] flag) and the [.eq] filters. *)
Record Query : Type := mkQuery {
  ordering : option bool;
  eqs : list (Column * string)
}.

Definition select_all : Query := mkQuery None [].

Definition order_created_at (ascending : bool) (q : Query) : Query :=
  mkQuery (Some ascending) (eqs q).

Definition eq_ (c : Column) (v : string) (q : Query) : Query :=
  mkQuery (ordering q) (eqs q ++ [(c, v)]).

(** Statements received by the store, oldest first. *)
Inductive Stmt : Type :=
| SSelect (q : Query)
| SInsert (r : InsertRow)
| SUpdate (key : string) (u : ApiKeyUpdate)
| SDelete (key : string).

(** The store and its surroundings: the rows, the value [NOW()] returns,
    the values [gen_random_uuid()] will return, whether the store answers
    queries at all, the statements it has received, whether the browser
    can reach the routes, and the store's input conversions: the text it
    makes of a JSON value that is not a string when the value is offered
    for a TEXT column ([123] becomes ['123']), and the list of texts, if
    any, it makes of a JSON value that is not an array of strings when the
    value is offered for a TEXT[] column. *)
Record World : Type := mkWorld {
  table : list ApiKey;
  db_now : Z;
  db_uuids : list string;
  db_down : bool;
  db_log : list Stmt;
  net_down : bool;
  db_text : json -> string;
  db_texts : json -> option (list string)
}.

Definition set_table (t : list ApiKey) (w : World) : World :=
  mkWorld t (db_now w) (db_uuids w) (db_down w) (db_log w) (net_down w)
          (db_text w) (db_texts w).

Definition set_db_now (t : Z) (w : World) : World :=
  mkWorld (table w) t (db_uuids w) (db_down w) (db_log w) (net_down w)
          (db_text w) (db_texts w).

Definition set_db_uuids (u : list string) (w : World) : World :=
  mkWorld (table w) (db_now w) u (db_down w) (db_log w) (net_down w)
          (db_text w) (db_texts w).

Definition received (s : Stmt) (w : World) : World :=
  mkWorld (table w) (db_now w) (db_uuids w) (db_down w) (db_log w ++ [s])
          (net_down w) (db_text w) (db_texts w).

(** *** select *)

Definition matches (fs : list (Column * string)) (k : ApiKey) : bool :=
  forallb (fun f => String.eqb (cell (fst f) k) (snd f)) fs.

(** [before asc a b]: row [a] may precede row [b] in the result. *)
Definition before (ascending : bool) (a b : ApiKey) : bool :=
  if ascending then created_at a <=? created_at b
  else created_at b <=? created_at a.

Fixpoint insert_sorted (ascending : bool) (x : ApiKey) (l : list ApiKey)
  : list ApiKey :=
  match l with
  | [] => [x]
  | y :: rest =>
      if before ascending x y then x :: y :: rest
      else y :: insert_sorted ascending x rest
  end.

Fixpoint sort_rows (ascending : bool) (l : list ApiKey) : list ApiKey :=
  match l with
  | [] => []
  | x :: rest => insert_sorted ascending x (sort_rows ascending rest)
  end.

Definition run_query (q : Query) (rows : list ApiKey) : list ApiKey :=
  let hit := filter (matches (eqs q)) rows in
  match ordering q with
  | None => hit
  | Some ascending => sort_rows ascending hit
  end.

Definition store_unreachable : string := "store unreachable".

(** [await query]: the [{ data, error }] pair as a sum. *)
Definition db_select (q : Query) (w : World)
  : (string + list ApiKey) * World :=
  let w := received (SSelect q) w in
  if db_down w then (inl store_unreachable, w)
  else (inr (run_query q (table w)), w).

(** *** insert *)

(** A JSON value offered for a TEXT NOT NULL column without default: a
    string is taken as it is, an absent or [null] value is refused (NOT
    NULL), and any other value is converted to text by the store. *)
Definition as_text (w : World) (v : option json) : option string :=
  match v with
  | None => None
  | Some JNull => None
  | Some (JStr s) => Some s
  | Some other => Some (db_text w other)
  end.

Fixpoint all_text (items : list json) : option (list string) :=
  match items with
  | [] => Some []
  | JStr s :: rest =>
      match all_text rest with
      | Some l => Some (s :: l)
      | None => None
      end
  | _ :: _ => None
  end.

(** A JSON value offered for [scopes TEXT[] NOT NULL DEFAULT '{}']: an
    absent value takes the default, [null] is refused (NOT NULL), an array
    of strings is taken as it is, and any other value is converted by the
    store, which may refuse it.  (A TEXT[] value with a NULL element or
    with nested arrays is outside [ApiKey], as it is outside the
    [string[]] of the TypeScript type.) *)
Definition as_text_array (w : World) (v : option json)
  : option (list string) :=
  match v with
  | None => Some []
  | Some JNull => None
  | Some (JArr items) =>
      match all_text items with
      | Some l => Some l
      | None => db_texts w (JArr items)
      end
  | Some other => db_texts w other
  end.

Definition has_secret (s : string) (rows : list ApiKey) : bool :=
  existsb (fun k => String.eqb (secret k) s) rows.

Definition has_id (i : string) (rows : list ApiKey) : bool :=
  existsb (fun k => String.eqb (id k) i) rows.

(** [.insert([row]).select().single()]: column typing and NOT NULL, the two
    CHECK constraints, UNIQUE on [secret], then the defaults
    [gen_random_uuid()] for [id] and [NOW()] for [created_at] and
    [updated_at]. *)
Definition db_insert (r : InsertRow) (w : World)
  : (string + ApiKey) * World :=
  let w := received (SInsert r) w in
  if db_down w then (inl store_unreachable, w)
  else
    match as_text w (i_name r), as_text w (i_secret r),
          as_text_array w (i_scopes r), as_text w (i_environment r) with
    | Some n, Some s, Some sc, Some e =>
        match status_of_text (i_status r), environment_of_text e with
        | Some st, Some env =>
            if has_secret s (table w)
            then (inl "duplicate key value violates unique constraint", w)
            else
              match db_uuids w with
              | [] => (inl "no identifier available", w)
              | u :: rest =>
                  if has_id u (table w)
                  then (inl "duplicate key value violates unique constraint",
                        set_db_uuids rest w)
                  else
                    let row := mkApiKey u n s st sc (db_now w)
                                 (i_last_used r) env (db_now w) in
                    (inr row,
                     set_table (table w ++ [row]) (set_db_uuids rest w))
              end
        | _, _ => (inl "new row violates check constraint", w)
        end
    | _, _, _, _ => (inl "invalid input for column", w)
    end.

(** *** update, with the BEFORE UPDATE trigger *)

Definition or_else {A : Type} (o : option A) (d : A) : A :=
  match o with Some x => x | None => d end.

Definition apply_update (u : ApiKeyUpdate) (k : ApiKey) : ApiKey :=
  mkApiKey (id k)
           (or_else (u_name u) (name k))
           (or_else (u_secret u) (secret k))
           (or_else (u_status u) (status k))
           (or_else (u_scopes u) (scopes k))
           (created_at k)
           (or_else (u_last_used u) (last_used k))
           (or_else (u_environment u) (environment k))
           (updated_at k).

(** [update_updated_at_column]: [NEW.updated_at = NOW(); RETURN NEW;] *)
Definition update_updated_at_column (now : Z) (new : ApiKey) : ApiKey :=
  mkApiKey (id new) (name new) (secret new) (status new) (scopes new)
           (created_at new) (last_used new) (environment new) now.

(** The row written by an UPDATE of row [k]: the new values, then the
    trigger, FOR EACH ROW. *)
Definition updated_row (now : Z) (u : ApiKeyUpdate) (k : ApiKey) : ApiKey :=
  update_updated_at_column now (apply_update u k).

Definition update_where_id (now : Z) (key : string) (u : ApiKeyUpdate)
  (rows : list ApiKey) : list ApiKey :=
  map (fun k => if String.eqb (id k) key then updated_row now u k else k) rows.

Definition delete_where_id (key : string) (rows : list ApiKey)
  : list ApiKey :=
  filter (fun k => negb (String.eqb (id k) key)) rows.

Definition find_id (key : string) (rows : list ApiKey) : option ApiKey :=
  find (fun k => String.eqb (id k) key) rows.

End Schema.
Import Schema.

(* ------------------------------------------------------------------ *)
(** ** app/api/keys/route.ts *)

Module Route.

(** The body of a [NextResponse.json(...)]. *)
Inductive Body : Type :=
| BData (data : list ApiKey)
| BRecord (data : ApiKey)
| BError (error : string) (details : option string)
| BEmpty.

Record Response : Type := mkResponse {
  resp_status : Z;
  resp_body : Body
}.

(** [response.ok] *)
Definition ok (r : Response) : bool :=
  (200 <=? resp_status r) && (resp_status r <=? 299).

Definition internal_server_error : Response :=
  mkResponse 500 (BError "Internal server error" None).

(** [status && status !== 'all'] *)
Definition is_filter (v : option string) : bool :=
  truthy_str v && negb (String.eqb (or_else v "") "all").

(** [GET]: the query parameters are [searchParams.get('status')] and
    [searchParams.get('environment')]. *)
Definition GET (status environment : option string) (w : World)
  : Response * World :=
  let query := order_created_at false select_all in
  let query :=
    if is_filter status then eq_ c_status (or_else status "") query
    else query in
  let query :=
    if is_filter environment
    then eq_ c_environment (or_else environment "") query
    else query in
  let '(result, w) := db_select query w in
  match result with
  | inl message =>
      (mkResponse 500 (BError "Failed to fetch API keys" (Some message)), w)
  | inr data => (mkResponse 200 (BData data), w)
  end.

Definition missing_required_fields : string :=
  "Missing required fields: name, secret, scopes, environment".

(** [POST]: [body] is [None] when [request.json()] throws. *)
Definition POST (body : option json) (w : World) : Response * World :=
  match body with
  | None => (internal_server_error, w)
  | Some JNull => (internal_server_error, w)
  | Some b =>
      let name := prop b "name" in
      let secret := prop b "secret" in
      let scopes := prop b "scopes" in
      let environment := prop b "environment" in
      if negb (truthy name) || negb (truthy secret)
         || negb (truthy scopes) || negb (truthy environment)
      then (mkResponse 400 (BError missing_required_fields None), w)
      else
        let '(result, w) :=
          db_insert (mkInsertRow name secret "active" scopes environment None)
                    w in
        match result with
        | inl message =>
            (mkResponse 500
               (BError "Failed to create API key" (Some message)), w)
        | inr data => (mkResponse 201 (BRecord data), w)
        end
  end.

End Route.
Import Route.

(* ------------------------------------------------------------------ *)
(** ** /api/keys/{id}: PATCH and DELETE *)

Module RouteById.

(** Modelled from the spec: the answer of both handlers to an [id] that no
    record has ("404 ... on failure", NotFoundError). *)
Definition not_found : Response :=
  mkResponse 404 (BError "API key not found" None).

(** Whether a row other than [key] already holds [s] in its UNIQUE column
    [secret] (the constraint is the schema's). *)
Definition secret_taken (key : string) (s : option string)
  (rows : list ApiKey) : bool :=
  match s with
  | None => false
  | Some s =>
      existsb (fun k => negb (String.eqb (id k) key)
                        && String.eqb (secret k) s) rows
  end.

(** Modelled from the spec: the PATCH handler of /api/keys/{id} is not among
    the sources.  "update(id, patch): any subset of {name, secret, status,
    scopes, environment, last_used} may be patched; updated_at is always
    refreshed by the store.  Fails with NotFoundError if id does not exist,
    StoreError otherwise."  "PATCH /keys/{id} -> 200 {data: ApiKeyRecord};
    404/500 on failure."  The refresh of [updated_at] is the trigger of the
    schema, and a uniqueness violation on [secret] is a StoreError. *)
Definition PATCH (key : string) (u : ApiKeyUpdate) (w : World)
  : Response * World :=
  let w := received (SUpdate key u) w in
  if db_down w
  then (mkResponse 500 (BError "Failed to update API key"
                          (Some store_unreachable)), w)
  else
    match find_id key (table w) with
    | None => (not_found, w)
    | Some k =>
        if secret_taken key (u_secret u) (table w)
        then (mkResponse 500
                (BError "Failed to update API key"
                   (Some "duplicate key value violates unique constraint")),
              w)
        else
          (mkResponse 200 (BRecord (updated_row (db_now w) u k)),
           set_table (update_where_id (db_now w) key u (table w)) w)
    end.

Section Delete.

(** The spec leaves the success status of DELETE open between 204 and 200. *)
Variable deleted_status : Z.

(** Modelled from the spec: the DELETE handler of /api/keys/{id} is not
    among the sources.  "delete(id) -> success/failure.  Irreversible.
    Fails with NotFoundError or StoreError."  "DELETE /keys/{id} -> 204/200
    on success; 404/500 on failure."  "Deleting a nonexistent id is a no-op
    failure, not corruption." *)
Definition DELETE (key : string) (w : World) : Response * World :=
  let w := received (SDelete key) w in
  if db_down w
  then (mkResponse 500 (BError "Failed to delete API key"
                          (Some store_unreachable)), w)
  else
    match find_id key (table w) with
    | None => (not_found, w)
    | Some _ =>
        (mkResponse deleted_status BEmpty,
         set_table (delete_where_id key (table w)) w)
    end.

End Delete.

End RouteById.

(* ------------------------------------------------------------------ *)
(** ** app/dashboards/page.tsx (GrootApiKeyDashboard) *)

Module Dashboard.

(** ["success" | "error" | "info"] *)
Inductive ToastType : Type := toast_success | toast_error | toast_info.

(** A filter selection: ["all"] or one value of the column. *)
Inductive Filter (A : Type) : Type :=
| all
| only (a : A).
Arguments all {A}.
Arguments only {A} a.

(** What the page asks of the routes. *)
Inductive Request : Type :=
| ReqList (status environment : option string)
| ReqCreate (body : json)
| ReqPatch (key : string) (u : ApiKeyUpdate)
| ReqDelete (key : string).

(** What the page does to its surroundings, oldest first: a [fetch], a
    toast shown through [showToastNotification], a blocking [alert], and a
    [confirm] with the user's answer. *)
Inductive Event : Type :=
| EFetch (r : Request)
| EToast (message : string) (type : ToastType)
| EAlert (message : string)
| EConfirm (message : string) (answer : bool).

Record Form : Type := mkForm {
  newName : string;
  newScopes : list string;
  newEnvironment : Environment;
  isModalOpen : bool
}.

Record EditDraft : Type := mkDraft {
  d_name : string;
  d_scopes : list string;
  d_environment : Environment
}.

Record Toast : Type := mkToast {
  showToast : bool;
  toastMessage : string;
  toastType : ToastType
}.

(** The browser around the component: the time in milliseconds, the
    deadlines of the pending [setTimeout] callbacks (each one runs
    [setShowToast(false)]), and the events so far. *)
Record Browser : Type := mkBrowser {
  clock : Z;
  timers : list Z;
  events : list Event
}.

(** The component state.  [revealedSecrets] and [copiedId] are left out: no
    handler below reads or writes them. *)
Record Page : Type := mkPage {
  keys : list ApiKey;
  loading : bool;
  error : option string;
  form : Form;
  editingId : option string;
  editDraft : EditDraft;
  toast : Toast;
  filterStatus : Filter Status;
  filterEnvironment : Filter Environment;
  browser : Browser
}.

Definition setKeys (x : list ApiKey) (p : Page) : Page :=
  mkPage x (loading p) (error p) (form p) (editingId p) (editDraft p)
         (toast p) (filterStatus p) (filterEnvironment p) (browser p).

Definition setLoading (x : bool) (p : Page) : Page :=
  mkPage (keys p) x (error p) (form p) (editingId p) (editDraft p)
         (toast p) (filterStatus p) (filterEnvironment p) (browser p).

Definition setError (x : option string) (p : Page) : Page :=
  mkPage (keys p) (loading p) x (form p) (editingId p) (editDraft p)
         (toast p) (filterStatus p) (filterEnvironment p) (browser p).

Definition setForm (x : Form) (p : Page) : Page :=
  mkPage (keys p) (loading p) (error p) x (editingId p) (editDraft p)
         (toast p) (filterStatus p) (filterEnvironment p) (browser p).

Definition setEditingId (x : option string) (p : Page) : Page :=
  mkPage (keys p) (loading p) (error p) (form p) x (editDraft p)
         (toast p) (filterStatus p) (filterEnvironment p) (browser p).

Definition setEditDraft (x : EditDraft) (p : Page) : Page :=
  mkPage (keys p) (loading p) (error p) (form p) (editingId p) x
         (toast p) (filterStatus p) (filterEnvironment p) (browser p).

Definition setToast (x : Toast) (p : Page) : Page :=
  mkPage (keys p) (loading p) (error p) (form p) (editingId p) (editDraft p)
         x (filterStatus p) (filterEnvironment p) (browser p).

Definition setFilterStatus (x : Filter Status) (p : Page) : Page :=
  mkPage (keys p) (loading p) (error p) (form p) (editingId p) (editDraft p)
         (toast p) x (filterEnvironment p) (browser p).

Definition setFilterEnvironment (x : Filter Environment) (p : Page) : Page :=
  mkPage (keys p) (loading p) (error p) (form p) (editingId p) (editDraft p)
         (toast p) (filterStatus p) x (browser p).

Definition setBrowser (x : Browser) (p : Page) : Page :=
  mkPage (keys p) (loading p) (error p) (form p) (editingId p) (editDraft p)
         (toast p) (filterStatus p) (filterEnvironment p) x.

Definition setShowToast (x : bool) (p : Page) : Page :=
  setToast (mkToast x (toastMessage (toast p)) (toastType (toast p))) p.

Definition emit (e : Event) (p : Page) : Page :=
  setBrowser (mkBrowser (clock (browser p)) (timers (browser p))
                (events (browser p) ++ [e])) p.

(** [setTimeout(callback, delay)] *)
Definition setTimeout (delay : Z) (p : Page) : Page :=
  setBrowser (mkBrowser (clock (browser p))
                (timers (browser p) ++ [clock (browser p) + delay])
                (events (browser p))) p.

(** The initial state of the hooks. *)
Definition initial (t : Z) : Page :=
  mkPage [] true None (mkForm "" ["read"] development false) None
         (mkDraft "" [] development) (mkToast false "" toast_success)
         all all (mkBrowser t [] []).

(** *** Pure helpers *)

Definition generateSecret (env : string) (rand1 rand2 rand3 : string)
  : string :=
  let prefix :=
    if String.eqb env "production" then "live"
    else if String.eqb env "staging" then "test"
    else "dev" in
  "groot_" ++ prefix ++ "_" ++ rand1 ++ rand2 ++ rand3.

(** Strings hold the UTF-8 bytes of the program's strings.  [trim] removes
    the WhiteSpace and LineTerminator code points of ECMAScript from both
    ends: U+0009 to U+000D, U+0020, U+00A0, U+1680, U+2000 to U+200A,
    U+2028, U+2029, U+202F, U+205F, U+3000 and U+FEFF, listed here by their
    UTF-8 bytes. *)
Definition white_space : list (list nat) :=
  [ [9]; [10]; [11]; [12]; [13]; [32];
    [194; 160];
    [225; 154; 128];
    [226; 128; 128]; [226; 128; 129]; [226; 128; 130]; [226; 128; 131];
    [226; 128; 132]; [226; 128; 133]; [226; 128; 134]; [226; 128; 135];
    [226; 128; 136]; [226; 128; 137]; [226; 128; 138];
    [226; 128; 168]; [226; 128; 169]; [226; 128; 175];
    [226; 129; 159];
    [227; 128; 128];
    [239; 187; 191] ]%nat.

Definition of_bytes (l : list nat) : string :=
  string_of_list_ascii (map ascii_of_nat l).

Definition reversed (s : string) : string :=
  string_of_list_ascii (rev (list_ascii_of_string s)).

(** [strip_prefix w s]: [s] without its prefix [w], if [w] is one. *)
Fixpoint strip_prefix (w s : string) : option string :=
  match w, s with
  | EmptyString, _ => Some s
  | String _ _, EmptyString => None
  | String a w', String b s' =>
      if Ascii.eqb a b then strip_prefix w' s' else None
  end.

(** [s] without the first of the [marks] that is a prefix of it. *)
Fixpoint strip_one (marks : list string) (s : string) : option string :=
  match marks with
  | [] => None
  | w :: rest =>
      match strip_prefix w s with
      | Some s' => Some s'
      | None => strip_one rest s
      end
  end.

(** Strip [marks] from the front for as long as one is there; every step
    removes a byte at least, so [n] steps are enough for [n] bytes. *)
Fixpoint strip_all (marks : list string) (n : nat) (s : string) : string :=
  match n with
  | O => s
  | S n' =>
      match strip_one marks s with
      | Some s' => strip_all marks n' s'
      | None => s
      end
  end.

Definition trim_start (s : string) : string :=
  strip_all (map of_bytes white_space) (String.length s) s.

Definition trim_end (s : string) : string :=
  reversed
    (strip_all (map (fun w => of_bytes (rev w)) white_space)
       (String.length s) (reversed s)).

Definition trim (s : string) : string := trim_end (trim_start s).

Definition keep {A : Type} (eqb : A -> A -> bool) (f : Filter A) (a : A)
  : bool :=
  match f with
  | all => true
  | only x => eqb a x
  end.

Definition status_eqb (a b : Status) : bool :=
  String.eqb (status_text a) (status_text b).

Definition environment_eqb (a b : Environment) : bool :=
  String.eqb (environment_text a) (environment_text b).

(** [filteredKeys]: the rows the table body maps over. *)
Definition filteredKeys (p : Page) : list ApiKey :=
  filter (fun key =>
            let statusMatch := keep status_eqb (filterStatus p) (status key) in
            let envMatch :=
              keep environment_eqb (filterEnvironment p) (environment key) in
            statusMatch && envMatch)
         (keys p).

(** The rows of the table body: none while loading (a "Loading..." row),
    otherwise one per element of [filteredKeys]. *)
Definition rendered_rows (p : Page) : list ApiKey :=
  if loading p then [] else filteredKeys p.

Definition find_key (key : string) (p : Page) : option ApiKey :=
  find (fun k => String.eqb (id k) key) (keys p).

Definition flip (s : Status) : Status :=
  match s with active => revoked | revoked => active end.

(** *** Toast notifications and time *)

Definition showToastNotification (message : string) (type : ToastType)
  (p : Page) : Page :=
  let p := setToast (mkToast true message type) p in
  let p := emit (EToast message type) p in
  setTimeout 3000 p.

(** Time moves to [t]: every timer due by then runs its callback
    [setShowToast(false)] and is removed. *)
Definition advance (t : Z) (p : Page) : Page :=
  let due := filter (fun d => d <=? t) (timers (browser p)) in
  let pending := filter (fun d => negb (d <=? t)) (timers (browser p)) in
  let p := match due with [] => p | _ :: _ => setShowToast false p end in
  setBrowser (mkBrowser (Z.max (clock (browser p)) t) pending
                (events (browser p))) p.

Definition openModal (p : Page) : Page :=
  setForm (mkForm (newName (form p)) (newScopes (form p))
             (newEnvironment (form p)) true) p.

Definition closeModal (p : Page) : Page :=
  setForm (mkForm "" ["read"] development false) p.

Definition startEdit (key : ApiKey) (p : Page) : Page :=
  setEditDraft (mkDraft (name key) (scopes key) (environment key))
    (setEditingId (Some (id key)) p).

(** *** The handlers, over the two routes of /api/keys/{id} *)

Section Handlers.

Variable PATCH : string -> ApiKeyUpdate -> World -> Response * World.
Variable DELETE : string -> World -> Response * World.

(** [fetch]: [None] when the promise rejects (the route cannot be reached). *)
Definition fetch (r : Request) (w : World) : option Response * World :=
  if net_down w then (None, w)
  else
    let '(response, w) :=
      match r with
      | ReqList status environment => GET status environment w
      | ReqCreate body => POST (Some body) w
      | ReqPatch key u => PATCH key u w
      | ReqDelete key => DELETE key w
      end in
    (Some response, w).

(** The message of the error a rejected [fetch] throws. *)
Definition network_error : string := "Failed to fetch".

Definition param {A : Type} (text : A -> string) (f : Filter A)
  : option string :=
  match f with
  | all => None
  | only a => Some (text a)
  end.

Definition fetchKeys (p : Page) (w : World) : Page * World :=
  let p := setLoading true p in
  let request :=
    ReqList (param status_text (filterStatus p))
            (param environment_text (filterEnvironment p)) in
  let p := emit (EFetch request) p in
  let '(response, w) := fetch request w in
  let p :=
    match response with
    | Some response =>
        if ok response
        then
          let data :=
            match resp_body response with
            | BData data => data
            | _ => []
            end in
          setError None (setKeys data p)
        else setError (Some "Failed to fetch API keys") p
    | None => setError (Some network_error) p
    end in
  (setLoading false p, w).

(** [createKey]; [rand1], [rand2], [rand3] are the three results of
    [rand()] inside [generateSecret]. *)
Definition createKey (rand1 rand2 rand3 : string) (p : Page) (w : World)
  : Page * World :=
  if String.eqb (trim (newName (form p))) "" then (p, w)
  else
    let env := environment_text (newEnvironment (form p)) in
    let scopes :=
      match newScopes (form p) with
      | [] => ["read"]
      | _ :: _ => newScopes (form p)
      end in
    let newKey :=
      JObj [("name", JStr (trim (newName (form p))));
            ("secret", JStr (generateSecret env rand1 rand2 rand3));
            ("scopes", JArr (map JStr scopes));
            ("environment", JStr env)] in
    let p := emit (EFetch (ReqCreate newKey)) p in
    let '(response, w) := fetch (ReqCreate newKey) w in
    if match response with Some r => ok r | None => false end
    then
      let '(p, w) := fetchKeys p w in
      let p := closeModal p in
      (showToastNotification "API key created successfully!" toast_success p,
       w)
    else
      (showToastNotification "Failed to create API key. Please try again."
         toast_error p, w).

Definition saveEdit (p : Page) (w : World) : Page * World :=
  match editingId p with
  | None => (p, w)
  | Some key =>
      if String.eqb key "" || String.eqb (trim (d_name (editDraft p))) ""
      then (p, w)
      else
        let u :=
          mkUpdate (Some (trim (d_name (editDraft p)))) None None
                   (Some (d_scopes (editDraft p))) None
                   (Some (d_environment (editDraft p))) in
        let p := emit (EFetch (ReqPatch key u)) p in
        let '(response, w) := fetch (ReqPatch key u) w in
        if match response with Some r => ok r | None => false end
        then
          let '(p, w) := fetchKeys p w in
          let p := setEditingId None p in
          (showToastNotification "API key updated successfully!"
             toast_success p, w)
        else
          (showToastNotification
             "Failed to update API key. Please try again." toast_error p, w)
  end.

(** [rotateKey]; [new Date()] is the browser clock. *)
Definition rotateKey (rand1 rand2 rand3 : string) (key : string) (p : Page)
  (w : World) : Page * World :=
  match find_key key p with
  | None => (p, w)
  | Some k =>
      let u :=
        mkUpdate None
          (Some (generateSecret (environment_text (environment k))
                   rand1 rand2 rand3))
          None None (Some (Some (clock (browser p)))) None in
      let p := emit (EFetch (ReqPatch key u)) p in
      let '(response, w) := fetch (ReqPatch key u) w in
      if match response with Some r => ok r | None => false end
      then fetchKeys p w
      else (emit (EAlert "Failed to rotate API key. Please try again.") p, w)
  end.

Definition toggleStatus (key : string) (p : Page) (w : World)
  : Page * World :=
  match find_key key p with
  | None => (p, w)
  | Some k =>
      let u := mkUpdate None None (Some (flip (status k))) None None None in
      let p := emit (EFetch (ReqPatch key u)) p in
      let '(response, w) := fetch (ReqPatch key u) w in
      if match response with Some r => ok r | None => false end
      then fetchKeys p w
      else
        (emit (EAlert "Failed to toggle API key status. Please try again.") p,
         w)
  end.

Definition confirm_delete : string :=
  "Are you sure you want to permanently delete this API key? This action cannot be undone.".

(** [deleteKey]; [answer] is what the user answers to [confirm]. *)
Definition deleteKey (answer : bool) (key : string) (p : Page) (w : World)
  : Page * World :=
  let p := emit (EConfirm confirm_delete answer) p in
  if negb answer then (p, w)
  else
    let p := emit (EFetch (ReqDelete key)) p in
    let '(response, w) := fetch (ReqDelete key) w in
    if match response with Some r => ok r | None => false end
    then
      let '(p, w) := fetchKeys p w in
      (showToastNotification "API key deleted successfully!" toast_error p, w)
    else
      (showToastNotification "Failed to delete API key. Please try again."
         toast_error p, w).

End Handlers.

End Dashboard.

Import Dashboard.

(* ------------------------------------------------------------------ *)
(** ** Sample data *)

Module Samples.

(** The seed rows of supabase-schema.sql, timestamps in milliseconds. *)
Definition production_row : ApiKey :=
  mkApiKey "550e8400-e29b-41d4-a716-446655440001" "Production API Key"
           "groot_live_43fj9dhwq22n0x9p" active ["read"; "write"]
           1726099200000 (Some 1734220800000) production 1734652800000.

Definition staging_row : ApiKey :=
  mkApiKey "550e8400-e29b-41d4-a716-446655440002" "Staging Integration"
           "groot_test_8ddm112ay2l288de" active ["read"]
           1717286400000 (Some 1733788800000) staging 1734652800000.

Definition development_row : ApiKey :=
  mkApiKey "550e8400-e29b-41d4-a716-446655440003" "Development Testing"
           "groot_dev_xx330qwe992155aa" active ["read"; "write"; "admin"]
           1732060800000 (Some 1734307200000) development 1734652800000.

Definition seed : list ApiKey :=
  [production_row; staging_row; development_row].

(** Input conversions of the sample stores for a TEXT column: numbers in
    decimal, booleans as [true] and [false], and arrays and objects as
    compact JSON text. *)
Definition decimal (n : Z) : string := NilZero.string_of_int (Z.to_int n).

Definition quote : ascii := ascii_of_nat 34.

Definition backslash : ascii := ascii_of_nat 92.

Fixpoint escaped (s : string) : string :=
  match s with
  | EmptyString => EmptyString
  | String c rest =>
      if Ascii.eqb c quote then String backslash (String c (escaped rest))
      else if Ascii.eqb c backslash
           then String backslash (String c (escaped rest))
           else String c (escaped rest)
  end.

Definition quoted (s : string) : string :=
  String quote (escaped s ++ String quote EmptyString).

Fixpoint sample_text (v : json) : string :=
  match v with
  | JNull => "null"
  | JBool true => "true"
  | JBool false => "false"
  | JNum n => decimal n
  | JStr s => quoted s
  | JArr items =>
      String.append "["
        (String.append
           ((fix go (l : list json) : string :=
               match l with
               | [] => EmptyString
               | x :: [] => sample_text x
               | x :: rest =>
                   String.append (sample_text x) (String.append "," (go rest))
               end) items)
           "]")
  | JObj fields =>
      String.append "{"
        (String.append
           ((fix go (l : list (string * json)) : string :=
               match l with
               | [] => EmptyString
               | (k, x) :: [] =>
                   String.append (quoted k)
                     (String.append ":" (sample_text x))
               | (k, x) :: rest =>
                   String.append (quoted k)
                     (String.append ":"
                        (String.append (sample_text x)
                           (String.append "," (go rest))))
               end) fields)
           "}")
  end.

(** The elements of an array as texts: a string as it is, a number, a
    boolean, an object or an array in its text form.  A NULL element, which
    is no text, is written as the single byte 255, which no UTF-8 text
    contains. *)
Definition sample_item (x : json) : string :=
  match x with
  | JStr s => s
  | JNull => String (ascii_of_nat 255) EmptyString
  | other => sample_text other
  end.

(** For a TEXT[] column the sample stores take an array and refuse a value
    that is not one. *)
Definition sample_texts (v : json) : option (list string) :=
  match v with
  | JArr items => Some (map sample_item items)
  | _ => None
  end.

Definition seed_world : World :=
  mkWorld seed 1735000000000
          ["550e8400-e29b-41d4-a716-446655440004";
           "550e8400-e29b-41d4-a716-446655440005"]
          false [] false sample_text sample_texts.

(** The same store when it does not answer. *)
Definition seed_world_down : World :=
  mkWorld seed 1735000000000 [] true [] false sample_text sample_texts.

(** The create scenario of the spec. *)
Definition mobile_key : json :=
  JObj [("name", JStr "Mobile key"); ("secret", JStr "groot_dev_abc123");
        ("scopes", JArr [JStr "read"]); ("environment", JStr "development")].

Definition mobile_key_no_scopes : json :=
  JObj [("name", JStr "Mobile key"); ("secret", JStr "groot_dev_abc123");
        ("scopes", JArr []); ("environment", JStr "development")].

Definition mobile_key_no_name : json :=
  JObj [("secret", JStr "groot_dev_abc123");
        ("scopes", JArr [JStr "read"]); ("environment", JStr "development")].

(** A page right after mount: the list has been fetched with no filter. *)
Definition mounted (w : World) : Page :=
  fst (fetchKeys RouteById.PATCH (RouteById.DELETE 204)
         (initial 1735000000500) w).

(** The page with the status filter set to Active, once the effect on the
    filters has fetched the list. *)
Definition mounted_active (w : World) : Page :=
  fst (fetchKeys RouteById.PATCH (RouteById.DELETE 204)
         (setFilterStatus (only active) (initial 1735000000500)) w).

(** The store after another session has revoked the production key. *)
Definition revoked_elsewhere (w : World) : World :=
  snd (RouteById.PATCH (id production_row)
         (mkUpdate None None (Some revoked) None None None) w).

(** The creation form filled in with the scenario of the spec. *)
Definition mobile_form : Page :=
  setForm (mkForm "Mobile key" ["read"] development true)
          (mounted seed_world).

Definition production_key : string := id production_row.

End Samples.
Import Samples.

(* ------------------------------------------------------------------ *)
(** ** The properties, in the words of the specification *)

Module Spec.

(** Newest first: every row is at least as recent as all rows after it. *)
Definition newest_first (rows : list ApiKey) : Prop :=
  StronglySorted (fun a b => created_at b <= created_at a) rows.

(** One filter dimension as the specification words it: a parameter that is
    provided and is not ["all"] constrains the column. *)
Definition filter_as_stated (v : option string) (c : Column) (k : ApiKey)
  : Prop :=
  forall s, v = Some s -> s <> "all" -> cell c k = s.

(** One filter dimension as the route applies it: the parameter must also
    be non-empty. *)
Definition filter_applied (v : option string) (c : Column) (k : ApiKey)
  : Prop :=
  forall s, v = Some s -> s <> "" -> s <> "all" -> cell c k = s.

(** The decidable form of [filter_applied]. *)
Definition wanted (v : option string) (c : Column) (k : ApiKey) : bool :=
  match v with
  | None => true
  | Some s =>
      if String.eqb s "" then true
      else if String.eqb s "all" then true
      else String.eqb (cell c k) s
  end.

(** The list contract with a given reading of the filter dimensions. *)
Definition listing (dimension : option string -> Column -> ApiKey -> Prop)
  (status environment : option string) (w : World) : Prop :=
  exists rows,
    fst (GET status environment w) = mkResponse 200 (BData rows)
    /\ (forall k, In k rows <->
                  In k (table w)
                  /\ dimension status c_status k
                  /\ dimension environment c_environment k)
    /\ newest_first rows.

(** "Missing or empty", as the specification words it. *)
Definition missing_or_empty (v : option json) : Prop :=
  v = None \/ v = Some JNull \/ v = Some (JStr "") \/ v = Some (JArr []).

(** The values the route's check refuses. *)
Definition falsy (v : option json) : Prop :=
  v = None \/ v = Some JNull \/ v = Some (JBool false)
  \/ v = Some (JNum 0) \/ v = Some (JStr "").

Definition required : list string :=
  ["name"; "secret"; "scopes"; "environment"].

Definition rejected : Response :=
  mkResponse 400 (BError missing_required_fields None).

(** The create validation with a given reading of "missing or empty", for
    a body that parses to something other than [null]: a 400 and an
    untouched store (no statement received). *)
Definition validation (refused : option json -> Prop) : Prop :=
  forall (body : json) (w : World),
    body <> JNull ->
    (exists f, In f required /\ refused (prop body f)) ->
    POST (Some body) w = (rejected, w).

(** The row the route hands to the store for a body. *)
Definition row_of (body : json) : InsertRow :=
  mkInsertRow (prop body "name") (prop body "secret") "active"
              (prop body "scopes") (prop body "environment") None.

(** A page shows what its two filters allow. *)
Definition allowed (p : Page) (k : ApiKey) : Prop :=
  (filterStatus p = all \/ filterStatus p = only (status k))
  /\ (filterEnvironment p = all \/ filterEnvironment p = only (environment k)).

(** *** Changes to one row *)

Definition with_status (s : Status) (k : ApiKey) : ApiKey :=
  mkApiKey (id k) (name k) (secret k) s (scopes k) (created_at k)
           (last_used k) (environment k) (updated_at k).

Definition with_updated_at (t : Z) (k : ApiKey) : ApiKey :=
  mkApiKey (id k) (name k) (secret k) (status k) (scopes k) (created_at k)
           (last_used k) (environment k) t.

(** The row after a toggle asked for on a record listed as [listed]:
    revoked when the record is listed as active, active when it is listed
    as revoked; the store refreshes [updated_at]; the rest stays. *)
Definition toggled (listed : Status) (stamp : Z) (k : ApiKey) : ApiKey :=
  mkApiKey (id k) (name k) (secret k)
           (match listed with active => revoked | revoked => active end)
           (scopes k) (created_at k) (last_used k) (environment k) stamp.

(** A flipped row: an active row is revoked and a revoked row is active. *)
Definition flipped (stamp : Z) (k : ApiKey) : ApiKey :=
  toggled (status k) stamp k.

(** The round trip of two toggles as the specification states it: after
    them, every stored row identified by [key] has the status it had
    before them. *)
Definition status_restored (key : string) (before after : list ApiKey)
  : Prop :=
  forall r, In r before -> id r = key ->
  exists r', In r' after /\ id r' = key /\ status r' = status r.


(** [change key f rows]: [f] on the rows identified by [key], every other
    row as it was. *)
Definition change (key : string) (f : ApiKey -> ApiKey) (rows : list ApiKey)
  : list ApiKey :=
  map (fun k => if String.eqb (id k) key then f k else k) rows.


(** *** Notifications *)

Fixpoint count_toasts (l : list Event) : nat :=
  match l with
  | [] => O
  | EToast _ _ :: rest => S (count_toasts rest)
  | _ :: rest => count_toasts rest
  end.

(** The number of toast notifications a page has shown so far. *)
Definition notifications (p : Page) : nat :=
  count_toasts (events (browser p)).

(** From [p] to [p'] exactly one toast was shown, it is on display, and one
    dismissal timer was started for it. *)
Definition notified_once (p p' : Page) : Prop :=
  notifications p' = S (notifications p)
  /\ showToast (toast p') = true
  /\ timers (browser p')
     = timers (browser p) ++ [clock (browser p) + 3000].

(** From [p] to [p'] no toast was shown and no timer started. *)
Definition not_notified (p p' : Page) : Prop :=
  notifications p' = notifications p
  /\ toast p' = toast p
  /\ timers (browser p') = timers (browser p).

(** The five mutating operations; a delete here is a confirmed one. *)
Inductive Mutation : Type :=
| Create (rand1 rand2 rand3 : string)
| Save
| Rotate (rand1 rand2 rand3 : string) (key : string)
| Toggle (key : string)
| Delete (key : string).

Definition run (PATCH : string -> ApiKeyUpdate -> World -> Response * World)
  (DELETE : string -> World -> Response * World) (m : Mutation) (p : Page)
  (w : World) : Page * World :=
  match m with
  | Create r1 r2 r3 => createKey PATCH DELETE r1 r2 r3 p w
  | Save => saveEdit PATCH DELETE p w
  | Rotate r1 r2 r3 key => rotateKey PATCH DELETE r1 r2 r3 key p w
  | Toggle key => toggleStatus PATCH DELETE key p w
  | Delete key => deleteKey PATCH DELETE true key p w
  end.

(** The notification is on display at every moment before the end of the
    dismissal interval that starts when it is shown. *)
Definition stays_for_full_interval (message : string) (type : ToastType)
  (p : Page) : Prop :=
  forall t,
    t < clock (browser p) + 3000 ->
    showToast (toast (advance t (showToastNotification message type p)))
    = true.

(** The request [fetchKeys] sends for the current filter selection. *)
Definition list_request (p : Page) : Request :=
  ReqList (param status_text (filterStatus p))
          (param environment_text (filterEnvironment p)).

(** The answer to a request counts as a success when the promise resolves
    and [response.ok] holds. *)
Definition succeeded (response : option Response) : bool :=
  match response with
  | Some r => ok r
  | None => false
  end.

(** What a rotate or a toggle of the record [key] does to its surroundings
    on the way from [p] to [p']: nothing at all when the record is not
    listed; otherwise one PATCH request for the record, followed by the
    refresh of the list when the request succeeded and by one blocking
    alert with [message] when it failed. *)
Definition alerts_on_failure
  (PATCH : string -> ApiKeyUpdate -> World -> Response * World)
  (DELETE : string -> World -> Response * World)
  (key message : string) (p : Page) (w : World) (p' : Page) : Prop :=
  match find_key key p with
  | None => p' = p
  | Some _ =>
      exists u,
        events (browser p')
        = events (browser p)
          ++ EFetch (ReqPatch key u)
             :: (if succeeded (fst (fetch PATCH DELETE (ReqPatch key u) w))
                 then [EFetch (list_request p)]
                 else [EAlert message])
  end.

(** A mutation whose request is actually sent: the form or the draft has a
    name, and an edit is open on a record. *)
Definition issued (m : Mutation) (p : Page) : Prop :=
  match m with
  | Create _ _ _ => trim (newName (form p)) <> ""
  | Save =>
      (exists key, editingId p = Some key /\ key <> "")
      /\ trim (d_name (editDraft p)) <> ""
  | _ => True
  end.

(** From [p] to [p'] no toast was shown, no timer started and no time
    passed. *)
Definition quiet (p p' : Page) : Prop :=
  not_notified p p' /\ clock (browser p') = clock (browser p).

(** C8 as the specification words it: every mutating operation whose
    request is sent shows exactly one toast. *)
Definition every_mutation_notifies_once
  (PATCH : string -> ApiKeyUpdate -> World -> Response * World)
  (DELETE : string -> World -> Response * World) : Prop :=
  forall (m : Mutation) (p : Page) (w : World),
    issued m p -> notified_once p (fst (run PATCH DELETE m p w)).

End Spec.
Import Spec.

(* ------------------------------------------------------------------ *)
(** ** The rest of app/dashboards/page.tsx (GrootApiKeyDashboard) *)

Module Display.

(** The text [formatSecret] works on, as the program has it: the sequence
    of the UTF-16 code units of the string, which is what [length] counts
    and [slice] cuts. *)
Definition units : Type := list N.

(** The bullet, U+2022, and the ten of them of the source. *)
Definition bullet : N := 8226%N.

Definition bullets : units := repeat bullet 10.

(** [secret.slice(0, n)] and [secret.slice(-n)] *)
Definition slice_start (n : nat) (s : units) : units := firstn n s.

Definition slice_end (n : nat) (s : units) : units :=
  skipn (List.length s - n) s.

(** [formatSecret(secret, revealed)] *)
Definition formatSecret (secret : units) (revealed : bool) : units :=
  if revealed then secret
  else if Nat.leb (List.length secret) 10 then bullets
  else slice_start 10 secret ++ bullets ++ slice_end 4 secret.

(** [scopes.includes(scope)] *)
Definition includes (scope : string) (scopes : list string) : bool :=
  existsb (String.eqb scope) scopes.

(** [toggleScope(scopes, scope, setter)]: the list handed to [setter]. *)
Definition toggleScope (scopes : list string) (scope : string)
  : list string :=
  if includes scope scopes
  then filter (fun s => negb (String.eqb s scope)) scopes
  else scopes ++ [scope].

(** The two uses of [toggleScope]: on the creation form and on the draft. *)
Definition toggleNewScope (scope : string) (p : Page) : Page :=
  setForm (mkForm (newName (form p))
             (toggleScope (newScopes (form p)) scope)
             (newEnvironment (form p)) (isModalOpen (form p))) p.

Definition toggleDraftScope (scope : string) (p : Page) : Page :=
  setEditDraft (mkDraft (d_name (editDraft p))
                  (toggleScope (d_scopes (editDraft p)) scope)
                  (d_environment (editDraft p))) p.

(** [onChange={(e) => setNewName(e.target.value)}] *)
Definition setNewName (value : string) (p : Page) : Page :=
  setForm (mkForm value (newScopes (form p)) (newEnvironment (form p))
             (isModalOpen (form p))) p.

(** [onClick={() => setNewEnvironment(env)}] *)
Definition setNewEnvironment (env : Environment) (p : Page) : Page :=
  setForm (mkForm (newName (form p)) (newScopes (form p)) env
             (isModalOpen (form p))) p.

(** The state the component keeps beside [Page]: the [Set] of the ids
    whose secret is revealed (in insertion order, without repetition),
    the id of the row last copied, and the system clipboard. *)
Record Desk : Type := mkDesk {
  page : Page;
  revealedSecrets : list string;
  copiedId : option string;
  clipboard : option string
}.

(** [set.has(id)] *)
Definition has (key : string) (set : list string) : bool :=
  existsb (String.eqb key) set.

(** [toggleRevealSecret(id)]: the functional update of [revealedSecrets]. *)
Definition toggleRevealSecret (key : string) (prev : list string)
  : list string :=
  if has key prev
  then filter (fun x => negb (String.eqb x key)) prev
  else prev ++ [key].

(** The secret cell of a row:
    [formatSecret(key.secret, revealedSecrets.has(key.id))], for the id of
    the row and the code units of its secret. *)
Definition secret_cell (revealed : list string) (key : string)
  (secret : units) : units :=
  formatSecret secret (has key revealed).

(** [copySecret(secret, id)]; [written] tells whether
    [navigator.clipboard.writeText] resolves. *)
Definition copySecret (written : bool) (secret key : string) (d : Desk)
  : Desk :=
  if written
  then
    mkDesk (showToastNotification "Copied API Key to clipboard" toast_success
              (page d))
           (revealedSecrets d) (Some key) (Some secret)
  else
    mkDesk (showToastNotification "Failed to copy API key" toast_error
              (page d))
           (revealedSecrets d) (copiedId d) (clipboard d).

(** The copy button of a row: [copySecret(key.secret, key.id)]. *)
Definition copy_row (written : bool) (key : ApiKey) (d : Desk) : Desk :=
  copySecret written (secret key) (id key) d.

(** [const isCopied = copiedId === key.id] *)
Definition isCopied (d : Desk) (key : ApiKey) : bool :=
  match copiedId d with
  | Some copied => String.eqb copied (id key)
  | None => false
  end.

End Display.

(* ------------------------------------------------------------------ *)
(** ** The seed statement of supabase-schema.sql *)

Module Seeding.

(** [INSERT INTO api_keys (...) VALUES ... ON CONFLICT (secret) DO NOTHING]:
    a row whose secret is already held is skipped; otherwise the row is
    added with [updated_at] at its default [NOW()], unless its [id] is
    taken, which aborts the statement ([None]). *)
Fixpoint insert_do_nothing (now : Z) (rows : list ApiKey)
  (t : list ApiKey) : option (list ApiKey) :=
  match rows with
  | [] => Some t
  | r :: rest =>
      if has_secret (secret r) t then insert_do_nothing now rest t
      else if has_id (id r) t then None
      else insert_do_nothing now rest (t ++ [update_updated_at_column now r])
  end.

End Seeding.

(* ------------------------------------------------------------------ *)
(** ** The first component of app/dashboards/page.tsx (ApiKeyDashboard),
       which keeps its keys in memory *)

Module Legacy.

Record ApiKey : Type := mkApiKey {
  id : string;
  name : string;
  secret : string;
  status : Status;
  scopes : list string;
  createdAt : string;
  lastUsed : string
}.

Definition seedKeys : list ApiKey :=
  [ mkApiKey "key-1" "Production public API" "pk_live_43fj-9dhw-q22n-0x9p"
             active ["read"; "write"] "2024-09-12" "2024-11-28";
    mkApiKey "key-2" "Staging integration" "pk_test_8ddm-112a-y2l2-88de"
             active ["read"] "2024-06-02" "2024-11-04";
    mkApiKey "key-3" "Legacy automation" "pk_live_xx33-0qwe-9921-55aa"
             revoked ["read"] "2023-12-14" "2024-03-01" ].

(** The four bullets of the source. *)
Definition dots : Display.units := repeat Display.bullet 4.

(** [formatSecret(secret)], on the UTF-16 code units of the secret. *)
Definition formatSecret (secret : Display.units) : Display.units :=
  if Nat.leb (List.length secret) 6 then secret
  else Display.slice_start 6 secret ++ dots ++ Display.slice_end 4 secret.

Definition generateSecret (rand1 rand2 rand3 rand4 : string) : string :=
  "pk_" ++ rand1 ++ "-" ++ rand2 ++ "-" ++ rand3 ++ "-" ++ rand4.

Record Draft : Type := mkDraft {
  d_name : string;
  d_scopes : list string
}.

Record State : Type := mkState {
  keys : list ApiKey;
  newName : string;
  newScopes : list string;
  editingId : option string;
  editDraft : Draft
}.

Definition initial : State :=
  mkState seedKeys "" ["read"] None (mkDraft "" []).

(** [createKey]; [uuid] is [crypto.randomUUID()], the four [rand] are the
    results of [rand()], [today] is [new Date().toISOString().slice(0, 10)]. *)
Definition createKey (uuid rand1 rand2 rand3 rand4 today : string)
  (s : State) : State :=
  if String.eqb (trim (newName s)) "" then s
  else
    let next :=
      mkApiKey uuid (trim (newName s))
               (generateSecret rand1 rand2 rand3 rand4) active
               (match newScopes s with
                | [] => ["read"]
                | _ :: _ => newScopes s
                end)
               today "—" in
    mkState (next :: keys s) "" ["read"] (editingId s) (editDraft s).

Definition startEdit (key : ApiKey) (s : State) : State :=
  mkState (keys s) (newName s) (newScopes s) (Some (id key))
          (mkDraft (name key) (scopes key)).

Definition saveEdit (s : State) : State :=
  match editingId s with
  | None => s
  | Some editing =>
      if String.eqb editing "" || String.eqb (trim (d_name (editDraft s))) ""
      then s
      else
        mkState
          (map (fun k =>
                  if String.eqb (id k) editing
                  then mkApiKey (id k) (trim (d_name (editDraft s)))
                         (secret k) (status k) (d_scopes (editDraft s))
                         (createdAt k) (lastUsed k)
                  else k)
               (keys s))
          (newName s) (newScopes s) None (editDraft s)
  end.

Definition rotateKey (rand1 rand2 rand3 rand4 today : string) (key : string)
  (s : State) : State :=
  mkState
    (map (fun k =>
            if String.eqb (id k) key
            then mkApiKey (id k) (name k)
                   (generateSecret rand1 rand2 rand3 rand4) (status k)
                   (scopes k) (createdAt k) today
            else k)
         (keys s))
    (newName s) (newScopes s) (editingId s) (editDraft s).

Definition toggleStatus (key : string) (s : State) : State :=
  mkState
    (map (fun k =>
            if String.eqb (id k) key
            then mkApiKey (id k) (name k) (secret k) (flip (status k))
                   (scopes k) (createdAt k) (lastUsed k)
            else k)
         (keys s))
    (newName s) (newScopes s) (editingId s) (editDraft s).

End Legacy.

(* ------------------------------------------------------------------ *)
(** ** Further properties, as the code shows them *)

Module Props.

(** The PRIMARY KEY and the UNIQUE constraint of the table. *)
Definition keyed (rows : list ApiKey) : Prop :=
  NoDup (map id rows) /\ NoDup (map secret rows).

(** The scopes [createKey] sends: the selection, or ["read"] when the
    selection is empty. *)
Definition chosen_scopes (p : Page) : list string :=
  match newScopes (form p) with
  | [] => ["read"]
  | _ :: _ => newScopes (form p)
  end.

(** The object [createKey] posts. *)
Definition newKey (rand1 rand2 rand3 : string) (p : Page) : json :=
  JObj [("name", JStr (trim (newName (form p))));
        ("secret",
         JStr (generateSecret (environment_text (newEnvironment (form p)))
                 rand1 rand2 rand3));
        ("scopes", JArr (map JStr (chosen_scopes p)));
        ("environment", JStr (environment_text (newEnvironment (form p))))].

(** The row a successful create adds for the form of [p]. *)
Definition created_row (rand1 rand2 rand3 : string) (p : Page) (w : World)
  (uuid : string) : ApiKey :=
  mkApiKey uuid (trim (newName (form p)))
           (generateSecret (environment_text (newEnvironment (form p)))
              rand1 rand2 rand3)
           active (chosen_scopes p) (db_now w) None
           (newEnvironment (form p)) (db_now w).

(** The body [saveEdit] patches with. *)
Definition edit_patch (p : Page) : ApiKeyUpdate :=
  mkUpdate (Some (trim (d_name (editDraft p)))) None None
           (Some (d_scopes (editDraft p))) None
           (Some (d_environment (editDraft p))).

(** The creation form as [closeModal] leaves it. *)
Definition blank_form : Form := mkForm "" ["read"] development false.

(** What [rotateKey] of the first component does to one key. *)
Definition rotated_from (key secret today : string)
  (old new : Legacy.ApiKey) : Prop :=
  Legacy.id new = Legacy.id old
  /\ Legacy.name new = Legacy.name old
  /\ Legacy.status new = Legacy.status old
  /\ Legacy.scopes new = Legacy.scopes old
  /\ Legacy.createdAt new = Legacy.createdAt old
  /\ (Legacy.id old <> key -> new = old)
  /\ (Legacy.id old = key ->
      Legacy.secret new = secret /\ Legacy.lastUsed new = today).

(** What [saveEdit] of the first component does to one key. *)
Definition edited_from (key name : string) (scopes : list string)
  (old new : Legacy.ApiKey) : Prop :=
  Legacy.id new = Legacy.id old
  /\ Legacy.secret new = Legacy.secret old
  /\ Legacy.status new = Legacy.status old
  /\ Legacy.createdAt new = Legacy.createdAt old
  /\ Legacy.lastUsed new = Legacy.lastUsed old
  /\ (Legacy.id old <> key -> new = old)
  /\ (Legacy.id old = key ->
      Legacy.name new = name /\ Legacy.scopes new = scopes).

End Props.
Import Props.

(* ------------------------------------------------------------------ *)
(** ** The model at work *)

(** The unfiltered list of the seed rows, newest first. *)
Example GET_seed :
  fst (GET None None seed_world)
  = mkResponse 200 (BData [development_row; production_row; staging_row]).
Proof. reflexivity. Qed.

Example GET_seed_production :
  fst (GET (Some "active") (Some "production") seed_world)
  = mkResponse 200 (BData [production_row]).
Proof. reflexivity. Qed.

(** No revoked row in the seed: an empty list, not an error. *)
Example GET_seed_revoked :
  fst (GET (Some "revoked") (Some "all") seed_world)
  = mkResponse 200 (BData []).
Proof. reflexivity. Qed.

Example GET_seed_down :
  fst (GET None None seed_world_down)
  = mkResponse 500 (BError "Failed to fetch API keys"
                      (Some store_unreachable)).
Proof. reflexivity. Qed.

(** The create scenario of the spec. *)
Example POST_mobile_key :
  fst (POST (Some mobile_key) seed_world)
  = mkResponse 201
      (BRecord (mkApiKey "550e8400-e29b-41d4-a716-446655440004" "Mobile key"
                  "groot_dev_abc123" active ["read"] 1735000000000 None
                  development 1735000000000)).
Proof. reflexivity. Qed.

(** The same secret a second time: UNIQUE refuses it. *)
Example POST_mobile_key_again :
  resp_status
    (fst (POST (Some mobile_key) (snd (POST (Some mobile_key) seed_world))))
  = 500.
Proof. reflexivity. Qed.

Example POST_without_name :
  POST (Some mobile_key_no_name) seed_world = (rejected, seed_world).
Proof. reflexivity. Qed.

(** A [null] body and an unparsable body end in the catch block. *)
Example POST_null :
  POST (Some JNull) seed_world = (internal_server_error, seed_world)
  /\ POST None seed_world = (internal_server_error, seed_world).
Proof. split; reflexivity. Qed.

Example generateSecret_staging :
  generateSecret "staging" "x4k2p9" "q81zmd" "7hw3ca"
  = "groot_test_x4k2p9q81zmd7hw3ca".
Proof. reflexivity. Qed.

Example trim_name : trim "  Mobile key  " = "Mobile key" /\ trim "   " = "".
Proof. split; reflexivity. Qed.

(** U+00A0 and U+202F are stripped; the last byte of U+00E0, which is the
    last byte of U+00A0 too, is not. *)
Example trim_no_break_space :
  trim (of_bytes [194; 160]%nat) = ""
  /\ trim (of_bytes [226; 128; 175; 97; 194; 160]%nat) = "a"
  /\ trim (of_bytes [195; 160]%nat) = of_bytes [195; 160]%nat.
Proof. repeat split; reflexivity. Qed.

(** A number offered as the name is stored as its text. *)
Example POST_number_name :
  fst (POST (Some (JObj [("name", JNum 123); ("secret", JStr "groot_dev_n1");
                         ("scopes", JArr [JStr "read"; JNum 1]);
                         ("environment", JStr "development")]))
         seed_world)
  = mkResponse 201
      (BRecord (mkApiKey "550e8400-e29b-41d4-a716-446655440004" "123"
                  "groot_dev_n1" active ["read"; "1"] 1735000000000 None
                  development 1735000000000)).
Proof. reflexivity. Qed.

(** Six letters of two bytes each are six code units: the mask shows
    nothing of them, and the first component shows them whole. *)
Example formatSecret_six_letters :
  Display.formatSecret (repeat 233%N 6) false = Display.bullets
  /\ Legacy.formatSecret (repeat 233%N 6) = repeat 233%N 6.
Proof. split; reflexivity. Qed.

(** The list after mount. *)
Example mounted_seed :
  keys (mounted seed_world) = [development_row; production_row; staging_row]
  /\ loading (mounted seed_world) = false
  /\ error (mounted seed_world) = None.
Proof. repeat split. Qed.

(** A stale list under a filter: nothing that fails the filter is shown. *)
Example stale_list_filtered :
  rendered_rows
    (mkPage seed false None (mkForm "" ["read"] development false) None
            (mkDraft "" [] development) (mkToast false "" toast_success)
            (only revoked) (only staging) (mkBrowser 0 [] []))
  = [].
Proof. reflexivity. Qed.

(** A toast goes away 3000 ms after it is shown. *)
Example toast_dismissed :
  let shown :=
    showToastNotification "Copied API Key to clipboard" toast_success
      (initial 0) in
  showToast (toast (advance 2999 shown)) = true
  /\ showToast (toast (advance 3000 shown)) = false.
Proof. split; reflexivity. Qed.

(** A failed toggle raises an alert and no toast. *)
Example toggle_store_down :
  events (browser (fst (toggleStatus RouteById.PATCH (RouteById.DELETE 204)
                          production_key
                          (mkPage seed false None
                             (mkForm "" ["read"] development false) None
                             (mkDraft "" [] development)
                             (mkToast false "" toast_success)
                             all all (mkBrowser 0 [] []))
                          seed_world_down)))
  = [EFetch (ReqPatch production_key
               (mkUpdate None None (Some revoked) None None None));
     EAlert "Failed to toggle API key status. Please try again."].
Proof. reflexivity. Qed.

(* ------------------------------------------------------------------ *)
(** ** Facts about the store *)

Section StoreFacts.

Lemma insert_sorted_perm (asc : bool) (x : ApiKey) (l : list ApiKey) :
  Permutation (insert_sorted asc x l) (x :: l).
Proof.
  induction l as [|y l IH]; simpl.
  - apply Permutation_refl.
  - destruct (before asc x y).
    + apply Permutation_refl.
    + eapply perm_trans; [apply perm_skip, IH | apply perm_swap].
Qed.

Lemma sort_rows_perm (asc : bool) (l : list ApiKey) :
  Permutation (sort_rows asc l) l.
Proof.
  induction l as [|x l IH]; simpl.
  - apply perm_nil.
  - eapply perm_trans; [apply insert_sorted_perm | apply perm_skip, IH].
Qed.

Lemma insert_sorted_newest_first (x : ApiKey) (l : list ApiKey) :
  newest_first l -> newest_first (insert_sorted false x l).
Proof.
  unfold newest_first.
  induction l as [|y l IH]; simpl; intros H.
  - constructor; [constructor | constructor].
  - inversion H as [|? ? Hl Hy]; subst.
    unfold before. destruct (created_at y <=? created_at x) eqn:E.
    + apply Z.leb_le in E.
      constructor; [exact H |].
      constructor; [exact E |].
      rewrite Forall_forall in Hy |- *. intros z Hz.
      specialize (Hy z Hz). lia.
    + apply Z.leb_gt in E.
      constructor; [apply IH; exact Hl |].
      rewrite Forall_forall in Hy |- *. intros z Hz.
      apply (Permutation_in _ (insert_sorted_perm false x l)) in Hz.
      destruct Hz as [<- | Hz]; [lia | apply Hy; exact Hz].
Qed.

Lemma sort_rows_newest_first (l : list ApiKey) :
  newest_first (sort_rows false l).
Proof.
  induction l as [|x l IH]; simpl.
  - constructor.
  - apply insert_sorted_newest_first, IH.
Qed.

Lemma wanted_applied (v : option string) (c : Column) (k : ApiKey) :
  wanted v c k = true <-> filter_applied v c k.
Proof.
  unfold wanted, filter_applied. destruct v as [s|].
  - destruct (String.eqb s "") eqn:E1.
    + apply String.eqb_eq in E1. split; [|reflexivity].
      intros _ s' [= <-] Hne. contradiction.
    + destruct (String.eqb s "all") eqn:E2.
      * apply String.eqb_eq in E2. split; [|reflexivity].
        intros _ s' [= <-] _ Hne. contradiction.
      * apply String.eqb_neq in E1, E2. rewrite String.eqb_eq. split.
        -- intros H s' [= <-] _ _. exact H.
        -- intros H. apply H; auto.
  - split; [intros _ s' [=] | reflexivity].
Qed.

Lemma is_filter_wanted (v : option string) (c : Column) (k : ApiKey) :
  wanted v c k =
  if is_filter v then String.eqb (cell c k) (or_else v "") else true.
Proof.
  unfold wanted, is_filter, truthy_str. destruct v as [s|]; simpl; auto.
  destruct (String.eqb s ""); simpl; auto.
  destruct (String.eqb s "all"); simpl; auto.
Qed.

(** The rows [GET] selects, before ordering. *)
Lemma GET_rows (status environment : option string) (w : World) :
  db_down w = false ->
  exists q,
    GET status environment w
    = (mkResponse 200 (BData (sort_rows false (filter (matches (eqs q))
                                                 (table w)))),
       received (SSelect q) w)
    /\ forall k, matches (eqs q) k
                 = wanted status c_status k && wanted environment c_environment k.
Proof.
  intros Hup. unfold GET.
  set (q0 := order_created_at false select_all).
  set (q1 := if is_filter status then eq_ c_status (or_else status "") q0
             else q0).
  set (q2 := if is_filter environment
             then eq_ c_environment (or_else environment "") q1 else q1).
  exists q2. split.
  - unfold db_select. simpl. rewrite Hup.
    unfold run_query.
    replace (ordering q2) with (Some false); [reflexivity |].
    unfold q2, q1, q0.
    destruct (is_filter status), (is_filter environment); reflexivity.
  - intros k. rewrite !is_filter_wanted.
    unfold q2, q1, q0.
    destruct (is_filter status), (is_filter environment); simpl;
      rewrite ?andb_true_r; reflexivity.
Qed.

Lemma truthy_falsy (v : option json) : truthy v = false <-> falsy v.
Proof.
  unfold falsy. split.
  - destruct v as [[| b | n | s | l | f]|]; simpl; intros H; auto.
    + destruct b; [discriminate | auto].
    + apply negb_false_iff, Z.eqb_eq in H. subst. auto 6.
    + apply negb_false_iff, String.eqb_eq in H. subst. auto 6.
    + discriminate.
    + discriminate.
  - intros [-> | [-> | [-> | [-> | ->]]]]; reflexivity.
Qed.

End StoreFacts.

(* ------------------------------------------------------------------ *)
(** ** GET /api/keys *)

(** C1, as stated, fails: with [?status=] the parameter is provided and is
    not ["all"], yet the route applies no filter and returns the three seed
    rows, none of which has the empty status. *)
Lemma GET_empty_parameter_unfiltered :
  ~ listing filter_as_stated (Some "") None seed_world.
Proof.
  intros [rows [Hresp [Hrows _]]].
  vm_compute in Hresp. injection Hresp as <-.
  assert (Hin : In production_row
                   (sort_rows false seed)).
  { vm_compute. right. left. reflexivity. }
  change (table seed_world) with seed in Hrows.
  apply Hrows in Hin. destruct Hin as [_ [Hst _]].
  specialize (Hst "" eq_refl). vm_compute in Hst.
  assert (H : "active" = "") by (apply Hst; discriminate).
  discriminate H.
Qed.

(** C1 (amended): whenever the store answers, [GET] returns 200 with
    exactly the stored rows that satisfy every filter dimension whose
    parameter is provided, non-empty and not ["all"] (the two dimensions
    together), ordered by [created_at] descending, and leaves the rows of
    the store as they were. *)
Theorem GET_filters_and_orders (status environment : option string)
  (w : World) :
  db_down w = false ->
  listing filter_applied status environment w
  /\ (exists rows,
        fst (GET status environment w) = mkResponse 200 (BData rows)
        /\ Permutation rows
             (filter (fun k => wanted status c_status k
                               && wanted environment c_environment k)
                     (table w)))
  /\ table (snd (GET status environment w)) = table w.
Proof.
  intros Hup.
  destruct (GET_rows status environment w Hup) as [q [HGET Hq]].
  unfold listing. rewrite HGET. simpl.
  assert (Hfilter : filter (matches (eqs q)) (table w)
                    = filter (fun k => wanted status c_status k
                                       && wanted environment c_environment k)
                             (table w)).
  { apply filter_ext. exact Hq. }
  rewrite Hfilter.
  split; [| split].
  - eexists. split; [reflexivity |]. split.
    + intros k. split.
      * intros Hin.
        apply (Permutation_in _ (sort_rows_perm false _)) in Hin.
        apply filter_In in Hin. destruct Hin as [Hin Hw].
        apply andb_true_iff in Hw. destruct Hw as [H1 H2].
        rewrite wanted_applied in H1, H2. auto.
      * intros [Hin [H1 H2]].
        apply (Permutation_in _ (Permutation_sym (sort_rows_perm false _))).
        apply filter_In. split; [exact Hin |].
        apply andb_true_iff. rewrite !wanted_applied. auto.
    + apply sort_rows_newest_first.
  - eexists. split; [reflexivity | apply sort_rows_perm].
  - reflexivity.
Qed.

Lemma GET_filters_and_orders_witness :
  listing filter_applied (Some "active") (Some "production") seed_world
  /\ (exists rows,
        fst (GET (Some "active") (Some "production") seed_world)
        = mkResponse 200 (BData rows)
        /\ Permutation rows
             (filter (fun k => wanted (Some "active") c_status k
                               && wanted (Some "production") c_environment k)
                     (table seed_world)))
  /\ table (snd (GET (Some "active") (Some "production") seed_world))
     = table seed_world.
Proof.
  apply (GET_filters_and_orders (Some "active") (Some "production")
           seed_world).
  reflexivity.
Defined.

(* ------------------------------------------------------------------ *)
(** ** POST /api/keys *)

Lemma db_insert_log (r : InsertRow) (w : World) :
  db_log (snd (db_insert r w)) = db_log w ++ [SInsert r].
Proof.
  unfold db_insert.
  repeat match goal with
         | |- context [match ?x with _ => _ end] => destruct x
         end; reflexivity.
Qed.

Lemma db_insert_created (r : InsertRow) (w : World) (k : ApiKey)
  (w' : World) :
  db_insert r w = (inr k, w') ->
  exists rest,
    db_uuids w = id k :: rest
    /\ created_at k = db_now w
    /\ updated_at k = db_now w
    /\ last_used k = i_last_used r
    /\ status_of_text (i_status r) = Some (status k)
    /\ table w' = table w ++ [k].
Proof.
  unfold db_insert. simpl.
  destruct (db_down w); [discriminate |].
  destruct (as_text _ (i_name r)); [| discriminate].
  destruct (as_text _ (i_secret r)); [| discriminate].
  destruct (as_text_array _ (i_scopes r)); [| discriminate].
  destruct (as_text _ (i_environment r)); [| discriminate].
  destruct (status_of_text (i_status r)); [| discriminate].
  destruct (environment_of_text _); [| discriminate].
  destruct (has_secret _ _); [discriminate |].
  destruct (db_uuids w) as [|u rest]; [discriminate |].
  destruct (has_id _ _); [discriminate |].
  intros [= <- <-]. exists rest. simpl. auto 7.
Qed.

(** C2, as stated, fails: a body whose [scopes] is the empty array passes
    the check, the insert is attempted and the row is created. *)
Lemma POST_empty_scopes_accepted :
  prop mobile_key_no_scopes "scopes" = Some (JArr [])
  /\ resp_status (fst (POST (Some mobile_key_no_scopes) seed_world)) = 201
  /\ db_log (snd (POST (Some mobile_key_no_scopes) seed_world))
     = [SInsert (row_of mobile_key_no_scopes)]
  /\ ~ validation missing_or_empty.
Proof.
  split; [reflexivity |]. split; [reflexivity |]. split; [reflexivity |].
  intros H.
  specialize (H mobile_key_no_scopes seed_world).
  assert (Hpost : POST (Some mobile_key_no_scopes) seed_world
                  = (rejected, seed_world)).
  { apply H; [discriminate |].
    exists "scopes". split.
    - simpl. auto.
    - right. right. right. reflexivity. }
  vm_compute in Hpost. discriminate Hpost.
Qed.

(** C2 (amended): for a body that parses to something other than [null],
    if any of name, secret, scopes, environment is missing, null, false, 0
    or the empty string, the answer is 400 and the store receives nothing;
    otherwise (an empty [scopes] array included) exactly one insert is
    handed to the store, whose failure yields 500 and whose success 201. *)
Theorem POST_validates_before_insert (body : json) (w : World) :
  body <> JNull ->
  ((exists f, In f required /\ falsy (prop body f)) ->
   POST (Some body) w = (rejected, w))
  /\ ((forall f, In f required -> ~ falsy (prop body f)) ->
      db_log (snd (POST (Some body) w)) = db_log w ++ [SInsert (row_of body)]
      /\ snd (POST (Some body) w) = snd (db_insert (row_of body) w)
      /\ match fst (db_insert (row_of body) w) with
         | inl message =>
             fst (POST (Some body) w)
             = mkResponse 500
                 (BError "Failed to create API key" (Some message))
         | inr data =>
             fst (POST (Some body) w) = mkResponse 201 (BRecord data)
         end).
Proof.
  intros Hnull.
  assert (HPOST : POST (Some body) w
                  = if negb (truthy (prop body "name"))
                       || negb (truthy (prop body "secret"))
                       || negb (truthy (prop body "scopes"))
                       || negb (truthy (prop body "environment"))
                    then (rejected, w)
                    else
                      let '(result, w') := db_insert (row_of body) w in
                      match result with
                      | inl message =>
                          (mkResponse 500
                             (BError "Failed to create API key"
                                (Some message)), w')
                      | inr data => (mkResponse 201 (BRecord data), w')
                      end).
  { destruct body; try reflexivity. contradiction. }
  rewrite HPOST. clear HPOST. split.
  - intros [f [Hf Hfalsy]].
    apply truthy_falsy in Hfalsy.
    simpl in Hf.
    destruct Hf as [<- | [<- | [<- | [<- | []]]]]; rewrite Hfalsy; simpl;
      rewrite ?orb_true_r; reflexivity.
  - intros Hall.
    assert (Ht : forall f, In f required -> truthy (prop body f) = true).
    { intros f Hf. destruct (truthy (prop body f)) eqn:E; [reflexivity |].
      apply truthy_falsy in E. apply Hall in E; [contradiction | exact Hf]. }
    rewrite !Ht by (simpl; auto). simpl.
    pose proof (db_insert_log (row_of body) w) as Hlog.
    destruct (db_insert (row_of body) w) as [[message | data] w'];
      simpl in *; auto.
Qed.

Lemma POST_validates_before_insert_witness :
  POST (Some mobile_key_no_name) seed_world = (rejected, seed_world)
  /\ db_log (snd (POST (Some mobile_key) seed_world))
     = db_log seed_world ++ [SInsert (row_of mobile_key)].
Proof.
  split.
  - apply (POST_validates_before_insert mobile_key_no_name seed_world).
    + discriminate.
    + exists "name". split; [simpl; auto | left; reflexivity].
  - apply (POST_validates_before_insert mobile_key seed_world).
    + discriminate.
    + intros f Hf [H | [H | [H | [H | H]]]];
        simpl in Hf;
        destruct Hf as [<- | [<- | [<- | [<- | []]]]]; discriminate H.
Defined.

(** C3: a create request answered with 201 carries the created record;
    that record is active, has never been used, takes its [id] from the
    store's identifier generator and its [created_at] and [updated_at] from
    the store's clock, and is the one row added to the table. *)
Theorem POST_created_record (body : option json) (w : World) (r : Response)
  (w' : World) :
  POST body w = (r, w') ->
  resp_status r = 201 ->
  exists k rest,
    resp_body r = BRecord k
    /\ status k = active
    /\ last_used k = None
    /\ db_uuids w = id k :: rest
    /\ created_at k = db_now w
    /\ updated_at k = db_now w
    /\ table w' = table w ++ [k].
Proof.
  unfold POST. intros HPOST Hstatus.
  destruct body as [b |]; [| injection HPOST as <- <-; discriminate].
  assert (Hgen :
    (if negb (truthy (prop b "name")) || negb (truthy (prop b "secret"))
        || negb (truthy (prop b "scopes"))
        || negb (truthy (prop b "environment"))
     then (rejected, w)
     else
       let '(result, w0) := db_insert (row_of b) w in
       match result with
       | inl message =>
           (mkResponse 500 (BError "Failed to create API key" (Some message)),
            w0)
       | inr data => (mkResponse 201 (BRecord data), w0)
       end) = (r, w')).
  { destruct b; try exact HPOST.
    injection HPOST as <- <-. discriminate. }
  clear HPOST.
  destruct (negb _ || _ || _ || _).
  - injection Hgen as <- <-. discriminate.
  - destruct (db_insert (row_of b) w) as [[message | k] w0] eqn:Hins.
    + injection Hgen as <- <-. discriminate.
    + injection Hgen as <- <-.
      apply db_insert_created in Hins.
      destruct Hins as [rest [Hu [Hc [Hup [Hl [Hs Ht]]]]]].
      exists k, rest. simpl in Hl, Hs.
      assert (status k = active).
      { change (Some active = Some (status k)) in Hs. congruence. }
      auto 8.
Qed.

Lemma POST_created_record_witness :
  exists k rest,
    resp_body (fst (POST (Some mobile_key) seed_world)) = BRecord k
    /\ status k = active
    /\ last_used k = None
    /\ db_uuids seed_world = id k :: rest
    /\ created_at k = db_now seed_world
    /\ updated_at k = db_now seed_world
    /\ table (snd (POST (Some mobile_key) seed_world))
       = table seed_world ++ [k].
Proof.
  apply (POST_created_record (Some mobile_key) seed_world).
  - apply surjective_pairing.
  - reflexivity.
Defined.

(* ------------------------------------------------------------------ *)
(** ** The rendered table *)

Lemma status_eqb_eq (a b : Status) : status_eqb a b = true -> a = b.
Proof. destruct a, b; simpl; intros H; try reflexivity; discriminate H. Qed.

Lemma environment_eqb_eq (a b : Environment) :
  environment_eqb a b = true -> a = b.
Proof. destruct a, b; simpl; intros H; try reflexivity; discriminate H. Qed.

(** C10: every row of the rendered table satisfies both filter selections,
    whatever the fetched list [keys] contains. *)
Theorem rendered_rows_allowed (p : Page) : Forall (allowed p) (rendered_rows p).
Proof.
  unfold rendered_rows. destruct (loading p); [constructor |].
  apply Forall_forall. intros k Hk.
  unfold filteredKeys in Hk. apply filter_In in Hk.
  destruct Hk as [_ Hk]. apply andb_true_iff in Hk. destruct Hk as [Hs He].
  unfold allowed, keep in *. split.
  - destruct (filterStatus p) as [| s]; [left; reflexivity |].
    right. apply status_eqb_eq in Hs. congruence.
  - destruct (filterEnvironment p) as [| e]; [left; reflexivity |].
    right. apply environment_eqb_eq in He. congruence.
Qed.

(* ------------------------------------------------------------------ *)
(** ** Toast notifications *)

Lemma count_toasts_app (l1 l2 : list Event) :
  count_toasts (l1 ++ l2) = (count_toasts l1 + count_toasts l2)%nat.
Proof.
  induction l1 as [|e l1 IH]; simpl; [reflexivity |].
  destruct e; simpl; rewrite IH; reflexivity.
Qed.

Lemma showToastNotification_notified (message : string) (type : ToastType)
  (p : Page) :
  notified_once p (showToastNotification message type p).
Proof.
  unfold notified_once, notifications. simpl.
  rewrite count_toasts_app. simpl. split; [lia | auto].
Qed.

Lemma showToastNotification_events (message : string) (type : ToastType)
  (p : Page) :
  events (browser (showToastNotification message type p))
  = events (browser p) ++ [EToast message type].
Proof. reflexivity. Qed.

Lemma none_due (t : Z) (l : list Z) :
  filter (fun d => d <=? t) l = [] <-> forall d, In d l -> t < d.
Proof.
  induction l as [|x l IH]; simpl.
  - split; [intros _ d [] | reflexivity].
  - destruct (x <=? t) eqn:E.
    + apply Z.leb_le in E. split; [discriminate |].
      intros H. specialize (H x (or_introl eq_refl)). lia.
    + apply Z.leb_gt in E. rewrite IH. split.
      * intros H d [<- | Hd]; [exact E | apply H, Hd].
      * intros H d Hd. apply H. right. exact Hd.
Qed.

(** C9: every toast is given a dismissal timer of 3000 ms, but the timer of
    an earlier toast is never cleared.  A first toast is shown at time 0
    and a second one replaces it at time 2000 (it is on display); at time
    3000, before the interval of the second one ends at 2000 + 3000, the
    timer of the first one hides the second: the new notification does not
    stay for the full dismissal interval. *)
Lemma second_toast_hidden_early :
  showToast (toast (advance 2000
                      (showToastNotification "Copied API Key to clipboard"
                         toast_success (initial 0)))) = true
  /\ ~ stays_for_full_interval "API key updated successfully!" toast_success
         (advance 2000
            (showToastNotification "Copied API Key to clipboard"
               toast_success (initial 0))).
Proof.
  split; [reflexivity |].
  intros H. specialize (H 3000).
  assert (Hshown : false = true) by (apply H; reflexivity).
  discriminate Hshown.
Qed.

(** [showToastNotification] and the timers: the new message and severity
    take the place of the displayed ones (nothing queues), a timer of
    3000 ms is added to the pending ones, none of which is cleared, and the
    toast is on display exactly as long as no pending timer has fired. *)
Theorem showToastNotification_replaces (message : string) (type : ToastType)
  (p : Page) :
  let p' := showToastNotification message type p in
  toast p' = mkToast true message type
  /\ timers (browser p') = timers (browser p) ++ [clock (browser p) + 3000]
  /\ (forall t,
        showToast (toast (advance t p')) = true
        <-> forall d, In d (timers (browser p')) -> t < d)
  /\ (forall t,
        toastMessage (toast (advance t p')) = message
        /\ toastType (toast (advance t p')) = type)
  /\ (forall t,
        clock (browser p) + 3000 <= t ->
        showToast (toast (advance t p')) = false).
Proof.
  intros p'.
  assert (Hadv : forall t,
            toast (advance t p')
            = match filter (fun d => d <=? t) (timers (browser p')) with
              | [] => mkToast true message type
              | _ :: _ => mkToast false message type
              end).
  { intros t. unfold advance.
    destruct (filter (fun d => d <=? t) (timers (browser p')));
      reflexivity. }
  split; [reflexivity |]. split; [reflexivity |]. split; [| split].
  - intros t. rewrite Hadv, <- none_due.
    destruct (filter (fun d => d <=? t) (timers (browser p')));
      simpl; split; intros H; try reflexivity; discriminate H.
  - intros t. rewrite Hadv.
    destruct (filter (fun d => d <=? t) (timers (browser p')));
      simpl; auto.
  - intros t Ht. rewrite Hadv.
    destruct (filter (fun d => d <=? t) (timers (browser p'))) eqn:E;
      [| reflexivity].
    exfalso. rewrite none_due in E.
    specialize (E (clock (browser p) + 3000)).
    assert (t < clock (browser p) + 3000); [| lia].
    apply E. subst p'. simpl. apply in_or_app. right. left. reflexivity.
Qed.

Lemma showToastNotification_replaces_witness :
  showToast (toast (advance 3000
                      (showToastNotification "API key updated successfully!"
                         toast_success (initial 0)))) = false.
Proof.
  apply (showToastNotification_replaces "API key updated successfully!"
           toast_success (initial 0)).
  simpl. lia.
Defined.

(* ------------------------------------------------------------------ *)
(** ** The handlers, whatever the routes of /api/keys/{id} answer *)

Section AnyRoutes.

Variable PATCH : string -> ApiKeyUpdate -> World -> Response * World.
Variable DELETE : string -> World -> Response * World.

Abbreviation fetch := (Dashboard.fetch PATCH DELETE).
Abbreviation fetchKeys := (Dashboard.fetchKeys PATCH DELETE).
Abbreviation deleteKey := (Dashboard.deleteKey PATCH DELETE).
Abbreviation createKey := (Dashboard.createKey PATCH DELETE).
Abbreviation saveEdit := (Dashboard.saveEdit PATCH DELETE).
Abbreviation rotateKey := (Dashboard.rotateKey PATCH DELETE).
Abbreviation toggleStatus := (Dashboard.toggleStatus PATCH DELETE).

(** What a refresh leaves alone, and the one event it adds. *)
Lemma fetchKeys_frame (p : Page) (w : World) :
  let p' := fst (fetchKeys p w) in
  toast p' = toast p
  /\ form p' = form p
  /\ editingId p' = editingId p
  /\ editDraft p' = editDraft p
  /\ filterStatus p' = filterStatus p
  /\ filterEnvironment p' = filterEnvironment p
  /\ clock (browser p') = clock (browser p)
  /\ timers (browser p') = timers (browser p)
  /\ events (browser p') = events (browser p) ++ [EFetch (list_request p)].
Proof.
  unfold Dashboard.fetchKeys, Dashboard.fetch, list_request.
  simpl.
  destruct (net_down w); simpl; [repeat split |].
  destruct (GET _ _ w) as [r w1]. simpl.
  destruct (ok r); simpl; repeat split.
Qed.

Lemma quiet_fetchKeys (p : Page) (w : World) :
  quiet p (fst (fetchKeys p w)).
Proof.
  destruct (fetchKeys_frame p w) as [Ht [_ [_ [_ [_ [_ [Hc [Hti Hev]]]]]]]].
  unfold quiet, not_notified, notifications.
  rewrite Hev, count_toasts_app. simpl. repeat split; auto; lia.
Qed.

Lemma quiet_emit (e : Event) (p : Page) :
  (forall m t, e <> EToast m t) -> quiet p (emit e p).
Proof.
  intros He. unfold quiet, not_notified, notifications. simpl.
  rewrite count_toasts_app. simpl.
  destruct e; try (repeat split; auto; lia).
  exfalso. eapply He. reflexivity.
Qed.

Lemma quiet_refl (p : Page) : quiet p p.
Proof. unfold quiet, not_notified. auto. Qed.

Lemma quiet_trans (p q r : Page) : quiet p q -> quiet q r -> quiet p r.
Proof.
  unfold quiet, not_notified. intros [[H1 [H2 H3]] H4] [[H5 [H6 H7]] H8].
  repeat split; congruence.
Qed.

Lemma quiet_then_once (p q r : Page) :
  quiet p q -> notified_once q r -> notified_once p r.
Proof.
  unfold quiet, not_notified, notified_once.
  intros [[H1 [H2 H3]] Hc] [H4 [H5 H6]].
  repeat split; congruence.
Qed.

Lemma quiet_request (r : Request) (p : Page) : quiet p (emit (EFetch r) p).
Proof. apply quiet_emit. intros m t H. discriminate H. Qed.

Lemma quiet_alert (message : string) (p : Page) :
  quiet p (emit (EAlert message) p).
Proof. apply quiet_emit. intros m t H. discriminate H. Qed.

Lemma quiet_confirm (message : string) (answer : bool) (p : Page) :
  quiet p (emit (EConfirm message answer) p).
Proof. apply quiet_emit. intros m t H. discriminate H. Qed.

(** C7: [deleteKey] first asks for confirmation.  When the user declines,
    nothing is fetched and neither the page nor the store changes (the
    dialog itself is the only event).  When the user accepts, the DELETE
    request follows the confirmation; on success the list is refreshed and
    an error-styled toast announces the deletion; on failure an error toast
    is shown, no refresh happens and the list keeps the record. *)
Theorem deleteKey_confirms_first (key : string) (p : Page) (w : World) :
  deleteKey false key p w = (emit (EConfirm confirm_delete false) p, w)
  /\ (let '(response, w1) := fetch (ReqDelete key) w in
      let '(p', w') := deleteKey true key p w in
      if succeeded response
      then
        events (browser p')
        = events (browser p)
          ++ [EConfirm confirm_delete true; EFetch (ReqDelete key);
              EFetch (list_request p);
              EToast "API key deleted successfully!" toast_error]
        /\ toast p' = mkToast true "API key deleted successfully!" toast_error
        /\ keys p' = keys (fst (fetchKeys p w1))
        /\ w' = snd (fetchKeys p w1)
      else
        events (browser p')
        = events (browser p)
          ++ [EConfirm confirm_delete true; EFetch (ReqDelete key);
              EToast "Failed to delete API key. Please try again."
                toast_error]
        /\ toast p'
           = mkToast true "Failed to delete API key. Please try again."
               toast_error
        /\ keys p' = keys p
        /\ find_key key p' = find_key key p
        /\ w' = w1).
Proof.
  split; [reflexivity |].
  unfold Dashboard.deleteKey. simpl negb. cbv iota.
  destruct (fetch (ReqDelete key) w) as [response w1].
  fold (succeeded response).
  destruct (succeeded response).
  - set (q := emit (EFetch (ReqDelete key))
                (emit (EConfirm confirm_delete true) p)).
    pose proof (fetchKeys_frame q w1) as Hq.
    assert (Hsame : Dashboard.fetchKeys PATCH DELETE q w1
                    = (setBrowser
                         (browser (fst (Dashboard.fetchKeys PATCH DELETE q w1)))
                         (fst (Dashboard.fetchKeys PATCH DELETE p w1)),
                       snd (Dashboard.fetchKeys PATCH DELETE p w1))).
    { unfold Dashboard.fetchKeys, Dashboard.fetch. simpl.
      destruct (net_down w1); [reflexivity |].
      destruct (GET _ _ w1) as [r w2]. destruct (ok r); reflexivity. }
    destruct (Dashboard.fetchKeys PATCH DELETE q w1) as [p2 w2].
    simpl in Hq. destruct Hq as [_ [_ [_ [_ [_ [_ [_ [_ Hev]]]]]]]].
    injection Hsame as Hp Hw.
    split; [| split; [| split]].
    + rewrite showToastNotification_events, Hev. subst q. simpl.
      rewrite <- !app_assoc. reflexivity.
    + reflexivity.
    + simpl. rewrite Hp. reflexivity.
    + exact Hw.
  - repeat split; simpl; rewrite <- ?app_assoc; reflexivity.
Qed.

(** A request followed by a refresh shows no toast. *)
Lemma quiet_round_trip (r : Request) (p : Page) (w : World) :
  quiet p (fst (fetchKeys (emit (EFetch r) p) w)).
Proof.
  eapply quiet_trans; [apply quiet_request | apply quiet_fetchKeys].
Qed.

(** Meet the request of a handler that starts from page [q]: record that
    sending it, and sending it and then refreshing, show no toast; then
    split on whether it succeeds. *)
Ltac send_from q Hsent Hrefreshed :=
  match goal with
  | |- context [Dashboard.fetch ?P ?D ?r ?w] =>
      pose proof (quiet_request r q) as Hsent;
      pose proof (quiet_round_trip r q) as Hrefreshed;
      let response := fresh "response" in
      let w1 := fresh "w" in
      destruct (Dashboard.fetch P D r w) as [response w1];
      specialize (Hrefreshed w1);
      fold (succeeded response);
      destruct (succeeded response)
  end.

(** After a successful request: name the refreshed page. *)
Ltac refreshed_in H :=
  match type of H with
  | quiet _ (fst ?x) =>
      let p2 := fresh "p" in
      let w2 := fresh "w" in
      destruct x as [p2 w2]; simpl in H |- *
  end.

(** What a PATCH request and its outcome add to the events of a rotate or
    a toggle. *)
Lemma patch_events (key message : string) (u : ApiKeyUpdate) (p : Page)
  (w : World) :
  events
    (browser
       (fst (let '(response, w1) := fetch (ReqPatch key u) w in
             if succeeded response
             then fetchKeys (emit (EFetch (ReqPatch key u)) p) w1
             else (emit (EAlert message)
                     (emit (EFetch (ReqPatch key u)) p), w1))))
  = events (browser p)
    ++ EFetch (ReqPatch key u)
       :: (if succeeded (fst (fetch (ReqPatch key u) w))
           then [EFetch (list_request p)]
           else [EAlert message]).
Proof.
  destruct (fetch (ReqPatch key u) w) as [response w1]. simpl fst.
  destruct (succeeded response).
  - destruct (fetchKeys_frame (emit (EFetch (ReqPatch key u)) p) w1)
      as [_ [_ [_ [_ [_ [_ [_ [_ Hev]]]]]]]].
    rewrite Hev. simpl. rewrite <- app_assoc. reflexivity.
  - simpl. rewrite <- app_assoc. reflexivity.
Qed.

(** C8 (amended): once its request is sent, each of create, save and
    (confirmed) delete shows exactly one toast, on display and with its own
    3000 ms dismissal timer, whether the request succeeds or fails; rotate
    and toggle status show no toast on either path: on a listed record
    they send one PATCH request, a failure of which raises one blocking
    alert and a success of which is followed by the refresh of the list
    and nothing else; on a record that is not listed they do nothing. *)
Theorem mutations_and_toasts (m : Mutation) (p : Page) (w : World) :
  issued m p ->
  match m with
  | Create _ _ _ | Save | Delete _ =>
      notified_once p (fst (run PATCH DELETE m p w))
  | Rotate _ _ _ key =>
      not_notified p (fst (run PATCH DELETE m p w))
      /\ alerts_on_failure PATCH DELETE key
           "Failed to rotate API key. Please try again." p w
           (fst (run PATCH DELETE m p w))
  | Toggle key =>
      not_notified p (fst (run PATCH DELETE m p w))
      /\ alerts_on_failure PATCH DELETE key
           "Failed to toggle API key status. Please try again." p w
           (fst (run PATCH DELETE m p w))
  end.
Proof.
  destruct m as [r1 r2 r3 | | r1 r2 r3 key | key | key]; simpl; intros Hm.
  - (* create *)
    unfold Dashboard.createKey.
    destruct (String.eqb (trim (newName (form p))) "") eqn:E;
      [apply String.eqb_eq in E; contradiction |].
    send_from p Hsent Hrefreshed.
    + refreshed_in Hrefreshed.
      eapply quiet_then_once; [| apply showToastNotification_notified].
      eapply quiet_trans; [exact Hrefreshed |].
      unfold quiet, not_notified. auto.
    + simpl.
      eapply quiet_then_once; [exact Hsent |].
      apply showToastNotification_notified.
  - (* save *)
    unfold Dashboard.saveEdit.
    destruct Hm as [[key [-> Hkey]] Hname].
    apply String.eqb_neq in Hkey, Hname. rewrite Hkey, Hname. simpl.
    send_from p Hsent Hrefreshed.
    + refreshed_in Hrefreshed.
      eapply quiet_then_once; [| apply showToastNotification_notified].
      eapply quiet_trans; [exact Hrefreshed |].
      unfold quiet, not_notified. auto.
    + simpl.
      eapply quiet_then_once; [exact Hsent |].
      apply showToastNotification_notified.
  - (* rotate *)
    unfold Dashboard.rotateKey, alerts_on_failure.
    destruct (find_key key p) as [k |];
      [| split; [apply quiet_refl | reflexivity]].
    cbv zeta. split.
    + send_from p Hsent Hrefreshed.
      * apply Hrefreshed.
      * simpl. eapply quiet_trans; [exact Hsent | apply quiet_alert].
    + eexists. apply patch_events.
  - (* toggle status *)
    unfold Dashboard.toggleStatus, alerts_on_failure.
    destruct (find_key key p) as [k |];
      [| split; [apply quiet_refl | reflexivity]].
    cbv zeta. split.
    + send_from p Hsent Hrefreshed.
      * apply Hrefreshed.
      * simpl. eapply quiet_trans; [exact Hsent | apply quiet_alert].
    + eexists. apply patch_events.
  - (* delete, confirmed *)
    unfold Dashboard.deleteKey. simpl negb. cbv iota.
    set (q := emit (EConfirm confirm_delete true) p).
    pose proof (quiet_confirm confirm_delete true p) as Hasked.
    fold q in Hasked.
    send_from q Hsent Hrefreshed.
    + refreshed_in Hrefreshed.
      eapply quiet_then_once; [| apply showToastNotification_notified].
      eapply quiet_trans; [exact Hasked | exact Hrefreshed].
    + simpl.
      eapply quiet_then_once; [| apply showToastNotification_notified].
      eapply quiet_trans; [exact Hasked | exact Hsent].
Qed.

End AnyRoutes.

(** C8, as stated, fails: rotating the seeded production key goes through
    (the store holds the new secret), and the page has shown no toast. *)
Lemma rotate_shows_no_toast :
  map secret
      (table (snd (run RouteById.PATCH (RouteById.DELETE 204)
                     (Rotate "x4k2p9" "q81zmd" "7hw3ca" production_key)
                     (mounted seed_world) seed_world)))
  = ["groot_live_x4k2p9q81zmd7hw3ca"; "groot_test_8ddm112ay2l288de";
     "groot_dev_xx330qwe992155aa"]
  /\ notifications
       (fst (run RouteById.PATCH (RouteById.DELETE 204)
               (Rotate "x4k2p9" "q81zmd" "7hw3ca" production_key)
               (mounted seed_world) seed_world)) = O
  /\ ~ every_mutation_notifies_once RouteById.PATCH (RouteById.DELETE 204).
Proof.
  split; [reflexivity |]. split; [reflexivity |].
  intros H.
  specialize (H (Rotate "x4k2p9" "q81zmd" "7hw3ca" production_key)
                (mounted seed_world) seed_world I).
  destruct H as [H _]. vm_compute in H. discriminate H.
Qed.

Lemma mutations_and_toasts_witness :
  notified_once mobile_form
    (fst (run RouteById.PATCH (RouteById.DELETE 204)
            (Create "x4k2p9" "q81zmd" "7hw3ca") mobile_form seed_world)).
Proof.
  apply (mutations_and_toasts RouteById.PATCH (RouteById.DELETE 204)
           (Create "x4k2p9" "q81zmd" "7hw3ca") mobile_form seed_world).
  vm_compute. discriminate.
Defined.

(* ------------------------------------------------------------------ *)
(** ** Rows and identifiers *)

Lemma find_id_none (key : string) (rows : list ApiKey) :
  find_id key rows = None <-> forall k, In k rows -> id k <> key.
Proof.
  unfold find_id. split.
  - intros H k Hk Hid.
    apply (find_none _ _ H) in Hk. simpl in Hk.
    apply String.eqb_neq in Hk. contradiction.
  - intros H. destruct (find _ rows) as [k |] eqn:E; [| reflexivity].
    apply find_some in E. destruct E as [Hk Hid].
    apply String.eqb_eq in Hid. apply H in Hk. contradiction.
Qed.

Lemma find_id_found (key : string) (rows : list ApiKey) :
  (exists k, In k rows /\ id k = key) ->
  exists k, find_id key rows = Some k.
Proof.
  intros [k [Hk Hid]].
  destruct (find_id key rows) as [k0 |] eqn:E; [eauto |].
  rewrite find_id_none in E. apply E in Hk. contradiction.
Qed.

Lemma find_key_some (key : string) (p : Page) (k : ApiKey) :
  find_key key p = Some k -> In k (keys p) /\ id k = key.
Proof.
  unfold find_key. intros H. apply find_some in H.
  destruct H as [Hk Hid]. apply String.eqb_eq in Hid. auto.
Qed.

(** [id] is the PRIMARY KEY: two rows with the same [id] are one row. *)
Lemma unique_row (rows : list ApiKey) (a b : ApiKey) :
  NoDup (map id rows) -> In a rows -> In b rows -> id a = id b -> a = b.
Proof.
  induction rows as [|x rows IH]; simpl; intros Hnd Ha Hb Hid; [easy |].
  inversion Hnd as [|? ? Hx Hrest]; subst.
  destruct Ha as [-> | Ha], Hb as [-> | Hb].
  - reflexivity.
  - exfalso. apply Hx. rewrite Hid. apply in_map. exact Hb.
  - exfalso. apply Hx. rewrite <- Hid. apply in_map. exact Ha.
  - apply IH; assumption.
Qed.


(** What [GET] answers depends on the rows and on the store being up. *)
Lemma GET_same (status environment : option string) (w1 w2 : World) :
  table w1 = table w2 -> db_down w1 = db_down w2 ->
  fst (GET status environment w1) = fst (GET status environment w2).
Proof.
  intros Ht Hd. unfold GET, db_select. simpl. rewrite Ht, Hd.
  destruct (db_down w2); reflexivity.
Qed.

Lemma GET_listed (status environment : option string) (w : World)
  (rows : list ApiKey) :
  fst (GET status environment w) = mkResponse 200 (BData rows) ->
  forall k, In k rows -> In k (table w).
Proof.
  intros H k Hk.
  destruct (db_down w) eqn:Hd.
  - unfold GET, db_select in H. simpl in H. rewrite Hd in H. discriminate H.
  - destruct (GET_rows status environment w Hd) as [q [HGET _]].
    rewrite HGET in H. simpl in H. injection H as <-.
    apply (Permutation_in _ (sort_rows_perm false _)) in Hk.
    apply filter_In in Hk. tauto.
Qed.

Lemma GET_lists (status environment : option string) (w : World)
  (rows : list ApiKey) (k : ApiKey) :
  db_down w = false ->
  fst (GET status environment w) = mkResponse 200 (BData rows) ->
  In k (table w) ->
  wanted status c_status k = true ->
  wanted environment c_environment k = true ->
  In k rows.
Proof.
  intros Hd H Hk Hs He.
  destruct (GET_rows status environment w Hd) as [q [HGET Hq]].
  rewrite HGET in H. simpl in H. injection H as <-.
  apply (Permutation_in _ (Permutation_sym (sort_rows_perm false _))).
  apply filter_In. split; [exact Hk |].
  rewrite Hq, Hs, He. reflexivity.
Qed.

Lemma GET_listed_wanted (status environment : option string) (w : World)
  (rows : list ApiKey) (k : ApiKey) :
  fst (GET status environment w) = mkResponse 200 (BData rows) ->
  In k rows ->
  wanted status c_status k = true
  /\ wanted environment c_environment k = true.
Proof.
  intros H Hk.
  destruct (db_down w) eqn:Hd.
  - unfold GET, db_select in H. simpl in H. rewrite Hd in H. discriminate H.
  - destruct (GET_rows status environment w Hd) as [q [HGET Hq]].
    rewrite HGET in H. simpl in H. injection H as <-.
    apply (Permutation_in _ (sort_rows_perm false _)) in Hk.
    apply filter_In in Hk. destruct Hk as [_ Hk].
    rewrite Hq in Hk. apply andb_true_iff in Hk. exact Hk.
Qed.

Lemma wanted_param_environment (f : Filter Environment) (k : ApiKey) :
  wanted (param environment_text f) c_environment k
  = keep environment_eqb f (environment k).
Proof. destruct f as [| e]; [reflexivity |]. destruct e; reflexivity. Qed.

Lemma wanted_param_status (f : Filter Status) (k : ApiKey) :
  wanted (param status_text f) c_status k = keep status_eqb f (status k).
Proof. destruct f as [| s]; [reflexivity |]. destruct s; reflexivity. Qed.

Lemma find_key_found (key : string) (p : Page) :
  (exists k, In k (keys p) /\ id k = key) -> find_key key p <> None.
Proof.
  intros H. apply find_id_found in H. destruct H as [k H].
  unfold find_key. unfold find_id in H. rewrite H. discriminate.
Qed.

(** A successful refresh: the list is what [GET] answers for the current
    filters, and the store keeps its rows. *)
Lemma fetchKeys_refresh
  (PATCH : string -> ApiKeyUpdate -> World -> Response * World)
  (DELETE : string -> World -> Response * World) (p : Page) (w : World) :
  net_down w = false -> db_down w = false ->
  fst (GET (param status_text (filterStatus p))
           (param environment_text (filterEnvironment p)) w)
  = mkResponse 200 (BData (keys (fst (fetchKeys PATCH DELETE p w))))
  /\ table (snd (fetchKeys PATCH DELETE p w)) = table w
  /\ db_down (snd (fetchKeys PATCH DELETE p w)) = false
  /\ net_down (snd (fetchKeys PATCH DELETE p w)) = false
  /\ db_now (snd (fetchKeys PATCH DELETE p w)) = db_now w.
Proof.
  intros Hnet Hdb. unfold fetchKeys, fetch. simpl. rewrite Hnet.
  destruct (GET_rows (param status_text (filterStatus p))
              (param environment_text (filterEnvironment p)) w Hdb)
    as [q [HGET _]].
  rewrite HGET. simpl. auto.
Qed.

(** What the list shows after a refresh depends on the filters, on the
    list before (kept when the refresh fails) and on the store. *)
Lemma fetchKeys_keys_same
  (PATCH : string -> ApiKeyUpdate -> World -> Response * World)
  (DELETE : string -> World -> Response * World) (p1 p2 : Page)
  (w1 w2 : World) :
  keys p1 = keys p2 ->
  filterStatus p1 = filterStatus p2 ->
  filterEnvironment p1 = filterEnvironment p2 ->
  table w1 = table w2 -> db_down w1 = db_down w2 ->
  net_down w1 = net_down w2 ->
  keys (fst (fetchKeys PATCH DELETE p1 w1))
  = keys (fst (fetchKeys PATCH DELETE p2 w2)).
Proof.
  intros Hk Hs He Ht Hd Hn. unfold fetchKeys, fetch. simpl.
  rewrite Hn, Hs, He.
  destruct (net_down w2); simpl; [exact Hk |].
  pose proof (GET_same (param status_text (filterStatus p2))
                (param environment_text (filterEnvironment p2)) w1 w2 Ht Hd)
    as HG.
  destruct (GET _ _ w1) as [r1 w1'], (GET _ _ w2) as [r2 w2'].
  simpl in HG. subst r2.
  destruct (ok r1); simpl; [reflexivity | exact Hk].
Qed.

(* ------------------------------------------------------------------ *)
(** ** DELETE /api/keys/{id} *)

(** C4: with the DELETE route as the specification describes it (success
    status 204 or 200) and a store that answers, deleting an id that no
    stored record has is answered 404, the stored records and every list
    result are unchanged, the page keeps its list and its next refresh
    shows what a refresh would have shown before; deleting an id that a
    stored record has is answered 204/200, removes exactly the records with
    that id, no later list result contains it, and deleting it again is
    answered 404. *)
Theorem DELETE_unknown_and_known (deleted_status : Z)
  (PATCH : string -> ApiKeyUpdate -> World -> Response * World)
  (key : string) (p : Page) (w : World) :
  deleted_status = 204 \/ deleted_status = 200 ->
  db_down w = false ->
  let DELETE := RouteById.DELETE deleted_status in
  ((forall k, In k (table w) -> id k <> key) ->
   resp_status (fst (DELETE key w)) = 404
   /\ table (snd (DELETE key w)) = table w
   /\ (forall status environment,
         fst (GET status environment (snd (DELETE key w)))
         = fst (GET status environment w))
   /\ keys (fst (deleteKey PATCH DELETE true key p w)) = keys p
   /\ table (snd (deleteKey PATCH DELETE true key p w)) = table w
   /\ keys (fst (fetchKeys PATCH DELETE
                   (fst (deleteKey PATCH DELETE true key p w))
                   (snd (deleteKey PATCH DELETE true key p w))))
      = keys (fst (fetchKeys PATCH DELETE p w)))
  /\ ((exists k, In k (table w) /\ id k = key) ->
      (resp_status (fst (DELETE key w)) = 204
       \/ resp_status (fst (DELETE key w)) = 200)
      /\ (forall k, In k (table (snd (DELETE key w)))
                    <-> In k (table w) /\ id k <> key)
      /\ (forall status environment rows,
            fst (GET status environment (snd (DELETE key w)))
            = mkResponse 200 (BData rows) ->
            forall k, In k rows -> id k <> key)
      /\ resp_status (fst (DELETE key (snd (DELETE key w)))) = 404).
Proof.
  intros Hstatus Hdb DELETE. split.
  - intros Hnone. apply find_id_none in Hnone.
    assert (HD : DELETE key w = (RouteById.not_found, received (SDelete key) w)).
    { unfold DELETE, RouteById.DELETE. simpl. rewrite Hdb, Hnone.
      reflexivity. }
    assert (HK : deleteKey PATCH DELETE true key p w
                 = (showToastNotification
                      "Failed to delete API key. Please try again."
                      toast_error
                      (emit (EFetch (ReqDelete key))
                         (emit (EConfirm confirm_delete true) p)),
                    if net_down w then w else received (SDelete key) w)).
    { unfold deleteKey, fetch. simpl negb. cbv iota.
      destruct (net_down w); [reflexivity |].
      rewrite HD. reflexivity. }
    rewrite HD, HK. simpl.
    split; [reflexivity |]. split; [reflexivity |]. split.
    { intros s e. apply GET_same; reflexivity. }
    split; [reflexivity |]. split.
    { destruct (net_down w); reflexivity. }
    apply fetchKeys_keys_same; try reflexivity;
      destruct (net_down w) eqn:E; simpl; auto.
  - intros Hsome. apply find_id_found in Hsome. destruct Hsome as [k0 Hk0].
    assert (HD : DELETE key w
                 = (mkResponse deleted_status BEmpty,
                    set_table (delete_where_id key (table w))
                      (received (SDelete key) w))).
    { unfold DELETE, RouteById.DELETE. simpl. rewrite Hdb, Hk0.
      reflexivity. }
    rewrite HD. simpl.
    assert (Hgone : forall k, In k (delete_where_id key (table w))
                              <-> In k (table w) /\ id k <> key).
    { intros k. unfold delete_where_id. rewrite filter_In.
      rewrite negb_true_iff, String.eqb_neq. reflexivity. }
    split; [exact Hstatus |]. split; [exact Hgone |]. split.
    + intros s e rows HG k Hk.
      apply (GET_listed _ _ _ _ HG) in Hk. simpl in Hk.
      apply Hgone in Hk. tauto.
    + unfold DELETE, RouteById.DELETE. simpl. rewrite Hdb.
      replace (find_id key (delete_where_id key (table w))) with
        (@None ApiKey); [reflexivity |].
      symmetry. apply find_id_none. intros k Hk.
      apply Hgone in Hk. tauto.
Qed.

Lemma DELETE_unknown_and_known_witness :
  resp_status (fst (RouteById.DELETE 204 "no-such-id" seed_world)) = 404
  /\ resp_status (fst (RouteById.DELETE 204 production_key seed_world)) = 204.
Proof.
  split.
  - pose proof (DELETE_unknown_and_known 204 RouteById.PATCH "no-such-id"
                  (mounted seed_world) seed_world (or_introl eq_refl)
                  eq_refl) as H.
    cbv zeta in H. destruct H as [H _]. apply H.
    intros k Hk. simpl in Hk.
    destruct Hk as [<- | [<- | [<- | []]]]; discriminate.
  - pose proof (DELETE_unknown_and_known 204 RouteById.PATCH production_key
                  (mounted seed_world) seed_world (or_introl eq_refl)
                  eq_refl) as H.
    cbv zeta in H. destruct H as [_ H].
    destruct H as [[H | H] _].
    + exists production_row.
      split; [left; reflexivity | reflexivity].
    + exact H.
    + vm_compute in H. discriminate H.
Defined.

(* ------------------------------------------------------------------ *)
(** ** PATCH /api/keys/{id}: rotate and toggle status *)

(** An update of an existing row that keeps [secret] unique goes through:
    it rewrites the rows with that [id] and nothing else. *)
Lemma PATCH_applies (key : string) (u : ApiKeyUpdate) (w : World) :
  db_down w = false ->
  (exists r, In r (table w) /\ id r = key) ->
  RouteById.secret_taken key (u_secret u) (table w) = false ->
  ok (fst (RouteById.PATCH key u w)) = true
  /\ table (snd (RouteById.PATCH key u w))
     = update_where_id (db_now w) key u (table w)
  /\ db_down (snd (RouteById.PATCH key u w)) = false
  /\ net_down (snd (RouteById.PATCH key u w)) = net_down w.
Proof.
  intros Hdb Hex Hfree. unfold RouteById.PATCH. simpl. rewrite Hdb.
  apply find_id_found in Hex. destruct Hex as [k0 ->].
  rewrite Hfree. simpl. auto.
Qed.

(** A PATCH that goes through, followed by the refresh of the list. *)
Lemma patch_then_refresh
  (DELETE : string -> World -> Response * World) (key : string)
  (u : ApiKeyUpdate) (p : Page) (w : World) :
  net_down w = false -> db_down w = false ->
  (exists r, In r (table w) /\ id r = key) ->
  RouteById.secret_taken key (u_secret u) (table w) = false ->
  succeeded (fst (fetch RouteById.PATCH DELETE (ReqPatch key u) w)) = true
  /\ (let refreshed :=
        fetchKeys RouteById.PATCH DELETE (emit (EFetch (ReqPatch key u)) p)
          (snd (fetch RouteById.PATCH DELETE (ReqPatch key u) w)) in
      table (snd refreshed) = update_where_id (db_now w) key u (table w)
      /\ db_down (snd refreshed) = false
      /\ net_down (snd refreshed) = false
      /\ (forall k, In k (keys (fst refreshed)) -> In k (table (snd refreshed)))
      /\ events (browser (fst refreshed))
         = events (browser p) ++ [EFetch (ReqPatch key u);
                                  EFetch (list_request p)]
      /\ fst (GET (param status_text (filterStatus p))
                  (param environment_text (filterEnvironment p))
                  (snd refreshed))
         = mkResponse 200 (BData (keys (fst refreshed)))).
Proof.
  intros Hnet Hdb Hex Hfree.
  destruct (PATCH_applies key u w Hdb Hex Hfree) as [Hok [Ht [Hd Hn]]].
  unfold fetch at 1 2. rewrite Hnet.
  destruct (RouteById.PATCH key u w) as [r w1]. simpl in *.
  split; [exact Hok |].
  rewrite Hnet in Hn.
  set (q := emit (EFetch (ReqPatch key u)) p).
  destruct (fetchKeys_refresh RouteById.PATCH DELETE q w1 Hn Hd)
    as [HG [Ht' [Hd' [Hn' _]]]].
  destruct (fetchKeys_frame RouteById.PATCH DELETE q w1)
    as [_ [_ [_ [_ [_ [_ [_ [_ Hev]]]]]]]].
  change (filterStatus q) with (filterStatus p) in HG.
  change (filterEnvironment q) with (filterEnvironment p) in HG.
  destruct (fetchKeys RouteById.PATCH DELETE q w1) as [p2 w2].
  simpl in *.
  split; [congruence |]. split; [exact Hd' |]. split; [exact Hn' |].
  assert (HG2 : fst (GET (param status_text (filterStatus p))
                         (param environment_text (filterEnvironment p)) w2)
                = mkResponse 200 (BData (keys p2))).
  { rewrite <- HG. apply GET_same; congruence. }
  split; [| split].
  - apply (GET_listed _ _ _ _ HG2).
  - rewrite Hev. subst q. simpl. rewrite <- app_assoc. reflexivity.
  - exact HG2.
Qed.

Lemma flip_flip (s : Status) : flip (flip s) = s.
Proof. destruct s; reflexivity. Qed.

(** One toggle on a listed record that the store has. *)
Lemma toggleStatus_effect
  (DELETE : string -> World -> Response * World) (key : string) (k : ApiKey)
  (p : Page) (w : World) :
  net_down w = false -> db_down w = false ->
  find_key key p = Some k ->
  (exists r, In r (table w) /\ id r = key) ->
  let done := toggleStatus RouteById.PATCH DELETE key p w in
  table (snd done)
  = update_where_id (db_now w) key
      (mkUpdate None None (Some (flip (status k))) None None None) (table w)
  /\ db_down (snd done) = false
  /\ net_down (snd done) = false
  /\ (forall r, In r (keys (fst done)) -> In r (table (snd done)))
  /\ fst (GET (param status_text (filterStatus p))
              (param environment_text (filterEnvironment p)) (snd done))
     = mkResponse 200 (BData (keys (fst done))).
Proof.
  intros Hnet Hdb Hfind Hex done. subst done.
  unfold toggleStatus. rewrite Hfind.
  set (u := mkUpdate None None (Some (flip (status k))) None None None).
  destruct (patch_then_refresh DELETE key u p w Hnet Hdb Hex eq_refl)
    as [Hok H].
  cbv zeta in H.
  destruct (fetch RouteById.PATCH DELETE (ReqPatch key u) w)
    as [response w1].
  simpl in Hok, H. fold (succeeded response). rewrite Hok.
  tauto.
Qed.

(** With no status filter, a toggled record whose stored row the
    environment filter admits is still in the list after the refresh, so
    that it can be toggled again. *)
Lemma toggleStatus_still_listed
  (DELETE : string -> World -> Response * World) (key : string)
  (k r : ApiKey) (p : Page) (w : World) :
  net_down w = false -> db_down w = false ->
  find_key key p = Some k -> In r (table w) -> id r = key ->
  filterStatus p = all ->
  keep environment_eqb (filterEnvironment p) (environment r) = true ->
  find_key key (fst (toggleStatus RouteById.PATCH DELETE key p w)) <> None.
Proof.
  intros Hnet Hdb Hfind Hin Hid Hfs Hfe.
  destruct (toggleStatus_effect DELETE key k p w Hnet Hdb Hfind
              (ex_intro _ r (conj Hin Hid)))
    as [Ht [Hdb1 [_ [_ HG]]]].
  set (u := mkUpdate None None (Some (flip (status k))) None None None) in Ht.
  apply find_key_found. exists (updated_row (db_now w) u r).
  split; [| exact Hid].
  apply (GET_lists _ _ _ _ _ Hdb1 HG).
  - rewrite Ht. unfold update_where_id. apply in_map_iff.
    exists r. split; [| exact Hin].
    apply String.eqb_eq in Hid. rewrite Hid. reflexivity.
  - rewrite Hfs. reflexivity.
  - rewrite wanted_param_environment. exact Hfe.
Qed.

(** Under the status filter of the record's own status, the toggled record
    is no longer in the list after the refresh. *)
Lemma toggleStatus_unlisted
  (DELETE : string -> World -> Response * World) (key : string)
  (k r : ApiKey) (p : Page) (w : World) :
  net_down w = false -> db_down w = false ->
  NoDup (map id (table w)) ->
  find_key key p = Some k -> In r (table w) -> id r = key ->
  filterStatus p = only (status k) ->
  find_key key (fst (toggleStatus RouteById.PATCH DELETE key p w)) = None.
Proof.
  intros Hnet Hdb Hnodup Hfind Hin Hid Hfs.
  destruct (toggleStatus_effect DELETE key k p w Hnet Hdb Hfind
              (ex_intro _ r (conj Hin Hid)))
    as [Ht [_ [_ [Hkeys HG]]]].
  destruct (find_key key
              (fst (toggleStatus RouteById.PATCH DELETE key p w)))
    as [k1 |] eqn:Hfind1; [| reflexivity].
  exfalso.
  destruct (find_key_some _ _ _ Hfind1) as [Hin1 Hid1].
  destruct (GET_listed_wanted _ _ _ _ _ HG Hin1) as [Hwanted _].
  rewrite wanted_param_status, Hfs in Hwanted.
  apply Hkeys in Hin1. rewrite Ht in Hin1.
  unfold update_where_id in Hin1. apply in_map_iff in Hin1.
  destruct Hin1 as [r1 [Hr1 _]].
  destruct (String.eqb (id r1) key) eqn:E.
  - subst k1. simpl in Hwanted. destruct (status k); discriminate Hwanted.
  - apply String.eqb_neq in E. subst k1. contradiction.
Qed.

Lemma change_ext (key : string) (f g : ApiKey -> ApiKey)
  (rows : list ApiKey) :
  (forall x, In x rows -> id x = key -> f x = g x) ->
  change key f rows = change key g rows.
Proof.
  intros H. unfold change. apply map_ext_in. intros x Hx.
  destruct (String.eqb (id x) key) eqn:E; [| reflexivity].
  apply String.eqb_eq in E. exact (H x Hx E).
Qed.

(** C5 (amended): with the PATCH route as the specification describes it
    and the requests answered, a toggle performed on a listed record that
    the store holds sets the stored status to the opposite of the listed
    one (revoked for active, active for revoked), refreshes [updated_at]
    and leaves every other row as it was; when the record is still listed
    after the refresh, a second toggle sets the stored status to the one
    first listed, and otherwise does nothing.  When the listed status is
    the stored one, the first toggle therefore flips the row and the
    second brings it back to its original status with no field changed
    except [updated_at].  The record is still listed when no status filter
    is selected and the environment filter admits it; it is no longer
    listed when the status filter selects the status it was listed
    with. *)
Theorem toggleStatus_twice
  (DELETE : string -> World -> Response * World) (key : string)
  (k r : ApiKey) (p : Page) (w : World) (later : Z) :
  net_down w = false -> db_down w = false ->
  NoDup (map id (table w)) ->
  find_key key p = Some k ->
  In r (table w) -> id r = key ->
  let once := toggleStatus RouteById.PATCH DELETE key p w in
  let twice :=
    toggleStatus RouteById.PATCH DELETE key (fst once)
      (set_db_now later (snd once)) in
  table (snd once) = change key (toggled (status k) (db_now w)) (table w)
  /\ (find_key key (fst once) <> None ->
      table (snd twice)
      = change key (fun x => with_updated_at later (with_status (status k) x))
          (table w))
  /\ (status r = status k ->
      table (snd once) = change key (flipped (db_now w)) (table w)
      /\ (find_key key (fst once) <> None ->
          table (snd twice) = change key (with_updated_at later) (table w)))
  /\ (find_key key (fst once) = None ->
      twice = (fst once, set_db_now later (snd once)))
  /\ (filterStatus p = all ->
      keep environment_eqb (filterEnvironment p) (environment r) = true ->
      find_key key (fst once) <> None)
  /\ (filterStatus p = only (status k) -> find_key key (fst once) = None).
Proof.
  intros Hnet Hdb Hnodup Hfind Hin Hid once twice.
  assert (Hr : forall r', In r' (table w) -> id r' = key -> r' = r).
  { intros r' Hr' Hrid. apply (unique_row (table w)); congruence. }
  destruct (toggleStatus_effect DELETE key k p w Hnet Hdb Hfind
              (ex_intro _ r (conj Hin Hid)))
    as [Ht1 [Hdb1 [Hnet1 [Hkeys1 _]]]].
  fold once in Ht1, Hdb1, Hnet1, Hkeys1.
  assert (Honce : table (snd once)
                  = change key (toggled (status k) (db_now w)) (table w)).
  { rewrite Ht1. unfold update_where_id, change.
    apply map_ext_in. intros x Hx.
    destruct (String.eqb (id x) key); [| reflexivity].
    unfold updated_row, toggled. simpl.
    destruct (status k); reflexivity. }
  assert (Htwice : find_key key (fst once) <> None ->
                   table (snd twice)
                   = change key
                       (fun x =>
                          with_updated_at later (with_status (status k) x))
                       (table w)).
  { intros Hlisted.
    destruct (find_key key (fst once)) as [k1 |] eqn:Hfind1;
      [| contradiction].
    destruct (find_key_some _ _ _ Hfind1) as [Hin1 Hid1].
    apply Hkeys1 in Hin1.
    assert (Hst : status k1 = flip (status k)).
    { rewrite Ht1 in Hin1. unfold update_where_id in Hin1.
      apply in_map_iff in Hin1. destruct Hin1 as [r' [Hr1 Hr']].
      destruct (String.eqb (id r') key) eqn:E.
      - subst k1. reflexivity.
      - apply String.eqb_neq in E. subst k1. contradiction. }
    destruct (toggleStatus_effect DELETE key k1 (fst once)
                (set_db_now later (snd once)) Hnet1 Hdb1 Hfind1
                (ex_intro _ k1 (conj Hin1 Hid1)))
      as [Ht2 _].
    fold twice in Ht2. rewrite Ht2. simpl. rewrite Ht1, Hst, flip_flip.
    unfold update_where_id, change. rewrite map_map.
    apply map_ext_in. intros x Hx.
    destruct (String.eqb (id x) key) eqn:E.
    - simpl. rewrite E. reflexivity.
    - rewrite E. reflexivity. }
  split; [exact Honce |]. split; [exact Htwice |].
  split; [| split; [| split]].
  - intros Hstatus. split.
    + rewrite Honce. apply change_ext. intros x Hx Hxid.
      rewrite (Hr x Hx Hxid). unfold flipped. rewrite Hstatus. reflexivity.
    + intros Hlisted. rewrite (Htwice Hlisted).
      apply change_ext. intros x Hx Hxid.
      rewrite (Hr x Hx Hxid), <- Hstatus. reflexivity.
  - intros Hnone. subst twice. unfold toggleStatus at 1.
    rewrite Hnone. reflexivity.
  - intros Hfs Hfe.
    exact (toggleStatus_still_listed DELETE key k r p w Hnet Hdb Hfind Hin
             Hid Hfs Hfe).
  - intros Hfs.
    exact (toggleStatus_unlisted DELETE key k r p w Hnet Hdb Hnodup Hfind
             Hin Hid Hfs).
Qed.

Lemma toggleStatus_twice_witness :
  table (snd (toggleStatus RouteById.PATCH (RouteById.DELETE 204)
                production_key
                (fst (toggleStatus RouteById.PATCH (RouteById.DELETE 204)
                        production_key (mounted seed_world) seed_world))
                (set_db_now 1735000060000
                   (snd (toggleStatus RouteById.PATCH (RouteById.DELETE 204)
                           production_key (mounted seed_world) seed_world)))))
  = change production_key (with_updated_at 1735000060000) (table seed_world).
Proof.
  pose proof (toggleStatus_twice (RouteById.DELETE 204) production_key
                production_row production_row
                (mounted seed_world) seed_world 1735000060000) as H.
  cbv zeta in H.
  destruct H as [_ [_ [H _]]].
  - reflexivity.
  - reflexivity.
  - simpl. repeat constructor; simpl; intuition discriminate.
  - reflexivity.
  - left. reflexivity.
  - reflexivity.
  - destruct (H eq_refl) as [_ Hback].
    apply Hback. vm_compute. discriminate.
Defined.

(** C5, as stated, fails.  With the status filter set to Active, the
    production record of the seed is listed; after the first toggle it is
    revoked and no longer listed, the second toggle does nothing, and the
    record is not back at its original status.  And when another session
    has revoked the record since the list was fetched, the first toggle,
    asked for on a record listed as active, leaves it revoked and the
    second makes it active: neither is the first toggle a flip, nor is the
    record back at its original status. *)
Lemma toggleStatus_twice_under_filter :
  (let p := mounted_active seed_world in
   let once :=
     toggleStatus RouteById.PATCH (RouteById.DELETE 204) production_key p
       seed_world in
   let twice :=
     toggleStatus RouteById.PATCH (RouteById.DELETE 204) production_key
       (fst once) (set_db_now 1735000060000 (snd once)) in
   find_key production_key p = Some production_row
   /\ find_key production_key (fst once) = None
   /\ map status (table seed_world) = [active; active; active]
   /\ map status (table (snd twice)) = [revoked; active; active]
   /\ ~ status_restored production_key (table seed_world)
          (table (snd twice)))
  /\ (let p := mounted seed_world in
      let w := revoked_elsewhere seed_world in
      let once :=
        toggleStatus RouteById.PATCH (RouteById.DELETE 204) production_key p
          w in
      let twice :=
        toggleStatus RouteById.PATCH (RouteById.DELETE 204) production_key
          (fst once) (set_db_now 1735000060000 (snd once)) in
      find_key production_key p = Some production_row
      /\ map status (table w) = [revoked; active; active]
      /\ map status (table (snd once)) = [revoked; active; active]
      /\ map status (table (snd twice)) = [active; active; active]).
Proof.
  cbv zeta. split.
  - split; [| split; [| split; [| split]]];
      try (vm_compute; reflexivity).
    intros H.
    destruct (H production_row (or_introl eq_refl) eq_refl)
      as [r' [Hin [Hid Hs]]].
    vm_compute in Hin.
    destruct Hin as [<- | [<- | [<- | []]]]; vm_compute in Hid, Hs;
      discriminate.
  - repeat split; vm_compute; reflexivity.
Qed.





(* ------------------------------------------------------------------ *)
(** ** More on the routes of /api/keys *)

Lemma GET_world (status environment : option string) (w : World) :
  table (snd (GET status environment w)) = table w
  /\ db_down (snd (GET status environment w)) = db_down w
  /\ db_uuids (snd (GET status environment w)) = db_uuids w
  /\ db_now (snd (GET status environment w)) = db_now w.
Proof.
  unfold GET, db_select. simpl.
  destruct (db_down w) eqn:E; simpl; repeat split; auto.
Qed.

(** X1: a list request only reads: the rows and the identifier supply of
    the store are as before, and any list request made after it is answered
    as it would have been without it (the same request twice gives the same
    answer). *)
Theorem GET_reads_only (status environment status' environment'
  : option string) (w : World) :
  table (snd (GET status environment w)) = table w
  /\ db_uuids (snd (GET status environment w)) = db_uuids w
  /\ fst (GET status' environment' (snd (GET status environment w)))
     = fst (GET status' environment' w).
Proof.
  destruct (GET_world status environment w) as [Ht [Hd [Hu _]]].
  split; [exact Ht |]. split; [exact Hu |].
  apply GET_same; assumption.
Qed.

Lemma filter_none {A : Type} (f : A -> bool) (l : list A) :
  (forall x, In x l -> f x = false) -> filter f l = [].
Proof.
  induction l as [|x l IH]; simpl; intros H; [reflexivity |].
  rewrite (H x (or_introl eq_refl)). apply IH.
  intros y Hy. apply H. right. exact Hy.
Qed.

(** X2: a filter value that is neither empty nor ["all"] and that the
    column cannot hold selects nothing: the answer is 200 with an empty
    list, not an error. *)
Theorem GET_unknown_value (v : string) (other : option string) (w : World) :
  db_down w = false ->
  v <> "" -> v <> "all" ->
  (v <> "active" -> v <> "revoked" ->
   fst (GET (Some v) other w) = mkResponse 200 (BData []))
  /\ (v <> "production" -> v <> "staging" -> v <> "development" ->
      fst (GET other (Some v) w) = mkResponse 200 (BData [])).
Proof.
  intros Hdb Hne Hall.
  apply String.eqb_neq in Hne, Hall.
  split.
  - intros Ha Hr.
    destruct (GET_rows (Some v) other w Hdb) as [q [HGET Hq]].
    rewrite HGET. simpl. rewrite filter_none; [reflexivity |].
    intros k _. rewrite Hq. unfold wanted at 1. rewrite Hne, Hall.
    replace (String.eqb (cell c_status k) v) with false; [reflexivity |].
    symmetry. apply String.eqb_neq.
    simpl. destruct (status k); simpl; congruence.
  - intros Hp Hs Hd.
    destruct (GET_rows other (Some v) w Hdb) as [q [HGET Hq]].
    rewrite HGET. simpl. rewrite filter_none; [reflexivity |].
    intros k _. rewrite Hq. unfold wanted at 2. rewrite Hne, Hall.
    replace (String.eqb (cell c_environment k) v) with false;
      [apply andb_false_r |].
    symmetry. apply String.eqb_neq.
    simpl. destruct (environment k); simpl; congruence.
Qed.

Lemma GET_unknown_value_witness :
  fst (GET (Some "expired") (Some "production") seed_world)
  = mkResponse 200 (BData []).
Proof.
  apply (GET_unknown_value "expired" (Some "production") seed_world);
    try reflexivity; discriminate.
Defined.

Lemma db_insert_failed (r : InsertRow) (w : World) (message : string)
  (w' : World) :
  db_insert r w = (inl message, w') -> table w' = table w.
Proof.
  unfold db_insert. simpl.
  repeat match goal with
         | |- context [match ?x with _ => _ end] => destruct x
         end;
    intros H; inversion H; reflexivity.
Qed.

Lemma db_insert_fresh (r : InsertRow) (w : World) (k : ApiKey) (w' : World) :
  db_insert r w = (inr k, w') ->
  has_secret (secret k) (table w) = false
  /\ has_id (id k) (table w) = false.
Proof.
  unfold db_insert. simpl.
  destruct (db_down w); [discriminate |].
  destruct (as_text _ (i_name r)); [| discriminate].
  destruct (as_text _ (i_secret r)); [| discriminate].
  destruct (as_text_array _ (i_scopes r)); [| discriminate].
  destruct (as_text _ (i_environment r)); [| discriminate].
  destruct (status_of_text (i_status r)); [| discriminate].
  destruct (environment_of_text _); [| discriminate].
  destruct (has_secret _ _) eqn:Hs; [discriminate |].
  destruct (db_uuids w) as [|u rest]; [discriminate |].
  destruct (has_id _ _) eqn:Hi; [discriminate |].
  intros [= <- <-]. simpl. auto.
Qed.

(** The two ways a create request can end: before the store is reached,
    or with the verdict of the insert. *)
Lemma POST_outcome (body : option json) (w : World) :
  (snd (POST body w) = w
   /\ (resp_status (fst (POST body w)) = 400
       \/ resp_status (fst (POST body w)) = 500))
  \/ exists b,
       body = Some b
       /\ POST body w
          = (match fst (db_insert (row_of b) w) with
             | inl message =>
                 mkResponse 500
                   (BError "Failed to create API key" (Some message))
             | inr data => mkResponse 201 (BRecord data)
             end,
             snd (db_insert (row_of b) w)).
Proof.
  destruct body as [b |]; [| left; simpl; auto].
  assert (Hnull : b = JNull \/ b <> JNull).
  { destruct b; auto; right; discriminate. }
  destruct Hnull as [-> | Hnull]; [left; simpl; auto |].
  assert (HPOST : POST (Some b) w
                  = if negb (truthy (prop b "name"))
                       || negb (truthy (prop b "secret"))
                       || negb (truthy (prop b "scopes"))
                       || negb (truthy (prop b "environment"))
                    then (rejected, w)
                    else
                      let '(result, w') := db_insert (row_of b) w in
                      match result with
                      | inl message =>
                          (mkResponse 500
                             (BError "Failed to create API key"
                                (Some message)), w')
                      | inr data => (mkResponse 201 (BRecord data), w')
                      end).
  { destruct b; try reflexivity. contradiction. }
  rewrite HPOST.
  destruct (negb _ || _ || _ || _); [left; simpl; auto |].
  right. exists b. split; [reflexivity |].
  destruct (db_insert (row_of b) w) as [[message | data] w']; reflexivity.
Qed.

(** X3: a create request is answered 201, 400 or 500, and unless the
    answer is 201 the stored rows are exactly as before. *)
Theorem POST_failure_keeps_rows (body : option json) (w : World) :
  (resp_status (fst (POST body w)) = 201
   \/ resp_status (fst (POST body w)) = 400
   \/ resp_status (fst (POST body w)) = 500)
  /\ (resp_status (fst (POST body w)) <> 201 ->
      table (snd (POST body w)) = table w).
Proof.
  destruct (POST_outcome body w) as [[Hw Hs] | [b [-> HPOST]]].
  - split; [tauto |]. intros _. rewrite Hw. reflexivity.
  - rewrite HPOST. simpl.
    destruct (db_insert (row_of b) w) as [[message | data] w'] eqn:Hins;
      simpl.
    + split; [auto |]. intros _. exact (db_insert_failed _ _ _ _ Hins).
    + split; [auto |]. intros H. contradiction.
Qed.

Lemma POST_failure_keeps_rows_witness :
  table (snd (POST (Some mobile_key)
                (snd (POST (Some mobile_key) seed_world))))
  = table (snd (POST (Some mobile_key) seed_world)).
Proof.
  apply (POST_failure_keeps_rows (Some mobile_key)
           (snd (POST (Some mobile_key) seed_world))).
  vm_compute. discriminate.
Defined.

Lemma has_id_false (u : string) (rows : list ApiKey) :
  has_id u rows = false -> ~ In u (map id rows).
Proof.
  unfold has_id. intros H Hin. apply in_map_iff in Hin.
  destruct Hin as [k [Hk Hin]].
  assert (Ht : existsb (fun k => String.eqb (id k) u) rows = true).
  { apply existsb_exists. exists k. split; [exact Hin |].
    apply String.eqb_eq. exact Hk. }
  congruence.
Qed.

Lemma has_secret_false (s : string) (rows : list ApiKey) :
  has_secret s rows = false -> ~ In s (map secret rows).
Proof.
  unfold has_secret. intros H Hin. apply in_map_iff in Hin.
  destruct Hin as [k [Hk Hin]].
  assert (Ht : existsb (fun k => String.eqb (secret k) s) rows = true).
  { apply existsb_exists. exists k. split; [exact Hin |].
    apply String.eqb_eq. exact Hk. }
  congruence.
Qed.

Lemma NoDup_snoc {A : Type} (l : list A) (x : A) :
  NoDup l -> ~ In x l -> NoDup (l ++ [x]).
Proof.
  intros Hl Hx. apply NoDup_app; [exact Hl | |].
  - constructor; [intros [] | constructor].
  - intros a Ha [<- | []]. contradiction.
Qed.

(** X4: whatever the body, a create request keeps the keys of the table:
    if no two stored rows share an [id] or a [secret] before it, none do
    after it. *)
Theorem POST_keeps_keyed (body : option json) (w : World) :
  keyed (table w) -> keyed (table (snd (POST body w))).
Proof.
  intros [Hid Hsecret].
  destruct (POST_outcome body w) as [[Hw _] | [b [-> HPOST]]].
  - rewrite Hw. split; assumption.
  - rewrite HPOST. simpl.
    destruct (db_insert (row_of b) w) as [[message | k] w'] eqn:Hins;
      simpl.
    + rewrite (db_insert_failed _ _ _ _ Hins). split; assumption.
    + destruct (db_insert_fresh _ _ _ _ Hins) as [Hs Hi].
      destruct (db_insert_created _ _ _ _ Hins)
        as [rest [_ [_ [_ [_ [_ Ht]]]]]].
      rewrite Ht. unfold keyed. rewrite !map_app. simpl. split.
      * apply NoDup_snoc; [exact Hid | apply has_id_false, Hi].
      * apply NoDup_snoc; [exact Hsecret | apply has_secret_false, Hs].
Qed.

Lemma POST_keeps_keyed_witness :
  keyed (table (snd (POST (Some mobile_key) seed_world))).
Proof.
  apply (POST_keeps_keyed (Some mobile_key) seed_world).
  split; simpl; repeat constructor; simpl; intuition discriminate.
Defined.

(** X5: an environment that is a non-empty string but none of the three the
    CHECK constraint allows passes the route's own check (the answer is not
    400) and is refused by the store: the answer is 500 and nothing is
    stored. *)
Theorem POST_unknown_environment (body : json) (e : string) (w : World) :
  prop body "environment" = Some (JStr e) ->
  e <> "" -> e <> "production" -> e <> "staging" -> e <> "development" ->
  truthy (prop body "name") = true ->
  truthy (prop body "secret") = true ->
  truthy (prop body "scopes") = true ->
  resp_status (fst (POST (Some body) w)) = 500
  /\ table (snd (POST (Some body) w)) = table w.
Proof.
  intros He Hne Hp Hs Hd Hname Hsecret Hscopes.
  assert (Hcheck : environment_of_text e = None).
  { unfold environment_of_text.
    apply String.eqb_neq in Hp, Hs, Hd. rewrite Hp, Hs, Hd. reflexivity. }
  assert (Hins : exists message w',
             db_insert (row_of body) w = (inl message, w')).
  { unfold db_insert, row_of. simpl. rewrite He. simpl. rewrite Hcheck.
    repeat match goal with
           | |- context [match ?x with _ => _ end] => destruct x
           end; eauto. }
  destruct Hins as [message [w' Hins]].
  destruct (POST_outcome (Some body) w) as [[Hw Hst] | [b [[= <-] HPOST]]].
  - exfalso.
    assert (Hbody : body <> JNull).
    { intros ->. discriminate He. }
    assert (HPOST : POST (Some body) w
                    = let '(result, w') := db_insert (row_of body) w in
                      match result with
                      | inl message =>
                          (mkResponse 500
                             (BError "Failed to create API key"
                                (Some message)), w')
                      | inr data => (mkResponse 201 (BRecord data), w')
                      end).
    { assert (Hvalid : negb (truthy (prop body "name"))
                       || negb (truthy (prop body "secret"))
                       || negb (truthy (prop body "scopes"))
                       || negb (truthy (prop body "environment")) = false).
      { rewrite Hname, Hsecret, Hscopes, He. simpl.
        apply String.eqb_neq in Hne. rewrite Hne. reflexivity. }
      destruct body; try contradiction; unfold POST; rewrite Hvalid;
        reflexivity. }
    rewrite HPOST, Hins in Hw. simpl in Hw.
    assert (Hlog : db_log w' = db_log w ++ [SInsert (row_of body)]).
    { pose proof (db_insert_log (row_of body) w) as H.
      rewrite Hins in H. exact H. }
    rewrite Hw in Hlog.
    apply (f_equal (@List.length Stmt)) in Hlog.
    rewrite length_app in Hlog. simpl in Hlog. lia.
  - rewrite HPOST, Hins. simpl. split; [reflexivity |].
    exact (db_insert_failed _ _ _ _ Hins).
Qed.

Lemma POST_unknown_environment_witness :
  resp_status
    (fst (POST (Some (JObj [("name", JStr "Mobile key");
                            ("secret", JStr "groot_dev_abc123");
                            ("scopes", JArr [JStr "read"]);
                            ("environment", JStr "qa")])) seed_world))
  = 500.
Proof.
  apply (POST_unknown_environment _ "qa" seed_world);
    try reflexivity; discriminate.
Defined.

(* ------------------------------------------------------------------ *)
(** ** The seed statement *)

Lemma has_secret_app (s : string) (t added : list ApiKey) :
  has_secret s t = true -> has_secret s (t ++ added) = true.
Proof.
  unfold has_secret. rewrite existsb_app. intros ->. reflexivity.
Qed.

Lemma insert_do_nothing_grows (now : Z) (rows t t' : list ApiKey) :
  Seeding.insert_do_nothing now rows t = Some t' ->
  exists added, t' = t ++ added.
Proof.
  revert t. induction rows as [|r rows IH]; simpl; intros t H.
  - injection H as <-. exists []. rewrite app_nil_r. reflexivity.
  - destruct (has_secret (secret r) t); [apply IH, H |].
    destruct (has_id (id r) t); [discriminate |].
    apply IH in H. destruct H as [added ->].
    eexists. rewrite <- app_assoc. reflexivity.
Qed.

Lemma insert_do_nothing_holds (now : Z) (rows t t' : list ApiKey) :
  Seeding.insert_do_nothing now rows t = Some t' ->
  forall r, In r rows -> has_secret (secret r) t' = true.
Proof.
  revert t. induction rows as [|r rows IH]; simpl; intros t H x Hx;
    [contradiction |].
  destruct Hx as [<- | Hx].
  - destruct (has_secret (secret r) t) eqn:Hs.
    + destruct (insert_do_nothing_grows _ _ _ _ H) as [added ->].
      apply has_secret_app, Hs.
    + destruct (has_id (id r) t); [discriminate |].
      destruct (insert_do_nothing_grows _ _ _ _ H) as [added ->].
      apply has_secret_app. unfold has_secret. rewrite existsb_app.
      simpl. rewrite String.eqb_refl. simpl. apply orb_true_r.
  - destruct (has_secret (secret r) t); [exact (IH _ H x Hx) |].
    destruct (has_id (id r) t); [discriminate |].
    exact (IH _ H x Hx).
Qed.

Lemma insert_do_nothing_skips (now : Z) (rows t : list ApiKey) :
  (forall r, In r rows -> has_secret (secret r) t = true) ->
  Seeding.insert_do_nothing now rows t = Some t.
Proof.
  induction rows as [|r rows IH]; simpl; intros H; [reflexivity |].
  rewrite (H r (or_introl eq_refl)). apply IH.
  intros x Hx. apply H. right. exact Hx.
Qed.

(** X6: the seed statement can be run again: once it has gone through,
    running it a second time (at any later time) goes through and changes
    nothing; and a run only ever adds rows after the existing ones, which it
    leaves as they are. *)
Theorem seed_statement_idempotent (now now' : Z) (rows t t' : list ApiKey) :
  Seeding.insert_do_nothing now rows t = Some t' ->
  Seeding.insert_do_nothing now' rows t' = Some t'
  /\ exists added, t' = t ++ added.
Proof.
  intros H. split.
  - apply insert_do_nothing_skips.
    exact (insert_do_nothing_holds _ _ _ _ H).
  - exact (insert_do_nothing_grows _ _ _ _ H).
Qed.

Lemma seed_statement_idempotent_witness :
  Seeding.insert_do_nothing 1735000000000 seed
    [update_updated_at_column 1734652800000 staging_row;
     update_updated_at_column 1734652800000 production_row;
     update_updated_at_column 1734652800000 development_row]
  = Some [update_updated_at_column 1734652800000 staging_row;
          update_updated_at_column 1734652800000 production_row;
          update_updated_at_column 1734652800000 development_row].
Proof.
  apply (seed_statement_idempotent 1734652800000 1735000000000 seed
           [update_updated_at_column 1734652800000 staging_row]).
  reflexivity.
Defined.

(* ------------------------------------------------------------------ *)
(** ** More on the handlers, whatever the routes of /api/keys/{id} answer *)

Section AnyRoutesMore.

Variable PATCH : string -> ApiKeyUpdate -> World -> Response * World.
Variable DELETE : string -> World -> Response * World.

Abbreviation fetch := (Dashboard.fetch PATCH DELETE).
Abbreviation fetchKeys := (Dashboard.fetchKeys PATCH DELETE).
Abbreviation createKey := (Dashboard.createKey PATCH DELETE).
Abbreviation saveEdit := (Dashboard.saveEdit PATCH DELETE).
Abbreviation rotateKey := (Dashboard.rotateKey PATCH DELETE).
Abbreviation toggleStatus := (Dashboard.toggleStatus PATCH DELETE).

(** X7: a refresh always ends with [loading] off.  When the routes cannot
    be reached, or the store does not answer, the list is kept as it was
    and [error] is set; when the store answers, [error] is cleared and the
    list is replaced by the answer, whatever it held before. *)
Theorem fetchKeys_outcomes (p : Page) (w : World) :
  loading (fst (fetchKeys p w)) = false
  /\ (net_down w = true ->
      keys (fst (fetchKeys p w)) = keys p
      /\ error (fst (fetchKeys p w)) = Some network_error
      /\ snd (fetchKeys p w) = w)
  /\ (net_down w = false -> db_down w = true ->
      keys (fst (fetchKeys p w)) = keys p
      /\ error (fst (fetchKeys p w)) = Some "Failed to fetch API keys")
  /\ (net_down w = false -> db_down w = false ->
      error (fst (fetchKeys p w)) = None
      /\ fst (GET (param status_text (filterStatus p))
                  (param environment_text (filterEnvironment p)) w)
         = mkResponse 200 (BData (keys (fst (fetchKeys p w))))).
Proof.
  split; [| split; [| split]].
  - unfold Dashboard.fetchKeys, Dashboard.fetch. simpl.
    destruct (net_down w); [reflexivity |].
    destruct (GET _ _ w) as [r w1]. destruct (ok r); reflexivity.
  - intros Hnet. unfold Dashboard.fetchKeys, Dashboard.fetch. simpl.
    rewrite Hnet. simpl. auto.
  - intros Hnet Hdb. unfold Dashboard.fetchKeys, Dashboard.fetch. simpl.
    rewrite Hnet. unfold GET, db_select. simpl. rewrite Hdb. simpl. auto.
  - intros Hnet Hdb.
    destruct (fetchKeys_refresh PATCH DELETE p w Hnet Hdb) as [HG _].
    split; [| exact HG].
    unfold Dashboard.fetchKeys, Dashboard.fetch. simpl. rewrite Hnet.
    destruct (GET_rows (param status_text (filterStatus p))
                (param environment_text (filterEnvironment p)) w Hdb)
      as [q [HGET _]].
    rewrite HGET. reflexivity.
Qed.

Lemma GET_newest_first (status environment : option string) (w : World)
  (rows : list ApiKey) :
  fst (GET status environment w) = mkResponse 200 (BData rows) ->
  newest_first rows.
Proof.
  intros H.
  destruct (db_down w) eqn:Hd.
  - unfold GET, db_select in H. simpl in H. rewrite Hd in H. discriminate H.
  - destruct (GET_rows status environment w Hd) as [q [HGET _]].
    rewrite HGET in H. simpl in H. injection H as <-.
    apply sort_rows_newest_first.
Qed.

Lemma filter_all {A : Type} (f : A -> bool) (l : list A) :
  (forall x, In x l -> f x = true) -> filter f l = l.
Proof.
  induction l as [|x l IH]; simpl; intros H; [reflexivity |].
  rewrite (H x (or_introl eq_refl)). f_equal. apply IH.
  intros y Hy. apply H. right. exact Hy.
Qed.

(** X8: right after a refresh that the store answered, the filter the page
    applies on its own removes nothing: the table shows the whole fetched
    list, which satisfies both selections already, newest first. *)
Theorem refresh_then_filter (p : Page) (w : World) :
  net_down w = false -> db_down w = false ->
  filteredKeys (fst (fetchKeys p w)) = keys (fst (fetchKeys p w))
  /\ rendered_rows (fst (fetchKeys p w)) = keys (fst (fetchKeys p w))
  /\ newest_first (rendered_rows (fst (fetchKeys p w))).
Proof.
  intros Hnet Hdb.
  destruct (fetchKeys_refresh PATCH DELETE p w Hnet Hdb) as [HG _].
  destruct (fetchKeys_frame PATCH DELETE p w)
    as [_ [_ [_ [_ [Hfs [Hfe _]]]]]].
  destruct (fetchKeys_outcomes p w) as [Hload _].
  assert (Hfilter : filteredKeys (fst (fetchKeys p w))
                    = keys (fst (fetchKeys p w))).
  { unfold filteredKeys. apply filter_all. intros k Hk.
    destruct (GET_listed_wanted _ _ _ _ _ HG Hk) as [Hs He].
    rewrite wanted_param_status in Hs.
    rewrite wanted_param_environment in He.
    simpl in Hfs, Hfe. rewrite Hfs, Hfe, Hs, He. reflexivity. }
  unfold rendered_rows. rewrite Hload, Hfilter.
  split; [reflexivity |]. split; [reflexivity |].
  exact (GET_newest_first _ _ _ _ HG).
Qed.

End AnyRoutesMore.

Lemma fetchKeys_outcomes_witness :
  keys (fst (Dashboard.fetchKeys RouteById.PATCH (RouteById.DELETE 204)
               (mounted seed_world) seed_world_down))
  = keys (mounted seed_world).
Proof.
  apply (fetchKeys_outcomes RouteById.PATCH (RouteById.DELETE 204)
           (mounted seed_world) seed_world_down); reflexivity.
Defined.

Lemma refresh_then_filter_witness :
  filteredKeys (mounted seed_world) = keys (mounted seed_world).
Proof.
  apply (refresh_then_filter RouteById.PATCH (RouteById.DELETE 204)
           (initial 1735000000500) seed_world); reflexivity.
Defined.

(* ------------------------------------------------------------------ *)
(** ** Creating and editing from the page *)

Lemma all_text_strings (l : list string) : all_text (map JStr l) = Some l.
Proof.
  induction l as [|s l IH]; simpl; [reflexivity |]. rewrite IH. reflexivity.
Qed.

Lemma environment_of_text_text (e : Environment) :
  environment_of_text (environment_text e) = Some e.
Proof. destruct e; reflexivity. Qed.

(** A body that passes the route's check reaches the store. *)
Lemma POST_inserts (body : json) (w : World) :
  body <> JNull ->
  (forall f, In f required -> truthy (prop body f) = true) ->
  POST (Some body) w
  = (match fst (db_insert (row_of body) w) with
     | inl message =>
         mkResponse 500 (BError "Failed to create API key" (Some message))
     | inr data => mkResponse 201 (BRecord data)
     end,
     snd (db_insert (row_of body) w)).
Proof.
  intros Hnull Hvalid.
  assert (Hcheck : negb (truthy (prop body "name"))
                   || negb (truthy (prop body "secret"))
                   || negb (truthy (prop body "scopes"))
                   || negb (truthy (prop body "environment")) = false).
  { rewrite !Hvalid by (simpl; auto). reflexivity. }
  destruct body; try contradiction; unfold POST, row_of; rewrite Hcheck;
    match goal with
    | |- context [db_insert ?r w] =>
        destruct (db_insert r w) as [[message | data] w']; reflexivity
    end.
Qed.

Lemma chosen_scopes_not_empty (p : Page) : chosen_scopes p <> [].
Proof.
  unfold chosen_scopes. destruct (newScopes (form p)); discriminate.
Qed.

Lemma newKey_valid (rand1 rand2 rand3 : string) (p : Page) :
  trim (newName (form p)) <> "" ->
  forall f, In f required -> truthy (prop (newKey rand1 rand2 rand3 p) f) = true.
Proof.
  intros Hname f Hf. simpl in Hf.
  destruct Hf as [<- | [<- | [<- | [<- | []]]]]; simpl.
  - apply String.eqb_neq in Hname. rewrite Hname. reflexivity.
  - reflexivity.
  - reflexivity.
  - destruct (newEnvironment (form p)); reflexivity.
Qed.

Section AnyRoutesForms.

Variable PATCH : string -> ApiKeyUpdate -> World -> Response * World.
Variable DELETE : string -> World -> Response * World.

Abbreviation fetch := (Dashboard.fetch PATCH DELETE).
Abbreviation fetchKeys := (Dashboard.fetchKeys PATCH DELETE).
Abbreviation createKey := (Dashboard.createKey PATCH DELETE).
Abbreviation saveEdit := (Dashboard.saveEdit PATCH DELETE).
Abbreviation rotateKey := (Dashboard.rotateKey PATCH DELETE).
Abbreviation toggleStatus := (Dashboard.toggleStatus PATCH DELETE).

(** [createKey] once the name is not blank. *)
Lemma createKey_sends (rand1 rand2 rand3 : string) (p : Page) (w : World) :
  trim (newName (form p)) <> "" ->
  createKey rand1 rand2 rand3 p w
  = let request := ReqCreate (newKey rand1 rand2 rand3 p) in
    let q := emit (EFetch request) p in
    if succeeded (fst (fetch request w))
    then
      (showToastNotification "API key created successfully!" toast_success
         (closeModal (fst (fetchKeys q (snd (fetch request w))))),
       snd (fetchKeys q (snd (fetch request w))))
    else
      (showToastNotification "Failed to create API key. Please try again."
         toast_error q,
       snd (fetch request w)).
Proof.
  intros Hname. apply String.eqb_neq in Hname.
  unfold Dashboard.createKey. rewrite Hname.
  fold (chosen_scopes p). fold (newKey rand1 rand2 rand3 p).
  cbv zeta.
  destruct (fetch (ReqCreate (newKey rand1 rand2 rand3 p)) w)
    as [response w1].
  simpl fst. simpl snd. fold (succeeded response).
  destruct (succeeded response); [| reflexivity].
  destruct (fetchKeys _ w1) as [p2 w2]. reflexivity.
Qed.

Lemma fetchKeys_log (p : Page) (w : World) :
  exists rest, db_log (snd (fetchKeys p w)) = db_log w ++ rest.
Proof.
  unfold Dashboard.fetchKeys, Dashboard.fetch. simpl.
  destruct (net_down w).
  - exists []. simpl. rewrite app_nil_r. reflexivity.
  - unfold GET, db_select. simpl.
    destruct (db_down w); simpl; eexists; reflexivity.
Qed.

(** X9: a create sent from the form never trips the route's check: with
    a name that is not blank and the routes in reach, the answer to the
    POST is not 400 and the store receives the insert of the posted
    values (a blank selection of scopes having been replaced by
    ["read"]). *)
Theorem createKey_reaches_store (rand1 rand2 rand3 : string) (p : Page)
  (w : World) :
  net_down w = false ->
  trim (newName (form p)) <> "" ->
  resp_status (fst (POST (Some (newKey rand1 rand2 rand3 p)) w)) <> 400
  /\ exists rest,
       db_log (snd (createKey rand1 rand2 rand3 p w))
       = db_log w ++ SInsert (row_of (newKey rand1 rand2 rand3 p)) :: rest.
Proof.
  intros Hnet Hname.
  pose proof (POST_inserts (newKey rand1 rand2 rand3 p) w
                ltac:(discriminate) (newKey_valid rand1 rand2 rand3 p Hname))
    as HPOST.
  pose proof (db_insert_log (row_of (newKey rand1 rand2 rand3 p)) w) as Hlog.
  split.
  - rewrite HPOST. simpl.
    destruct (fst (db_insert _ w)); simpl; discriminate.
  - rewrite (createKey_sends _ _ _ _ _ Hname). cbv zeta.
    set (body := newKey rand1 rand2 rand3 p) in *.
    set (w1 := snd (db_insert (row_of body) w)) in *.
    assert (Hfetch : exists answer,
               fetch (ReqCreate body) w = (Some answer, w1)).
    { unfold Dashboard.fetch. rewrite Hnet, HPOST. eauto. }
    destruct Hfetch as [answer Hfetch]. rewrite Hfetch.
    change (fst (Some answer, w1)) with (Some answer).
    change (snd (Some answer, w1)) with w1.
    destruct (succeeded (Some answer)); simpl snd.
    + match goal with
      | |- context [fetchKeys ?q w1] =>
          destruct (fetchKeys_log q w1) as [rest Hrest]
      end.
      exists rest. rewrite Hrest, Hlog, <- app_assoc. reflexivity.
    + exists []. exact Hlog.
Qed.

(** X10: a create that goes through.  With the routes in reach, the store
    answering, a name that is not blank, a generated secret that no row
    holds and a fresh identifier at hand, the store gains exactly the row
    of the form (trimmed name, generated secret, chosen scopes or
    ["read"], chosen environment, active, never used, stamped by the
    store); the form is closed and back to its defaults, a success toast is
    on display, and the list is what the store now answers. *)
Theorem createKey_creates (rand1 rand2 rand3 : string) (p : Page)
  (w : World) (uuid : string) (rest : list string) :
  net_down w = false -> db_down w = false ->
  trim (newName (form p)) <> "" ->
  has_secret
    (generateSecret (environment_text (newEnvironment (form p)))
       rand1 rand2 rand3) (table w) = false ->
  db_uuids w = uuid :: rest ->
  has_id uuid (table w) = false ->
  table (snd (createKey rand1 rand2 rand3 p w))
  = table w ++ [created_row rand1 rand2 rand3 p w uuid]
  /\ form (fst (createKey rand1 rand2 rand3 p w)) = blank_form
  /\ toast (fst (createKey rand1 rand2 rand3 p w))
     = mkToast true "API key created successfully!" toast_success
  /\ fst (GET (param status_text (filterStatus p))
              (param environment_text (filterEnvironment p))
              (snd (createKey rand1 rand2 rand3 p w)))
     = mkResponse 200 (BData (keys (fst (createKey rand1 rand2 rand3 p w)))).
Proof.
  intros Hnet Hdb Hname Hfresh Huuid Hid.
  set (body := newKey rand1 rand2 rand3 p).
  set (row := created_row rand1 rand2 rand3 p w uuid).
  set (w1 := set_table (table w ++ [row])
               (set_db_uuids rest (received (SInsert (row_of body)) w))).
  assert (Hins : db_insert (row_of body) w = (inr row, w1)).
  { unfold db_insert, row_of, body, newKey. simpl.
    rewrite Hdb, all_text_strings, environment_of_text_text. simpl.
    rewrite Hfresh, Huuid, Hid. reflexivity. }
  assert (Hfetch : fetch (ReqCreate body) w
                   = (Some (mkResponse 201 (BRecord row)), w1)).
  { unfold Dashboard.fetch. rewrite Hnet.
    rewrite (POST_inserts body w ltac:(discriminate)
               (newKey_valid rand1 rand2 rand3 p Hname)).
    rewrite Hins. reflexivity. }
  rewrite (createKey_sends _ _ _ _ _ Hname). cbv zeta. fold body.
  rewrite Hfetch. simpl fst. simpl snd.
  change (succeeded (Some (mkResponse 201 (BRecord row)))) with true.
  cbv iota.
  set (q := emit (EFetch (ReqCreate body)) p).
  destruct (fetchKeys_refresh PATCH DELETE q w1 Hnet Hdb)
    as [HG [Ht [Hd' [Hn' _]]]].
  simpl fst. simpl snd.
  split; [exact Ht |]. split; [reflexivity |]. split; [reflexivity |].
  simpl. rewrite <- HG.
  apply GET_same; [exact Ht | rewrite Hd'; symmetry; exact Hdb].
Qed.

(** X11: a create with a blank name does nothing at all (no request, no
    toast); a create whose request fails keeps the form as it was typed
    (still open) and the list as it was, and shows the error toast. *)
Theorem createKey_blank_or_failed (rand1 rand2 rand3 : string) (p : Page)
  (w : World) :
  (trim (newName (form p)) = "" -> createKey rand1 rand2 rand3 p w = (p, w))
  /\ (trim (newName (form p)) <> "" ->
      succeeded (fst (fetch (ReqCreate (newKey rand1 rand2 rand3 p)) w))
      = false ->
      form (fst (createKey rand1 rand2 rand3 p w)) = form p
      /\ keys (fst (createKey rand1 rand2 rand3 p w)) = keys p
      /\ toast (fst (createKey rand1 rand2 rand3 p w))
         = mkToast true "Failed to create API key. Please try again."
             toast_error
      /\ snd (createKey rand1 rand2 rand3 p w)
         = snd (fetch (ReqCreate (newKey rand1 rand2 rand3 p)) w)).
Proof.
  split.
  - intros Hblank. unfold Dashboard.createKey. rewrite Hblank. reflexivity.
  - intros Hname Hfailed.
    rewrite (createKey_sends _ _ _ _ _ Hname). cbv zeta.
    rewrite Hfailed. repeat split.
Qed.

(** [saveEdit] once an edit is open and the draft has a name. *)
Lemma saveEdit_sends (key : string) (p : Page) (w : World) :
  editingId p = Some key -> key <> "" ->
  trim (d_name (editDraft p)) <> "" ->
  saveEdit p w
  = let request := ReqPatch key (edit_patch p) in
    let q := emit (EFetch request) p in
    if succeeded (fst (fetch request w))
    then
      (showToastNotification "API key updated successfully!" toast_success
         (setEditingId None (fst (fetchKeys q (snd (fetch request w))))),
       snd (fetchKeys q (snd (fetch request w))))
    else
      (showToastNotification "Failed to update API key. Please try again."
         toast_error q,
       snd (fetch request w)).
Proof.
  intros Hediting Hkey Hname. apply String.eqb_neq in Hkey, Hname.
  unfold Dashboard.saveEdit. rewrite Hediting, Hkey, Hname.
  fold (edit_patch p). simpl orb. cbv iota zeta.
  destruct (fetch (ReqPatch key (edit_patch p)) w) as [response w1].
  simpl fst. simpl snd. fold (succeeded response).
  destruct (succeeded response); [| reflexivity].
  destruct (fetchKeys _ w1) as [p2 w2]. reflexivity.
Qed.

(** X12: saving does nothing at all when no edit is open or the draft name
    is blank.  Otherwise one PATCH is sent for the edited record, carrying
    the trimmed name, the scopes and the environment of the draft and
    nothing else; when it fails the page stays in edit mode with the draft
    and the list as they were and shows the error toast, the request and
    the toast being its only events; when it succeeds the list is
    refreshed, the page leaves edit mode and shows the success toast. *)
Theorem saveEdit_outcomes (p : Page) (w : World) :
  (editingId p = None \/ editingId p = Some ""
   \/ trim (d_name (editDraft p)) = "" ->
   saveEdit p w = (p, w))
  /\ (forall key,
        editingId p = Some key -> key <> "" ->
        trim (d_name (editDraft p)) <> "" ->
        (succeeded (fst (fetch (ReqPatch key (edit_patch p)) w)) = false ->
         editingId (fst (saveEdit p w)) = Some key
         /\ editDraft (fst (saveEdit p w)) = editDraft p
         /\ keys (fst (saveEdit p w)) = keys p
         /\ toast (fst (saveEdit p w))
            = mkToast true "Failed to update API key. Please try again."
                toast_error
         /\ events (browser (fst (saveEdit p w)))
            = events (browser p)
              ++ [EFetch (ReqPatch key (edit_patch p));
                  EToast "Failed to update API key. Please try again."
                    toast_error])
        /\ (succeeded (fst (fetch (ReqPatch key (edit_patch p)) w)) = true ->
            editingId (fst (saveEdit p w)) = None
            /\ editDraft (fst (saveEdit p w)) = editDraft p
            /\ toast (fst (saveEdit p w))
               = mkToast true "API key updated successfully!"
                   toast_success
            /\ events (browser (fst (saveEdit p w)))
               = events (browser p)
                 ++ [EFetch (ReqPatch key (edit_patch p));
                     EFetch (list_request p);
                     EToast "API key updated successfully!" toast_success])).
Proof.
  split.
  - unfold Dashboard.saveEdit.
    intros [-> | [-> | Hblank]]; [reflexivity | reflexivity |].
    destruct (editingId p) as [key |]; [| reflexivity].
    rewrite Hblank. rewrite orb_true_r. reflexivity.
  - intros key Hediting Hkey Hname.
    rewrite (saveEdit_sends key p w Hediting Hkey Hname). cbv zeta.
    split; intros Hresult; rewrite Hresult.
    + split; [exact Hediting |]. split; [reflexivity |].
      split; [reflexivity |]. split; [reflexivity |].
      simpl. rewrite <- app_assoc. reflexivity.
    + set (q := emit (EFetch (ReqPatch key (edit_patch p))) p).
      set (w1 := snd (fetch (ReqPatch key (edit_patch p)) w)).
      destruct (fetchKeys_frame PATCH DELETE q w1)
        as [_ [_ [_ [Hdraft [_ [_ [_ [_ Hev]]]]]]]].
      split; [reflexivity |]. split; [exact Hdraft |].
      split; [reflexivity |].
      simpl fst. rewrite showToastNotification_events.
      change (events (browser (setEditingId None ?x)))
        with (events (browser x)).
      rewrite Hev. subst q. simpl. rewrite <- !app_assoc. reflexivity.
Qed.

(** X13: rotating or toggling an id that is not in the list sends nothing
    and changes nothing; when the record is listed and the request fails,
    the list is kept and the only events are the request and the alert. *)
Theorem rotate_toggle_unlisted_or_failed (rand1 rand2 rand3 key : string)
  (p : Page) (w : World) :
  (find_key key p = None ->
   rotateKey rand1 rand2 rand3 key p w = (p, w)
   /\ toggleStatus key p w = (p, w))
  /\ (forall k u,
        find_key key p = Some k ->
        u = mkUpdate None None (Some (flip (status k))) None None None ->
        succeeded (fst (fetch (ReqPatch key u) w)) = false ->
        keys (fst (toggleStatus key p w)) = keys p
        /\ events (browser (fst (toggleStatus key p w)))
           = events (browser p)
             ++ [EFetch (ReqPatch key u);
                 EAlert "Failed to toggle API key status. Please try again."])
  /\ (forall k u,
        find_key key p = Some k ->
        u = mkUpdate None
              (Some (generateSecret (environment_text (environment k))
                       rand1 rand2 rand3))
              None None (Some (Some (clock (browser p)))) None ->
        succeeded (fst (fetch (ReqPatch key u) w)) = false ->
        keys (fst (rotateKey rand1 rand2 rand3 key p w)) = keys p
        /\ events (browser (fst (rotateKey rand1 rand2 rand3 key p w)))
           = events (browser p)
             ++ [EFetch (ReqPatch key u);
                 EAlert "Failed to rotate API key. Please try again."]).
Proof.
  split; [| split].
  - intros Hnone. unfold Dashboard.rotateKey, Dashboard.toggleStatus.
    rewrite Hnone. split; reflexivity.
  - intros k u Hfind -> Hfailed.
    unfold Dashboard.toggleStatus. rewrite Hfind.
    match goal with
    | |- context [fetch ?r w] => destruct (fetch r w) as [response w1]
    end.
    simpl in Hfailed. fold (succeeded response). rewrite Hfailed.
    simpl. rewrite <- app_assoc. split; reflexivity.
  - intros k u Hfind -> Hfailed.
    unfold Dashboard.rotateKey. rewrite Hfind.
    match goal with
    | |- context [fetch ?r w] => destruct (fetch r w) as [response w1]
    end.
    simpl in Hfailed. fold (succeeded response). rewrite Hfailed.
    simpl. rewrite <- app_assoc. split; reflexivity.
Qed.

End AnyRoutesForms.

Lemma createKey_reaches_store_witness :
  resp_status
    (fst (POST (Some (newKey "x4k2p9" "q81zmd" "7hw3ca" mobile_form))
            seed_world)) <> 400.
Proof.
  apply (createKey_reaches_store RouteById.PATCH (RouteById.DELETE 204)
           "x4k2p9" "q81zmd" "7hw3ca" mobile_form seed_world).
  - reflexivity.
  - vm_compute. discriminate.
Defined.

Lemma createKey_creates_witness :
  table (snd (Dashboard.createKey RouteById.PATCH (RouteById.DELETE 204)
                "x4k2p9" "q81zmd" "7hw3ca" mobile_form seed_world))
  = table seed_world
    ++ [created_row "x4k2p9" "q81zmd" "7hw3ca" mobile_form seed_world
          "550e8400-e29b-41d4-a716-446655440004"].
Proof.
  apply (createKey_creates RouteById.PATCH (RouteById.DELETE 204)
           "x4k2p9" "q81zmd" "7hw3ca" mobile_form seed_world
           "550e8400-e29b-41d4-a716-446655440004"
           ["550e8400-e29b-41d4-a716-446655440005"]);
    try reflexivity.
  vm_compute. discriminate.
Defined.

Lemma createKey_blank_or_failed_witness :
  Dashboard.createKey RouteById.PATCH (RouteById.DELETE 204)
    "x4k2p9" "q81zmd" "7hw3ca" (mounted seed_world) seed_world
  = (mounted seed_world, seed_world)
  /\ form (fst (Dashboard.createKey RouteById.PATCH (RouteById.DELETE 204)
                  "x4k2p9" "q81zmd" "7hw3ca" mobile_form seed_world_down))
     = form mobile_form.
Proof.
  split.
  - apply (createKey_blank_or_failed RouteById.PATCH (RouteById.DELETE 204)
             "x4k2p9" "q81zmd" "7hw3ca" (mounted seed_world) seed_world).
    reflexivity.
  - apply (createKey_blank_or_failed RouteById.PATCH (RouteById.DELETE 204)
             "x4k2p9" "q81zmd" "7hw3ca" mobile_form seed_world_down).
    + vm_compute. discriminate.
    + reflexivity.
Defined.

Lemma saveEdit_outcomes_witness :
  Dashboard.saveEdit RouteById.PATCH (RouteById.DELETE 204)
    (mounted seed_world) seed_world
  = (mounted seed_world, seed_world)
  /\ editingId
       (fst (Dashboard.saveEdit RouteById.PATCH (RouteById.DELETE 204)
               (startEdit production_row (mounted seed_world))
               seed_world_down))
     = Some production_key.
Proof.
  split.
  - apply (saveEdit_outcomes RouteById.PATCH (RouteById.DELETE 204)
             (mounted seed_world) seed_world).
    left. reflexivity.
  - destruct (saveEdit_outcomes RouteById.PATCH (RouteById.DELETE 204)
                (startEdit production_row (mounted seed_world))
                seed_world_down) as [_ H].
    destruct (H production_key) as [Hfailed _].
    + reflexivity.
    + discriminate.
    + vm_compute. discriminate.
    + apply Hfailed. reflexivity.
Defined.

Lemma rotate_toggle_unlisted_or_failed_witness :
  Dashboard.toggleStatus RouteById.PATCH (RouteById.DELETE 204) "no-such-id"
    (mounted seed_world) seed_world
  = (mounted seed_world, seed_world).
Proof.
  apply (rotate_toggle_unlisted_or_failed RouteById.PATCH
           (RouteById.DELETE 204) "x4k2p9" "q81zmd" "7hw3ca" "no-such-id"
           (mounted seed_world) seed_world).
  reflexivity.
Defined.

(* ------------------------------------------------------------------ *)
(** ** Masking a secret *)

Lemma slice_start_app (pre rest : Display.units) :
  Display.slice_start (List.length pre) (pre ++ rest) = pre.
Proof.
  unfold Display.slice_start. rewrite firstn_app, Nat.sub_diag, firstn_all.
  simpl. apply app_nil_r.
Qed.

Lemma slice_end_app (rest post : Display.units) :
  Display.slice_end (List.length post) (rest ++ post) = post.
Proof.
  unfold Display.slice_end. rewrite length_app.
  replace (List.length rest + List.length post - List.length post)%nat
    with (List.length rest + 0)%nat by lia.
  rewrite skipn_app, Nat.add_0_r, skipn_all.
  replace (List.length rest - List.length rest)%nat with O by lia.
  reflexivity.
Qed.

(** X14: the masked form of a secret of fourteen code units or more is its
    first ten units, ten bullets and its last four units, with nothing of
    what lies between: two secrets that differ only in the middle are
    displayed alike. *)
Theorem formatSecret_hides_middle (pre mid mid' post : Display.units) :
  List.length pre = 10%nat -> List.length post = 4%nat ->
  Display.formatSecret (pre ++ mid ++ post) false
  = pre ++ Display.bullets ++ post
  /\ Display.formatSecret (pre ++ mid ++ post) false
     = Display.formatSecret (pre ++ mid' ++ post) false.
Proof.
  intros Hpre Hpost.
  assert (Hshape : forall m,
            Display.formatSecret (pre ++ m ++ post) false
            = pre ++ Display.bullets ++ post).
  { intros m. unfold Display.formatSecret.
    rewrite !length_app, Hpre, Hpost.
    replace (Nat.leb (10 + (List.length m + 4)) 10) with false
      by (symmetry; apply Nat.leb_gt; lia).
    pose proof (slice_start_app pre (m ++ post)) as Hs.
    pose proof (slice_end_app (pre ++ m) post) as He.
    rewrite Hpre in Hs. rewrite Hpost, <- app_assoc in He.
    rewrite Hs, He. reflexivity. }
  split; [apply Hshape |]. rewrite !Hshape. reflexivity.
Qed.

Lemma formatSecret_hides_middle_witness :
  Display.formatSecret [103; 114; 111; 111; 116; 95; 108; 105; 118; 101;
                        95; 52; 51; 102; 106;
                        48; 120; 57; 112]%N false
  = Display.formatSecret [103; 114; 111; 111; 116; 95; 108; 105; 118; 101;
                          95; 8364; 55357; 56832;
                          48; 120; 57; 112]%N false.
Proof.
  apply (formatSecret_hides_middle
           [103; 114; 111; 111; 116; 95; 108; 105; 118; 101]%N
           [95; 52; 51; 102; 106]%N [95; 8364; 55357; 56832]%N
           [48; 120; 57; 112]%N); reflexivity.
Defined.

(** X15: the mask at its edges.  A secret of at most ten code units is
    displayed as ten bullets, whatever it is (not even its length shows);
    a secret of eleven to fourteen code units is displayed with all of its
    units: the ten before the bullets and the four after them cover it. *)
Theorem formatSecret_short (s : Display.units) :
  ((List.length s <= 10)%nat ->
   Display.formatSecret s false = Display.bullets)
  /\ ((10 < List.length s <= 14)%nat ->
      Display.formatSecret s false
      = Display.slice_start 10 s ++ Display.bullets ++ Display.slice_end 4 s
      /\ s = Display.slice_start 10 s
             ++ skipn (14 - List.length s) (Display.slice_end 4 s)).
Proof.
  split.
  - intros Hlen. unfold Display.formatSecret.
    apply Nat.leb_le in Hlen. rewrite Hlen. reflexivity.
  - intros [Hlo Hhi]. split.
    + unfold Display.formatSecret.
      apply Nat.leb_gt in Hlo. rewrite Hlo. reflexivity.
    + unfold Display.slice_start, Display.slice_end.
      rewrite skipn_skipn.
      replace (14 - List.length s + (List.length s - 4))%nat with 10%nat
        by lia.
      symmetry. apply firstn_skipn.
Qed.

Lemma formatSecret_short_witness :
  Display.formatSecret [233; 233; 233; 233; 233; 233]%N false
  = Display.bullets
  /\ [103; 114; 111; 111; 116; 95; 100; 101; 118; 95; 97; 98]%N
     = Display.slice_start 10
         [103; 114; 111; 111; 116; 95; 100; 101; 118; 95; 97; 98]%N
       ++ skipn (14 - 12)
            (Display.slice_end 4
               [103; 114; 111; 111; 116; 95; 100; 101; 118; 95; 97; 98]%N).
Proof.
  split.
  - apply (formatSecret_short [233; 233; 233; 233; 233; 233]%N).
    simpl. lia.
  - destruct (formatSecret_short
                [103; 114; 111; 111; 116; 95; 100; 101; 118; 95; 97; 98]%N)
      as [_ H].
    apply H. simpl. lia.
Defined.

(* ------------------------------------------------------------------ *)
(** ** Selecting scopes and revealing secrets *)

Lemma includes_In (scope : string) (scopes : list string) :
  Display.includes scope scopes = true <-> In scope scopes.
Proof.
  unfold Display.includes. rewrite existsb_exists. split.
  - intros [x [Hx Heq]]. apply String.eqb_eq in Heq. subst. exact Hx.
  - intros H. exists scope. split; [exact H | apply String.eqb_refl].
Qed.

Lemma In_without (x scope : string) (scopes : list string) :
  In x (filter (fun s => negb (String.eqb s scope)) scopes)
  <-> In x scopes /\ x <> scope.
Proof.
  rewrite filter_In, negb_true_iff, String.eqb_neq. reflexivity.
Qed.

Lemma without_absent (scope : string) (scopes : list string) :
  ~ In scope scopes ->
  filter (fun s => negb (String.eqb s scope)) scopes = scopes.
Proof.
  intros H. apply filter_all. intros x Hx.
  apply negb_true_iff, String.eqb_neq. intros ->. contradiction.
Qed.

(** X16: toggling a scope flips whether that scope is selected and leaves
    the selection of every other scope alone; a selection without
    repetition stays without repetition. *)
Theorem toggleScope_flips_one (scopes : list string) (scope : string) :
  (In scope (Display.toggleScope scopes scope) <-> ~ In scope scopes)
  /\ (forall s, s <> scope ->
                (In s (Display.toggleScope scopes scope) <-> In s scopes))
  /\ (NoDup scopes -> NoDup (Display.toggleScope scopes scope)).
Proof.
  unfold Display.toggleScope.
  destruct (Display.includes scope scopes) eqn:E.
  - apply includes_In in E. split; [| split].
    + rewrite In_without. tauto.
    + intros s Hs. rewrite In_without. tauto.
    + apply NoDup_filter.
  - assert (Hout : ~ In scope scopes).
    { intros H. apply includes_In in H. congruence. }
    split; [| split].
    + rewrite in_app_iff. simpl. tauto.
    + intros s Hs. rewrite in_app_iff. simpl. split.
      * intros [H | [H | []]]; [exact H | congruence].
      * auto.
    + intros Hnd. apply NoDup_snoc; assumption.
Qed.

Lemma toggleScope_flips_one_witness :
  NoDup (Display.toggleScope ["read"; "write"] "write").
Proof.
  apply (toggleScope_flips_one ["read"; "write"] "write").
  repeat constructor; simpl; intuition discriminate.
Defined.

(** X17: toggling the same scope twice selects what was selected before;
    when the scope was not selected the list itself is back, and when it
    was, it has moved to the end of the list. *)
Theorem toggleScope_twice (scopes : list string) (scope : string) :
  (forall s, In s (Display.toggleScope
                     (Display.toggleScope scopes scope) scope)
             <-> In s scopes)
  /\ (~ In scope scopes ->
      Display.toggleScope (Display.toggleScope scopes scope) scope = scopes)
  /\ (In scope scopes ->
      Display.toggleScope (Display.toggleScope scopes scope) scope
      = filter (fun s => negb (String.eqb s scope)) scopes ++ [scope]).
Proof.
  assert (Habsent : ~ In scope scopes ->
            Display.toggleScope (Display.toggleScope scopes scope) scope
            = scopes).
  { intros Hout. unfold Display.toggleScope at 2.
    replace (Display.includes scope scopes) with false.
    - unfold Display.toggleScope.
      replace (Display.includes scope (scopes ++ [scope])) with true.
      + rewrite filter_app. simpl. rewrite String.eqb_refl. simpl.
        rewrite app_nil_r. apply without_absent, Hout.
      + symmetry. apply includes_In, in_or_app. right. left. reflexivity.
    - symmetry. destruct (Display.includes scope scopes) eqn:E;
        [apply includes_In in E; contradiction | reflexivity]. }
  assert (Hpresent : In scope scopes ->
            Display.toggleScope (Display.toggleScope scopes scope) scope
            = filter (fun s => negb (String.eqb s scope)) scopes ++ [scope]).
  { intros Hin. unfold Display.toggleScope at 2.
    replace (Display.includes scope scopes) with true
      by (symmetry; apply includes_In, Hin).
    unfold Display.toggleScope.
    replace (Display.includes scope
               (filter (fun s => negb (String.eqb s scope)) scopes))
      with false; [reflexivity |].
    symmetry.
    destruct (Display.includes scope (filter _ scopes)) eqn:E;
      [| reflexivity].
    apply includes_In, In_without in E. tauto. }
  split; [| split; assumption].
  intros s.
  destruct (in_dec string_dec scope scopes) as [Hin | Hout].
  - rewrite (Hpresent Hin), in_app_iff, In_without. simpl.
    destruct (string_dec s scope) as [-> | Hne]; [tauto |].
    split; [intros [[H _] | [H | []]]; [exact H | congruence] | tauto].
  - rewrite (Habsent Hout). reflexivity.
Qed.

Lemma toggleScope_twice_witness :
  Display.toggleScope (Display.toggleScope ["read"] "admin") "admin"
  = ["read"].
Proof.
  apply (toggleScope_twice ["read"] "admin").
  simpl. intuition discriminate.
Defined.

Lemma has_In (key : string) (set : list string) :
  Display.has key set = true <-> In key set.
Proof. exact (includes_In key set). Qed.

Lemma has_toggled (key other : string) (set : list string) :
  Display.has other (Display.toggleRevealSecret key set)
  = if String.eqb other key then negb (Display.has key set)
    else Display.has other set.
Proof.
  destruct (toggleScope_flips_one set key) as [Hflip [Hrest _]].
  change (Display.toggleScope set key)
    with (Display.toggleRevealSecret key set) in Hflip, Hrest.
  destruct (String.eqb other key) eqn:E.
  - apply String.eqb_eq in E. subst other.
    destruct (Display.has key set) eqn:Hk; simpl.
    + apply has_In in Hk.
      destruct (Display.has key (Display.toggleRevealSecret key set)) eqn:Ht;
        [| reflexivity].
      apply has_In, Hflip in Ht. contradiction.
    + apply has_In, Hflip. intros H. apply has_In in H. congruence.
  - apply String.eqb_neq in E. specialize (Hrest other E).
    destruct (Display.has other set) eqn:Ho.
    + apply has_In, Hrest, has_In, Ho.
    + destruct (Display.has other (Display.toggleRevealSecret key set))
        eqn:Ht; [| reflexivity].
      apply has_In, Hrest, has_In in Ht. congruence.
Qed.

(** X18: the reveal button of a row switches the secret cell of the rows
    with that id between the masked and the full secret and leaves the
    cell of every other row as it is; pressed twice, every cell is as
    before.  A row is given by its id and the code units of its secret. *)
Theorem toggleRevealSecret_cells (key : string) (revealed : list string)
  (row : string) (secret : Display.units) :
  (row = key ->
   Display.secret_cell (Display.toggleRevealSecret key revealed) row secret
   = Display.formatSecret secret (negb (Display.has key revealed)))
  /\ (row <> key ->
      Display.secret_cell (Display.toggleRevealSecret key revealed) row secret
      = Display.secret_cell revealed row secret)
  /\ Display.secret_cell
       (Display.toggleRevealSecret key
          (Display.toggleRevealSecret key revealed)) row secret
     = Display.secret_cell revealed row secret.
Proof.
  unfold Display.secret_cell. split; [| split].
  - intros ->. rewrite has_toggled, String.eqb_refl. reflexivity.
  - intros Hne. apply String.eqb_neq in Hne.
    rewrite has_toggled, Hne. reflexivity.
  - rewrite !has_toggled.
    destruct (String.eqb row key) eqn:E; [| reflexivity].
    apply String.eqb_eq in E. rewrite String.eqb_refl, negb_involutive, E.
    reflexivity.
Qed.

(** The secret of the witness is groot_live_43fj9dhwq22n0x9p, of the
    production row of the seed, in code units. *)
Lemma toggleRevealSecret_cells_witness :
  Display.secret_cell (Display.toggleRevealSecret production_key [])
    production_key
    [103; 114; 111; 111; 116; 95; 108; 105; 118; 101; 95; 52; 51; 102;
     106; 57; 100; 104; 119; 113; 50; 50; 110; 48; 120; 57; 112]%N
  = [103; 114; 111; 111; 116; 95; 108; 105; 118; 101; 95; 52; 51; 102;
     106; 57; 100; 104; 119; 113; 50; 50; 110; 48; 120; 57; 112]%N
  /\ Display.secret_cell (Display.toggleRevealSecret production_key [])
       (id staging_row) [233; 8364]%N
     = Display.secret_cell [] (id staging_row) [233; 8364]%N.
Proof.
  split.
  - apply (toggleRevealSecret_cells production_key [] production_key).
    reflexivity.
  - destruct (toggleRevealSecret_cells production_key [] (id staging_row)
                [233; 8364]%N) as [_ [H _]].
    apply H. discriminate.
Defined.

(* ------------------------------------------------------------------ *)
(** ** The first component (ApiKeyDashboard) *)

Lemma Forall2_map_self {A : Type} (R : A -> A -> Prop) (f : A -> A)
  (l : list A) :
  (forall x, R x (f x)) -> Forall2 R l (map f l).
Proof.
  intros H. induction l as [|x l IH]; simpl; constructor; auto.
Qed.

Lemma NoDup_map_inj {A B : Type} (f : A -> B) (l : list A) (a b : A) :
  NoDup (map f l) -> In a l -> In b l -> f a = f b -> a = b.
Proof.
  induction l as [|x l IH]; simpl; intros Hnd Ha Hb Hf; [easy |].
  inversion Hnd as [|? ? Hx Hrest]; subst.
  destruct Ha as [-> | Ha], Hb as [-> | Hb].
  - reflexivity.
  - exfalso. apply Hx. rewrite Hf. apply in_map. exact Hb.
  - exfalso. apply Hx. rewrite <- Hf. apply in_map. exact Ha.
  - apply IH; assumption.
Qed.

(** X19: in the first component, toggling the status of the same key
    twice gives back exactly the state it started from. *)
Theorem legacy_toggleStatus_twice (key : string) (s : Legacy.State) :
  Legacy.toggleStatus key (Legacy.toggleStatus key s) = s.
Proof.
  destruct s as [keys newName newScopes editingId editDraft].
  unfold Legacy.toggleStatus. simpl. f_equal.
  rewrite map_map. rewrite <- (map_id keys) at 2.
  apply map_ext. intros k.
  destruct (String.eqb (Legacy.id k) key) eqn:E; simpl; rewrite E;
    [| reflexivity].
  destruct k. simpl. rewrite flip_flip. reflexivity.
Qed.

(** X20: in the first component, rotating or toggling an id that no key
    has leaves the state exactly as it is. *)
Theorem legacy_unknown_id (rand1 rand2 rand3 rand4 today key : string)
  (s : Legacy.State) :
  (forall k, In k (Legacy.keys s) -> Legacy.id k <> key) ->
  Legacy.toggleStatus key s = s
  /\ Legacy.rotateKey rand1 rand2 rand3 rand4 today key s = s.
Proof.
  intros Hnone.
  destruct s as [keys newName newScopes editingId editDraft].
  unfold Legacy.toggleStatus, Legacy.rotateKey. simpl in *.
  split; f_equal; rewrite <- (map_id keys) at 2; apply map_ext_in;
    intros k Hk; apply Hnone, String.eqb_neq in Hk; rewrite Hk;
    reflexivity.
Qed.

Lemma legacy_unknown_id_witness :
  Legacy.toggleStatus "key-9" Legacy.initial = Legacy.initial.
Proof.
  apply (legacy_unknown_id "a" "b" "c" "d" "2024-12-20" "key-9"
           Legacy.initial).
  intros k Hk. simpl in Hk.
  destruct Hk as [<- | [<- | [<- | []]]]; discriminate.
Defined.

(** X21: in the first component, rotating a key gives the keys with that
    id the generated secret and today's date as [lastUsed]; their id,
    name, status, scopes and creation date stay, every other key is the
    same key at the same place, and the form and the edit in progress are
    untouched. *)
Theorem legacy_rotateKey_frame (rand1 rand2 rand3 rand4 today key : string)
  (s : Legacy.State) :
  Forall2
    (rotated_from key (Legacy.generateSecret rand1 rand2 rand3 rand4) today)
    (Legacy.keys s)
    (Legacy.keys (Legacy.rotateKey rand1 rand2 rand3 rand4 today key s))
  /\ Legacy.newName (Legacy.rotateKey rand1 rand2 rand3 rand4 today key s)
     = Legacy.newName s
  /\ Legacy.newScopes (Legacy.rotateKey rand1 rand2 rand3 rand4 today key s)
     = Legacy.newScopes s
  /\ Legacy.editingId (Legacy.rotateKey rand1 rand2 rand3 rand4 today key s)
     = Legacy.editingId s
  /\ Legacy.editDraft (Legacy.rotateKey rand1 rand2 rand3 rand4 today key s)
     = Legacy.editDraft s.
Proof.
  split; [| repeat split].
  unfold Legacy.rotateKey. simpl.
  apply Forall2_map_self. intros k. unfold rotated_from.
  destruct (String.eqb (Legacy.id k) key) eqn:E.
  - apply String.eqb_eq in E. simpl. repeat split; auto. contradiction.
  - apply String.eqb_neq in E. repeat split; auto; contradiction.
Qed.

(** X22: in the first component, creating with a blank name changes
    nothing; otherwise the new key is put in front of the keys, which are
    otherwise as before, it is active, carries the trimmed name and a
    selection of scopes that is never empty, and the form is back to its
    defaults; with a fresh identifier, ids that were distinct stay
    distinct. *)
Theorem legacy_createKey (uuid rand1 rand2 rand3 rand4 today : string)
  (s : Legacy.State) :
  (trim (Legacy.newName s) = "" ->
   Legacy.createKey uuid rand1 rand2 rand3 rand4 today s = s)
  /\ (trim (Legacy.newName s) <> "" ->
      exists next,
        Legacy.keys (Legacy.createKey uuid rand1 rand2 rand3 rand4 today s)
        = next :: Legacy.keys s
        /\ Legacy.id next = uuid
        /\ Legacy.name next = trim (Legacy.newName s)
        /\ Legacy.status next = active
        /\ Legacy.scopes next <> []
        /\ Legacy.newName
             (Legacy.createKey uuid rand1 rand2 rand3 rand4 today s) = ""
        /\ Legacy.newScopes
             (Legacy.createKey uuid rand1 rand2 rand3 rand4 today s)
           = ["read"]
        /\ (NoDup (map Legacy.id (Legacy.keys s)) ->
            ~ In uuid (map Legacy.id (Legacy.keys s)) ->
            NoDup (map Legacy.id
                     (Legacy.keys
                        (Legacy.createKey uuid rand1 rand2 rand3 rand4
                           today s))))).
Proof.
  unfold Legacy.createKey. split.
  - intros ->. reflexivity.
  - intros Hname. apply String.eqb_neq in Hname. rewrite Hname.
    eexists. split; [reflexivity |]. simpl.
    repeat split; auto.
    + destruct (Legacy.newScopes s); discriminate.
    + intros Hnd Hfresh. constructor; assumption.
Qed.

Lemma legacy_createKey_witness :
  Legacy.createKey "key-4" "a" "b" "c" "d" "2024-12-20" Legacy.initial
  = Legacy.initial.
Proof.
  apply (legacy_createKey "key-4" "a" "b" "c" "d" "2024-12-20"
           Legacy.initial).
  reflexivity.
Defined.

(** X23: in the first component, saving changes nothing when no edit is
    open or the draft name is blank (the edit then stays open); otherwise
    it leaves edit mode and gives the keys with the edited id the trimmed
    name and the scopes of the draft: their id, secret, status and dates
    stay, and every other key is the same key at the same place. *)
Theorem legacy_saveEdit (s : Legacy.State) :
  (Legacy.editingId s = None \/ Legacy.editingId s = Some ""
   \/ trim (Legacy.d_name (Legacy.editDraft s)) = "" ->
   Legacy.saveEdit s = s)
  /\ (forall key,
        Legacy.editingId s = Some key -> key <> "" ->
        trim (Legacy.d_name (Legacy.editDraft s)) <> "" ->
        Legacy.editingId (Legacy.saveEdit s) = None
        /\ Forall2
             (edited_from key (trim (Legacy.d_name (Legacy.editDraft s)))
                (Legacy.d_scopes (Legacy.editDraft s)))
             (Legacy.keys s) (Legacy.keys (Legacy.saveEdit s))).
Proof.
  unfold Legacy.saveEdit. split.
  - intros [-> | [-> | Hblank]]; [reflexivity | reflexivity |].
    destruct (Legacy.editingId s); [| reflexivity].
    rewrite Hblank, orb_true_r. reflexivity.
  - intros key -> Hkey Hname.
    apply String.eqb_neq in Hkey, Hname. rewrite Hkey, Hname. simpl.
    split; [reflexivity |].
    apply Forall2_map_self. intros k. unfold edited_from.
    destruct (String.eqb (Legacy.id k) key) eqn:E.
    + apply String.eqb_eq in E. simpl. repeat split; auto. contradiction.
    + apply String.eqb_neq in E. repeat split; auto; contradiction.
Qed.

Lemma legacy_saveEdit_witness :
  Legacy.saveEdit Legacy.initial = Legacy.initial
  /\ Legacy.editingId
       (Legacy.saveEdit
          (Legacy.startEdit (hd (Legacy.mkApiKey "" "" "" active [] "" "")
                               Legacy.seedKeys)
             Legacy.initial)) = None.
Proof.
  split.
  - apply (legacy_saveEdit Legacy.initial). left. reflexivity.
  - destruct (legacy_saveEdit
                (Legacy.startEdit
                   (hd (Legacy.mkApiKey "" "" "" active [] "" "")
                      Legacy.seedKeys) Legacy.initial)) as [_ H].
    apply (H "key-1"); [reflexivity | discriminate |].
    vm_compute. discriminate.
Defined.

(** X24: in the first component, opening the edit of a listed key and
    saving it at once leaves the keys as they were, provided ids are
    distinct and the key's name is already trimmed; when the id and the
    name of the key are not empty, the edit is closed as well. *)
Theorem legacy_edit_round_trip (k : Legacy.ApiKey) (s : Legacy.State) :
  NoDup (map Legacy.id (Legacy.keys s)) ->
  In k (Legacy.keys s) ->
  trim (Legacy.name k) = Legacy.name k ->
  Legacy.keys (Legacy.saveEdit (Legacy.startEdit k s)) = Legacy.keys s
  /\ (Legacy.id k <> "" -> Legacy.name k <> "" ->
      Legacy.editingId (Legacy.saveEdit (Legacy.startEdit k s)) = None).
Proof.
  intros Hnd Hin Htrim.
  unfold Legacy.saveEdit, Legacy.startEdit. simpl.
  rewrite Htrim.
  split.
  - destruct (String.eqb (Legacy.id k) "" || String.eqb (Legacy.name k) "");
      [reflexivity |].
    simpl.
    rewrite <- (map_id (Legacy.keys s)) at 2.
    apply map_ext_in. intros x Hx.
    destruct (String.eqb (Legacy.id x) (Legacy.id k)) eqn:E; [| reflexivity].
    apply String.eqb_eq in E.
    rewrite (NoDup_map_inj Legacy.id _ x k Hnd Hx Hin E).
    destruct k. reflexivity.
  - intros Hid Hname.
    apply String.eqb_neq in Hid, Hname. rewrite Hid, Hname. reflexivity.
Qed.

Lemma legacy_edit_round_trip_witness :
  Legacy.keys
    (Legacy.saveEdit
       (Legacy.startEdit
          (hd (Legacy.mkApiKey "" "" "" active [] "" "") Legacy.seedKeys)
          Legacy.initial))
  = Legacy.seedKeys.
Proof.
  apply (legacy_edit_round_trip
           (hd (Legacy.mkApiKey "" "" "" active [] "" "") Legacy.seedKeys)
           Legacy.initial).
  - simpl. repeat constructor; simpl; intuition discriminate.
  - left. reflexivity.
  - reflexivity.
Defined.


(** X25: the mask of the first component shows a secret of at most six
    code units in full, and a secret of seven to ten code units with all
    of its units around the dots; from ten code units on it shows the
    first six and the last four and nothing of what lies between. *)
Theorem legacy_formatSecret (s pre mid post : Display.units) :
  ((List.length s <= 6)%nat -> Legacy.formatSecret s = s)
  /\ ((6 < List.length s <= 10)%nat ->
      Legacy.formatSecret s
      = Display.slice_start 6 s ++ Legacy.dots ++ Display.slice_end 4 s
      /\ s = Display.slice_start 6 s
             ++ skipn (10 - List.length s) (Display.slice_end 4 s))
  /\ (List.length pre = 6%nat -> List.length post = 4%nat ->
      Legacy.formatSecret (pre ++ mid ++ post)
      = pre ++ Legacy.dots ++ post).
Proof.
  split; [| split].
  - intros Hlen. unfold Legacy.formatSecret.
    apply Nat.leb_le in Hlen. rewrite Hlen. reflexivity.
  - intros [Hlo Hhi]. split.
    + unfold Legacy.formatSecret.
      apply Nat.leb_gt in Hlo. rewrite Hlo. reflexivity.
    + unfold Display.slice_start, Display.slice_end.
      rewrite skipn_skipn.
      replace (10 - List.length s + (List.length s - 4))%nat with 6%nat
        by lia.
      symmetry. apply firstn_skipn.
  - intros Hpre Hpost. unfold Legacy.formatSecret.
    rewrite !length_app, Hpre, Hpost.
    replace (Nat.leb (6 + (List.length mid + 4)) 6) with false
      by (symmetry; apply Nat.leb_gt; lia).
    pose proof (slice_start_app pre (mid ++ post)) as Hs.
    pose proof (slice_end_app (pre ++ mid) post) as He.
    rewrite Hpre in Hs. rewrite Hpost, <- app_assoc in He.
    rewrite Hs, He. reflexivity.
Qed.

(** The secrets of the witness are pk_1 and pk_live_43fj-9dhw-q22n-0x9p,
    of the first seed key, in code units. *)
Lemma legacy_formatSecret_witness :
  Legacy.formatSecret [112; 107; 95; 49]%N = [112; 107; 95; 49]%N
  /\ Legacy.formatSecret
       [112; 107; 95; 108; 105; 118; 101; 95; 52; 51; 102; 106; 45; 57;
        100; 104; 119; 45; 113; 50; 50; 110; 45; 48; 120; 57; 112]%N
     = [112; 107; 95; 108; 105; 118]%N ++ Legacy.dots
       ++ [48; 120; 57; 112]%N.
Proof.
  split.
  - destruct (legacy_formatSecret [112; 107; 95; 49]%N [] [] []) as [H _].
    apply H. simpl. lia.
  - destruct (legacy_formatSecret []
                [112; 107; 95; 108; 105; 118]%N
                [101; 95; 52; 51; 102; 106; 45; 57; 100; 104; 119; 45;
                 113; 50; 50; 110; 45]%N
                [48; 120; 57; 112]%N)
      as [_ [_ H]].
    apply H; reflexivity.
Defined.

(* ------------------------------------------------------------------ *)
(** ** Copying a secret *)

(** X26: the copy button of a row puts the full secret on the clipboard
    whether or not the row is masked, marks the rows with that id (and no
    other) as copied and shows exactly one toast; when the clipboard
    refuses, the clipboard and the mark are as before and exactly one
    toast, an error, is shown.  The set of revealed rows is never
    touched. *)
Theorem copy_row_outcomes (written : bool) (key : ApiKey) (d : Display.Desk) :
  notified_once (Display.page d)
    (Display.page (Display.copy_row written key d))
  /\ Display.revealedSecrets (Display.copy_row written key d)
     = Display.revealedSecrets d
  /\ (written = true ->
      Display.clipboard (Display.copy_row written key d) = Some (secret key)
      /\ (forall other,
            Display.isCopied (Display.copy_row written key d) other = true
            <-> id other = id key)
      /\ toastType (toast (Display.page (Display.copy_row written key d)))
         = toast_success)
  /\ (written = false ->
      Display.clipboard (Display.copy_row written key d)
      = Display.clipboard d
      /\ Display.copiedId (Display.copy_row written key d)
         = Display.copiedId d
      /\ toastType (toast (Display.page (Display.copy_row written key d)))
         = toast_error).
Proof.
  unfold Display.copy_row, Display.copySecret.
  split; [| split; [| split]].
  - destruct written; apply showToastNotification_notified.
  - destruct written; reflexivity.
  - intros ->. split; [reflexivity |]. split; [| reflexivity].
    intros other. unfold Display.isCopied. simpl.
    rewrite String.eqb_eq. split; congruence.
  - intros ->. repeat split.
Qed.

Lemma copy_row_outcomes_witness :
  Display.clipboard
    (Display.copy_row true production_row
       (Display.mkDesk (mounted seed_world) [] None None))
  = Some "groot_live_43fj9dhwq22n0x9p".
Proof.
  destruct (copy_row_outcomes true production_row
              (Display.mkDesk (mounted seed_world) [] None None))
    as [_ [_ [H _]]].
  apply H. reflexivity.
Defined.
